(** * Wave Hunger Game: the combat engine of [WHG.cpp]

    A shallow embedding of the unit model ([class Unit] and its four
    concrete classes), of the status-effect table, of the damage pipeline
    and of the battle loop ([gameLoop]), followed by the properties of the
    engine.

    Conventions of the embedding.
    - A C++ [int] is a [Z].  Signed overflow is undefined in C++, so there is
      no wrap-around to write out: the model describes the executions in
      which every intermediate value fits an [int].
    - [std::string] is [string]; [to_string(int)] is the decimal printer of
      the standard library.
    - [std::map<StatusEffect,int>] is an association list kept strictly
      sorted by key, which is the order in which [std::map] iterates.
    - [std::vector] is [list]; [push_back] appends at the end.
    - A member function that mutates [*this] takes the unit and returns the
      new one; a skill, which also mutates its target, returns both. *)

From Stdlib Require Import ZArith List String Ascii Bool Lia.
From Stdlib Require Import Numbers.DecimalString.
Import ListNotations.

Local Open Scope string_scope.
Local Open Scope list_scope.
Local Open Scope Z_scope.

(** ** Utilities *)

Definition to_string (x : Z) : string :=
  NilZero.string_of_int (Z.to_int x).

Definition push_back {A : Type} (v : list A) (x : A) : list A :=
  v ++ [x].

(** The escape character that starts the colour codes of the source
    (written [\033] there). *)
Definition ESC : string := String (ascii_of_nat 27) EmptyString.

Definition NL : string := String (ascii_of_nat 10) EmptyString.

(** ** Status effects *)

Inductive StatusEffect : Type :=
| NONE
| POISON
| BLEED
| STUN
| STRENGTH_UP
| WEAKNESS.

(** The value of the enumerator, which orders the keys of the table. *)
Definition rank (e : StatusEffect) : Z :=
  match e with
  | NONE => 0
  | POISON => 1
  | BLEED => 2
  | STUN => 3
  | STRENGTH_UP => 4
  | WEAKNESS => 5
  end.

Definition effect_eqb (a b : StatusEffect) : bool := rank a =? rank b.

Definition statusNames (e : StatusEffect) : string :=
  match e with
  | NONE => "None"
  | POISON => "Poison"
  | BLEED => "Bleed"
  | STUN => "Stun"
  | STRENGTH_UP => "Strength Up"
  | WEAKNESS => "Weakness"
  end.

(** *** The table: [std::map<StatusEffect, int>] *)

Module StatusMap.

Definition t : Type := list (StatusEffect * Z).

Definition empty : t := [].

(** [m[k] = v]: overwrite the entry of [k], or insert it at its place. *)
Fixpoint set (k : StatusEffect) (v : Z) (m : t) : t :=
  match m with
  | [] => [(k, v)]
  | (k', v') :: rest =>
      if rank k <? rank k' then (k, v) :: (k', v') :: rest
      else if rank k =? rank k' then (k, v) :: rest
      else (k', v') :: set k v rest
  end.

(** [m.erase(k)] *)
Fixpoint erase (k : StatusEffect) (m : t) : t :=
  match m with
  | [] => []
  | (k', v') :: rest =>
      if effect_eqb k k' then erase k rest else (k', v') :: erase k rest
  end.

(** [m.find(k)], as an option. *)
Fixpoint find (k : StatusEffect) (m : t) : option Z :=
  match m with
  | [] => None
  | (k', v') :: rest => if effect_eqb k k' then Some v' else find k rest
  end.

(** [m.count(k)] *)
Definition count (k : StatusEffect) (m : t) : Z :=
  Z.of_nat (List.length (List.filter (fun kv => effect_eqb k (fst kv)) m)).

Definition keys (m : t) : list StatusEffect := List.map fst m.

(** The representation invariant of [std::map]: keys strictly increasing. *)
Fixpoint sorted_from (lo : Z) (m : t) : Prop :=
  match m with
  | [] => True
  | (k, _) :: rest => lo < rank k /\ sorted_from (rank k) rest
  end.

Definition sorted (m : t) : Prop := sorted_from (-1) m.

End StatusMap.

(** ** Items and potions *)

Inductive ItemType : Type := WEAPON | ARMOR | ACCESSORY | POTION.

Record Potion : Type := mkPotion {
  potionName : string;
  potionAmount : Z;
  isHealthPotion : bool
}.

(** The eight concrete subclasses of [Item]; the fields of the base class
    are the constructor arguments each subclass passes. *)
Inductive Item : Type :=
| FireSword
| IceShield
| VampireRing
| PoisonDagger
| DragonScale
| LightningOrb
| HealthPotion
| ManaPotion.

Module ItemData.

Definition getName (i : Item) : string :=
  match i with
  | FireSword => "Fire Sword"
  | IceShield => "Ice Shield"
  | VampireRing => "Vampire Ring"
  | PoisonDagger => "Poison Dagger"
  | DragonScale => "Dragon Scale"
  | LightningOrb => "Lightning Orb"
  | HealthPotion => "Health Potion"
  | ManaPotion => "Mana Potion"
  end.

Definition getType (i : Item) : ItemType :=
  match i with
  | FireSword | PoisonDagger => WEAPON
  | IceShield | DragonScale => ARMOR
  | VampireRing | LightningOrb => ACCESSORY
  | HealthPotion | ManaPotion => POTION
  end.

Definition getAttackBonus (i : Item) : Z :=
  match i with
  | FireSword => 15
  | VampireRing => 5
  | PoisonDagger => 8
  | DragonScale => 10
  | LightningOrb => 12
  | IceShield | HealthPotion | ManaPotion => 0
  end.

Definition getHealthBonus (i : Item) : Z :=
  match i with
  | IceShield => 20
  | DragonScale => 30
  | HealthPotion => 30
  | _ => 0
  end.

Definition getDefenseBonus (i : Item) : Z :=
  match i with
  | IceShield => 10
  | DragonScale => 5
  | _ => 0
  end.

Definition getManaBonus (i : Item) : Z :=
  match i with
  | ManaPotion => 20
  | _ => 0
  end.

End ItemData.

(** ** Units *)

(** The dynamic type of a unit.  [BossUnit] carries its three skill names;
    its three skill costs are set to 15, 20 and 25 by its only constructor
    and never assigned again, so they are the constants of
    [getSkill1Cost] .. [getSkill3Cost] below. *)
Inductive UnitClass : Type :=
| Warrior
| Archer
| Mage
| BossUnit (skillName1 skillName2 skillName3 : string).

Record Unit : Type := mkUnit {
  class : UnitClass;
  name : string;
  maxHealth : Z;
  health : Z;
  maxMana : Z;
  mana : Z;
  baseAttack : Z;
  currentAttack : Z;
  defense : Z;
  statusEffects : StatusMap.t;
  equipment : list Item;
  potions : list Potion;
  battleLog : list string
}.

(** [Unit(n, hp, mp, atk, def)] *)
Definition newUnit (c : UnitClass) (n : string) (hp mp atk def : Z) : Unit :=
  mkUnit c n hp hp mp mp atk atk def StatusMap.empty [] [] [].

Definition newWarrior (n : string) : Unit := newUnit Warrior n 120 50 20 2.
Definition newArcher (n : string) : Unit := newUnit Archer n 80 35 30 1.
Definition newMage (n : string) : Unit := newUnit Mage n 70 80 25 0.
Definition newBossUnit (n sk1 sk2 sk3 : string) (atk hp def : Z) : Unit :=
  newUnit (BossUnit sk1 sk2 sk3) n hp 60 atk def.

(** Assignments to one field. *)
Definition set_maxHealth (v : Z) (u : Unit) : Unit :=
  mkUnit (class u) (name u) v (health u) (maxMana u) (mana u) (baseAttack u)
    (currentAttack u) (defense u) (statusEffects u) (equipment u) (potions u)
    (battleLog u).
Definition set_health (v : Z) (u : Unit) : Unit :=
  mkUnit (class u) (name u) (maxHealth u) v (maxMana u) (mana u) (baseAttack u)
    (currentAttack u) (defense u) (statusEffects u) (equipment u) (potions u)
    (battleLog u).
Definition set_maxMana (v : Z) (u : Unit) : Unit :=
  mkUnit (class u) (name u) (maxHealth u) (health u) v (mana u) (baseAttack u)
    (currentAttack u) (defense u) (statusEffects u) (equipment u) (potions u)
    (battleLog u).
Definition set_mana (v : Z) (u : Unit) : Unit :=
  mkUnit (class u) (name u) (maxHealth u) (health u) (maxMana u) v (baseAttack u)
    (currentAttack u) (defense u) (statusEffects u) (equipment u) (potions u)
    (battleLog u).
Definition set_baseAttack (v : Z) (u : Unit) : Unit :=
  mkUnit (class u) (name u) (maxHealth u) (health u) (maxMana u) (mana u) v
    (currentAttack u) (defense u) (statusEffects u) (equipment u) (potions u)
    (battleLog u).
Definition set_currentAttack (v : Z) (u : Unit) : Unit :=
  mkUnit (class u) (name u) (maxHealth u) (health u) (maxMana u) (mana u)
    (baseAttack u) v (defense u) (statusEffects u) (equipment u) (potions u)
    (battleLog u).
Definition set_defense (v : Z) (u : Unit) : Unit :=
  mkUnit (class u) (name u) (maxHealth u) (health u) (maxMana u) (mana u)
    (baseAttack u) (currentAttack u) v (statusEffects u) (equipment u)
    (potions u) (battleLog u).
Definition set_statusEffects (v : StatusMap.t) (u : Unit) : Unit :=
  mkUnit (class u) (name u) (maxHealth u) (health u) (maxMana u) (mana u)
    (baseAttack u) (currentAttack u) (defense u) v (equipment u) (potions u)
    (battleLog u).
Definition set_equipment (v : list Item) (u : Unit) : Unit :=
  mkUnit (class u) (name u) (maxHealth u) (health u) (maxMana u) (mana u)
    (baseAttack u) (currentAttack u) (defense u) (statusEffects u) v (potions u)
    (battleLog u).
Definition set_potions (v : list Potion) (u : Unit) : Unit :=
  mkUnit (class u) (name u) (maxHealth u) (health u) (maxMana u) (mana u)
    (baseAttack u) (currentAttack u) (defense u) (statusEffects u)
    (equipment u) v (battleLog u).
Definition set_battleLog (v : list string) (u : Unit) : Unit :=
  mkUnit (class u) (name u) (maxHealth u) (health u) (maxMana u) (mana u)
    (baseAttack u) (currentAttack u) (defense u) (statusEffects u)
    (equipment u) (potions u) v.

(** *** Getters and the battle log *)

Definition getHealth (u : Unit) : Z := health u.
Definition getAttack (u : Unit) : Z := currentAttack u.
Definition isAlive (u : Unit) : bool := 0 <? health u.

Definition clearBattleLog (u : Unit) : Unit := set_battleLog [] u.

Definition addToBattleLog (message : string) (u : Unit) : Unit :=
  set_battleLog (push_back (battleLog u) message) u.

(** *** Status effects *)

Definition addStatus (effect : StatusEffect) (duration : Z) (source : string)
    (u : Unit) : Unit :=
  let u1 := set_statusEffects (StatusMap.set effect duration (statusEffects u)) u in
  addToBattleLog
    (source ++ " applied " ++ statusNames effect ++ " to " ++ name u ++ "!") u1.

Definition hasStatus (effect : StatusEffect) (u : Unit) : bool :=
  match StatusMap.find effect (statusEffects u) with
  | Some d => 0 <? d
  | None => false
  end.

Definition clearStatus (effect : StatusEffect) (u : Unit) : Unit :=
  set_statusEffects (StatusMap.erase effect (statusEffects u)) u.

(** *** The damage pipeline *)

Definition takeDamage (dmg : Z) (showBlock : bool) (source : string)
    (u : Unit) : Unit :=
  let actualDamage := Z.max 1 (dmg - defense u) in
  let prevHealth := health u in
  let u1 := set_health (Z.max 0 (health u - actualDamage)) u in
  let msg := (name u ++ " took " ++ to_string actualDamage ++ " damage")%string in
  let msg := if String.eqb source "" then msg
             else (msg ++ " from " ++ source)%string in
  let msg := (msg ++ "! [" ++ to_string prevHealth ++ " -> "
                ++ to_string (health u1) ++ "/" ++ to_string (maxHealth u1)
                ++ " HP]")%string in
  let u2 := addToBattleLog msg u1 in
  if showBlock && (0 <? defense u) && (actualDamage <? dmg)
  then addToBattleLog
         (name u ++ " blocked " ++ to_string (dmg - actualDamage) ++ " damage!")
         u2
  else u2.

Definition heal (amount : Z) (u : Unit) : Unit :=
  let oldHealth := health u in
  let u1 := set_health (Z.min (maxHealth u) (health u + amount)) u in
  let healedAmount := health u1 - oldHealth in
  addToBattleLog
    (name u ++ " healed " ++ to_string healedAmount ++ " HP! ("
       ++ to_string (health u1) ++ "/" ++ to_string (maxHealth u1) ++ ")")
    u1.

Definition restoreMana (amount : Z) (u : Unit) : Unit :=
  let oldMana := mana u in
  let u1 := set_mana (Z.min (maxMana u) (mana u + amount)) u in
  let restoredAmount := mana u1 - oldMana in
  addToBattleLog
    (name u ++ " restored " ++ to_string restoredAmount ++ " MP! ("
       ++ to_string (mana u1) ++ "/" ++ to_string (maxMana u1) ++ ")")
    u1.

Definition increaseMaxHealth (amount : Z) (u : Unit) : Unit :=
  let u1 := set_maxHealth (maxHealth u + amount) u in
  let u2 := set_health (health u1 + amount) u1 in
  addToBattleLog
    (name u ++ "'s max HP increased by " ++ to_string amount ++ "!") u2.

Definition increaseMaxMana (amount : Z) (u : Unit) : Unit :=
  let u1 := set_maxMana (maxMana u + amount) u in
  let u2 := set_mana (mana u1 + amount) u1 in
  addToBattleLog
    (name u ++ "'s max MP increased by " ++ to_string amount ++ "!") u2.

Definition increaseAttack (amount : Z) (u : Unit) : Unit :=
  let u1 := set_baseAttack (baseAttack u + amount) u in
  let u2 := set_currentAttack (baseAttack u1) u1 in
  addToBattleLog
    (name u ++ "'s attack increased by " ++ to_string amount ++ "!") u2.

Definition increaseDefense (amount : Z) (u : Unit) : Unit :=
  let u1 := set_defense (defense u + amount) u in
  addToBattleLog
    (name u ++ "'s defense increased by " ++ to_string amount ++ "!") u1.

(** *** The status tick *)

(** The first loop of [processStatusEffects]: visit the entries in the order
    of the table, apply the effect of each, decrement its duration in place
    and collect the expired kinds.  Returns the table with the decremented
    durations, the vector [toRemove] and the unit. *)
Fixpoint tickLoop (entries : StatusMap.t) (u : Unit)
    : StatusMap.t * list StatusEffect * Unit :=
  match entries with
  | [] => ([], [], u)
  | (effect, duration) :: rest =>
      let u1 :=
        match effect with
        | POISON => takeDamage 5 false "Poison" u
        | BLEED => takeDamage 3 false "Bleed" u
        | STRENGTH_UP => set_currentAttack (baseAttack u + 10) u
        | WEAKNESS => set_currentAttack (Z.max 1 (baseAttack u - 5)) u
        | _ => u
        end in
      let duration' := duration - 1 in
      let expired := duration' <=? 0 in
      let u2 :=
        if expired
        then addToBattleLog
               (name u1 ++ "'s " ++ statusNames effect ++ " wore off!") u1
        else u1 in
      let '(rest', toRemove, u3) := tickLoop rest u2 in
      ((effect, duration') :: rest',
       if expired then effect :: toRemove else toRemove,
       u3)
  end.

(** The second loop: erase the expired kinds and undo the attack change. *)
Fixpoint removeLoop (toRemove : list StatusEffect) (u : Unit) : Unit :=
  match toRemove with
  | [] => u
  | effect :: rest =>
      let u1 := set_statusEffects (StatusMap.erase effect (statusEffects u)) u in
      let u2 :=
        if effect_eqb effect STRENGTH_UP || effect_eqb effect WEAKNESS
        then set_currentAttack (baseAttack u1) u1
        else u1 in
      removeLoop rest u2
  end.

Definition processStatusEffects (u : Unit) : Unit :=
  let '(entries', toRemove, u1) := tickLoop (statusEffects u) u in
  removeLoop toRemove (set_statusEffects entries' u1).

(** *** Inventory *)

Definition applyEffect (i : Item) (u : Unit) : Unit :=
  match i with
  | FireSword => increaseAttack (ItemData.getAttackBonus i) u
  | IceShield =>
      increaseDefense (ItemData.getDefenseBonus i)
        (increaseMaxHealth (ItemData.getHealthBonus i) u)
  | VampireRing => increaseAttack (ItemData.getAttackBonus i) u
  | PoisonDagger => increaseAttack (ItemData.getAttackBonus i) u
  | DragonScale =>
      increaseDefense (ItemData.getDefenseBonus i)
        (increaseMaxHealth (ItemData.getHealthBonus i)
           (increaseAttack (ItemData.getAttackBonus i) u))
  | LightningOrb => increaseAttack (ItemData.getAttackBonus i) u
  | HealthPotion => heal (ItemData.getHealthBonus i) u
  | ManaPotion => restoreMana (ItemData.getManaBonus i) u
  end.

Definition addItem (item : Item) (u : Unit) : Unit :=
  match ItemData.getType item with
  | POTION =>
      match item with
      | HealthPotion =>
          set_potions
            (push_back (potions u)
               (mkPotion (ItemData.getName item) (ItemData.getHealthBonus item) true))
            u
      | _ =>
          set_potions
            (push_back (potions u)
               (mkPotion (ItemData.getName item) (ItemData.getManaBonus item) false))
            u
      end
  | _ =>
      let u1 := set_equipment (push_back (equipment u) item) u in
      let u2 := applyEffect item u1 in
      addToBattleLog (name u2 ++ " equipped " ++ ItemData.getName item ++ "!") u2
  end.

(** [potions.erase(potions.begin() + index)] *)
Fixpoint erase_at {A : Type} (index : nat) (v : list A) : list A :=
  match v, index with
  | [], _ => []
  | _ :: rest, O => rest
  | x :: rest, S i => x :: erase_at i rest
  end.

Definition usePotion (index : Z) (u : Unit) : bool * Unit :=
  if (index <? 0) || (Z.of_nat (List.length (potions u)) <=? index)
  then (false, u)
  else
    match nth_error (potions u) (Z.to_nat index) with
    | None => (false, u)
    | Some potion =>
        let u1 :=
          if isHealthPotion potion
          then heal (potionAmount potion) u
          else restoreMana (potionAmount potion) u in
        let u2 :=
          addToBattleLog (name u1 ++ " used " ++ potionName potion ++ "!") u1 in
        (true, set_potions (erase_at (Z.to_nat index) (potions u2)) u2)
    end.

(** *** Basic attack and skills

    A combat action has a caller and a target, two distinct objects in every
    call of the program (the player and the boss of the stage); it returns
    the pair (caller, target) after the call. *)

(** The line ["<target>'s HP: <before> -> <after>/<max>"] that closes the
    narration of a hit. *)
Definition hpLine (target : Unit) (prevHealth : Z) : string :=
  name target ++ "'s HP: " ++ to_string prevHealth ++ " -> "
    ++ to_string (getHealth target) ++ "/" ++ to_string (maxHealth target).

(** [Unit::attack]; the override [BossUnit::attack] has the same body. *)
Definition attack (self target : Unit) : Unit * Unit :=
  let targetPrevHealth := getHealth target in
  let self1 :=
    addToBattleLog
      (name self ++ " attacks " ++ name target ++ " for "
         ++ to_string (currentAttack self) ++ " damage!") self in
  let target1 := takeDamage (currentAttack self1) true "" target in
  (addToBattleLog (hpLine target1 targetPrevHealth) self1, target1).

Definition getSkill1Name (u : Unit) : string :=
  match class u with
  | Warrior => "Power Strike"
  | Archer => "Poison Arrow"
  | Mage => "Fireball"
  | BossUnit sk1 _ _ => sk1
  end.

Definition getSkill2Name (u : Unit) : string :=
  match class u with
  | Warrior => "Demoralizing Shout"
  | Archer => "Piercing Shot"
  | Mage => "Ice Nova"
  | BossUnit _ sk2 _ => sk2
  end.

Definition getSkill3Name (u : Unit) : string :=
  match class u with
  | Warrior => "Battle Rage"
  | Archer => "Double Shot"
  | Mage => "Life Drain"
  | BossUnit _ _ sk3 => sk3
  end.

Definition getSkill1Cost (u : Unit) : Z :=
  match class u with
  | Warrior => 15
  | Archer => 10
  | Mage => 20
  | BossUnit _ _ _ => 15
  end.

Definition getSkill2Cost (u : Unit) : Z :=
  match class u with
  | Warrior => 10
  | Archer => 15
  | Mage => 15
  | BossUnit _ _ _ => 20
  end.

Definition getSkill3Cost (u : Unit) : Z :=
  match class u with
  | Warrior => 20
  | Archer => 20
  | Mage => 25
  | BossUnit _ _ _ => 25
  end.

(** The result of a skill: the success flag, the caller, the target. *)
Definition SkillResult : Type := (bool * Unit * Unit)%type.

Module WarriorSkills.

Definition useSkill1 (self target : Unit) : SkillResult :=
  if mana self <? getSkill1Cost self
  then (false, addToBattleLog "Not enough MP for Power Strike!" self, target)
  else
    let self1 := set_mana (mana self - getSkill1Cost self) self in
    let dmg := currentAttack self1 + 25 in
    let targetPrevHealth := getHealth target in
    let self2 :=
      addToBattleLog
        (name self1 ++ " uses Power Strike on " ++ name target ++ " for "
           ++ to_string dmg ++ " damage!") self1 in
    let target1 := takeDamage dmg true "" target in
    (true, addToBattleLog (hpLine target1 targetPrevHealth) self2, target1).

Definition useSkill2 (self target : Unit) : SkillResult :=
  if mana self <? getSkill2Cost self
  then (false, addToBattleLog "Not enough MP for Demoralizing Shout!" self,
        target)
  else
    let self1 := set_mana (mana self - getSkill2Cost self) self in
    let targetPrevAttack := getAttack target in
    let self2 :=
      addToBattleLog
        (name self1 ++ " uses Demoralizing Shout on " ++ name target ++ "!")
        self1 in
    let target1 := addStatus WEAKNESS 3 (name self2) target in
    (true,
     addToBattleLog
       (name target1 ++ "'s ATK: " ++ to_string targetPrevAttack ++ " -> "
          ++ to_string (getAttack target1)) self2,
     target1).

Definition useSkill3 (self target : Unit) : SkillResult :=
  if mana self <? getSkill3Cost self
  then (false, addToBattleLog "Not enough MP for Battle Rage!" self, target)
  else
    let self1 := set_mana (mana self - getSkill3Cost self) self in
    let prevAttack := currentAttack self1 in
    let self2 := addToBattleLog (name self1 ++ " enters Battle Rage!") self1 in
    let self3 := addStatus STRENGTH_UP 3 (name self2) self2 in
    (true,
     addToBattleLog
       (name self3 ++ "'s ATK: " ++ to_string prevAttack ++ " -> "
          ++ to_string (currentAttack self3)) self3,
     target).

End WarriorSkills.

Module ArcherSkills.

Definition useSkill1 (self target : Unit) : SkillResult :=
  if mana self <? getSkill1Cost self
  then (false, addToBattleLog "Not enough MP for Poison Arrow!" self, target)
  else
    let self1 := set_mana (mana self - getSkill1Cost self) self in
    let dmg := currentAttack self1 in
    let targetPrevHealth := getHealth target in
    let self2 :=
      addToBattleLog
        (name self1 ++ " shoots Poison Arrow at " ++ name target ++ " for "
           ++ to_string dmg ++ " damage!") self1 in
    let target1 := takeDamage dmg true "" target in
    let target2 := addStatus POISON 3 (name self2) target1 in
    (true, addToBattleLog (hpLine target2 targetPrevHealth) self2, target2).

Definition useSkill2 (self target : Unit) : SkillResult :=
  if mana self <? getSkill2Cost self
  then (false, addToBattleLog "Not enough MP for Piercing Shot!" self, target)
  else
    let self1 := set_mana (mana self - getSkill2Cost self) self in
    let dmg := currentAttack self1 + 10 in
    let targetPrevHealth := getHealth target in
    let self2 :=
      addToBattleLog
        (name self1 ++ " uses Piercing Shot on " ++ name target ++ " for "
           ++ to_string dmg ++ " damage!") self1 in
    let target1 := takeDamage dmg true "" target in
    let target2 := addStatus BLEED 2 (name self2) target1 in
    (true, addToBattleLog (hpLine target2 targetPrevHealth) self2, target2).

Definition useSkill3 (self target : Unit) : SkillResult :=
  if mana self <? getSkill3Cost self
  then (false, addToBattleLog "Not enough MP for Double Shot!" self, target)
  else
    let self1 := set_mana (mana self - getSkill3Cost self) self in
    let targetPrevHealth := getHealth target in
    let self2 :=
      addToBattleLog
        (name self1 ++ " uses Double Shot on " ++ name target ++ "!") self1 in
    let target1 := takeDamage (currentAttack self2) true "" target in
    let target2 := takeDamage (currentAttack self2) true "" target1 in
    (true, addToBattleLog (hpLine target2 targetPrevHealth) self2, target2).

End ArcherSkills.

Module MageSkills.

Definition useSkill1 (self target : Unit) : SkillResult :=
  if mana self <? getSkill1Cost self
  then (false, addToBattleLog "Not enough MP for Fireball!" self, target)
  else
    let self1 := set_mana (mana self - getSkill1Cost self) self in
    let dmg := currentAttack self1 + 20 in
    let targetPrevHealth := getHealth target in
    let self2 :=
      addToBattleLog
        (name self1 ++ " casts Fireball on " ++ name target ++ " for "
           ++ to_string dmg ++ " damage!") self1 in
    let target1 := takeDamage dmg true "" target in
    (true, addToBattleLog (hpLine target1 targetPrevHealth) self2, target1).

Definition useSkill2 (self target : Unit) : SkillResult :=
  if mana self <? getSkill2Cost self
  then (false, addToBattleLog "Not enough MP for Ice Nova!" self, target)
  else
    let self1 := set_mana (mana self - getSkill2Cost self) self in
    let self2 :=
      addToBattleLog
        (name self1 ++ " casts Ice Nova on " ++ name target ++ "!") self1 in
    let target1 := addStatus STUN 1 (name self2) target in
    (true,
     addToBattleLog (name target1 ++ " is stunned for 1 turn!") self2,
     target1).

(** [dmg / 2] is the division of C++, which truncates toward zero. *)
Definition useSkill3 (self target : Unit) : SkillResult :=
  if mana self <? getSkill3Cost self
  then (false, addToBattleLog "Not enough MP for Life Drain!" self, target)
  else
    let self1 := set_mana (mana self - getSkill3Cost self) self in
    let dmg := currentAttack self1 + 5 in
    let targetPrevHealth := getHealth target in
    let prevHealth := health self1 in
    let self2 :=
      addToBattleLog
        (name self1 ++ " drains life from " ++ name target ++ " for "
           ++ to_string dmg ++ " damage!") self1 in
    let target1 := takeDamage dmg true "" target in
    let self3 := heal (Z.quot dmg 2) self2 in
    let self4 := addToBattleLog (hpLine target1 targetPrevHealth) self3 in
    (true,
     addToBattleLog
       (name self4 ++ "'s HP: " ++ to_string prevHealth ++ " -> "
          ++ to_string (health self4) ++ "/" ++ to_string (maxHealth self4))
       self4,
     target1).

End MageSkills.

Module BossSkills.

Definition useSkill1 (self target : Unit) : SkillResult :=
  if mana self <? getSkill1Cost self
  then (false,
        addToBattleLog
          (name self ++ " doesn't have enough MP for " ++ getSkill1Name self
             ++ "!") self,
        target)
  else
    let self1 := set_mana (mana self - getSkill1Cost self) self in
    let dmg := currentAttack self1 + 20 in
    let targetPrevHealth := getHealth target in
    let self2 :=
      addToBattleLog
        (name self1 ++ " uses " ++ getSkill1Name self1 ++ " on "
           ++ name target ++ " for " ++ to_string dmg ++ " damage!") self1 in
    let target1 := takeDamage dmg true "" target in
    (true, addToBattleLog (hpLine target1 targetPrevHealth) self2, target1).

Definition useSkill2 (self target : Unit) : SkillResult :=
  if mana self <? getSkill2Cost self
  then (false,
        addToBattleLog
          (name self ++ " doesn't have enough MP for " ++ getSkill2Name self
             ++ "!") self,
        target)
  else
    let self1 := set_mana (mana self - getSkill2Cost self) self in
    let dmg := currentAttack self1 + 15 in
    let targetPrevHealth := getHealth target in
    let self2 :=
      addToBattleLog
        (name self1 ++ " uses " ++ getSkill2Name self1 ++ " on "
           ++ name target ++ " for " ++ to_string dmg ++ " damage!") self1 in
    let target1 := takeDamage dmg true "" target in
    let target2 := addStatus POISON 3 (name self2) target1 in
    let self3 := addToBattleLog (hpLine target2 targetPrevHealth) self2 in
    (true,
     addToBattleLog (name target2 ++ " is poisoned for 3 turns!") self3,
     target2).

Definition useSkill3 (self target : Unit) : SkillResult :=
  if mana self <? getSkill3Cost self
  then (false,
        addToBattleLog
          (name self ++ " doesn't have enough MP for " ++ getSkill3Name self
             ++ "!") self,
        target)
  else
    let self1 := set_mana (mana self - getSkill3Cost self) self in
    let dmg := currentAttack self1 + 10 in
    let targetPrevHealth := getHealth target in
    let prevHealth := health self1 in
    let self2 :=
      addToBattleLog
        (name self1 ++ " uses " ++ getSkill3Name self1 ++ " on "
           ++ name target ++ " for " ++ to_string dmg ++ " damage!") self1 in
    let target1 := takeDamage dmg true "" target in
    let target2 := addStatus STUN 1 (name self2) target1 in
    let self3 := heal 20 self2 in
    let self4 := addToBattleLog (hpLine target2 targetPrevHealth) self3 in
    let self5 :=
      addToBattleLog (name target2 ++ " is stunned for 1 turn!") self4 in
    (true,
     addToBattleLog
       (name self5 ++ "'s HP: " ++ to_string prevHealth ++ " -> "
          ++ to_string (health self5) ++ "/" ++ to_string (maxHealth self5))
       self5,
     target2).

End BossSkills.

(** Virtual dispatch on the dynamic type of the caller. *)
Definition useSkill1 (self target : Unit) : SkillResult :=
  match class self with
  | Warrior => WarriorSkills.useSkill1 self target
  | Archer => ArcherSkills.useSkill1 self target
  | Mage => MageSkills.useSkill1 self target
  | BossUnit _ _ _ => BossSkills.useSkill1 self target
  end.

Definition useSkill2 (self target : Unit) : SkillResult :=
  match class self with
  | Warrior => WarriorSkills.useSkill2 self target
  | Archer => ArcherSkills.useSkill2 self target
  | Mage => MageSkills.useSkill2 self target
  | BossUnit _ _ _ => BossSkills.useSkill2 self target
  end.

Definition useSkill3 (self target : Unit) : SkillResult :=
  match class self with
  | Warrior => WarriorSkills.useSkill3 self target
  | Archer => ArcherSkills.useSkill3 self target
  | Mage => MageSkills.useSkill3 self target
  | BossUnit _ _ _ => BossSkills.useSkill3 self target
  end.

(** The three skill slots of a unit, to speak of "each of its skills". *)
Inductive SkillSlot : Type := Skill1 | Skill2 | Skill3.

Definition useSkill (k : SkillSlot) (self target : Unit) : SkillResult :=
  match k with
  | Skill1 => useSkill1 self target
  | Skill2 => useSkill2 self target
  | Skill3 => useSkill3 self target
  end.

Definition getSkillCost (k : SkillSlot) (u : Unit) : Z :=
  match k with
  | Skill1 => getSkill1Cost u
  | Skill2 => getSkill2Cost u
  | Skill3 => getSkill3Cost u
  end.

Definition getSkillName (k : SkillSlot) (u : Unit) : string :=
  match k with
  | Skill1 => getSkill1Name u
  | Skill2 => getSkill2Name u
  | Skill3 => getSkill3Name u
  end.

(** The message a skill logs when the caller cannot pay for it. *)
Definition notEnoughMP (k : SkillSlot) (u : Unit) : string :=
  match class u with
  | BossUnit _ _ _ =>
      name u ++ " doesn't have enough MP for " ++ getSkillName k u ++ "!"
  | _ => "Not enough MP for " ++ getSkillName k u ++ "!"
  end.

(** ** The environment: the keyboard and the random generator

    The engine reads validated integers with [getValidInput] and random
    numbers with [rand()].  The world holds the integers still to be typed,
    the values [rand()] will still return, and the history of the run so
    far.  What the program prints with [cout] is presentation only and is
    left out; so is every wait for the Enter key.

    The history records the calls of [getValidInput] and [rand()] and, to
    speak of the order of turns, four markers of control points of
    [gameLoop]: the start of the body of the loop over the stages, the
    initialisation of [playerFirst], the start of the body of the combat
    loop, and the entry of a block the source labels [// Player turn] or
    [// Boss turn].  The markers are observations only: no function reads
    the history. *)

Inductive Side : Type := PlayerSide | BossSide.

Inductive Event : Type :=
| CallInput (minChoice maxChoice : Z) (prompt : string)
| CallRand
| StageStart (stage : Z)
| TurnOrderSet (playerFirst : bool)
| RoundStart
| TurnOf (s : Side).

Record World : Type := mkWorld {
  inputs : list Z;
  rands : list N;
  history : list Event
}.

(** A computation either finishes with a value or is still pending: it
    waits for an input or a random number the world does not hold, or the
    bound on the number of rounds is used up. *)
Inductive Res (A : Type) : Type :=
| Done (a : A) (w : World)
| Pending (w : World).
Arguments Done {A} a w.
Arguments Pending {A} w.

Definition IO (A : Type) : Type := World -> Res A.

Definition ret {A : Type} (a : A) : IO A := fun w => Done a w.

Definition bind {A B : Type} (m : IO A) (k : A -> IO B) : IO B :=
  fun w =>
    match m w with
    | Done a w1 => k a w1
    | Pending w1 => Pending w1
    end.

Notation "x <- m ;; k" := (bind m (fun x => k))
  (at level 61, m at next level, right associativity).
Notation "' pat <- m ;; k" := (bind m (fun x => match x with pat => k end))
  (at level 61, pat pattern, m at next level, right associativity).

Definition world_of {A : Type} (r : Res A) : World :=
  match r with
  | Done _ w => w
  | Pending w => w
  end.

(** The loop of [getValidInput] over the integers typed: the first one in
    range is the answer, the others are rejected. *)
Fixpoint readValid (minChoice maxChoice : Z) (typed : list Z)
    : option (Z * list Z) :=
  match typed with
  | [] => None
  | choice :: rest =>
      if (choice <? minChoice) || (maxChoice <? choice)
      then readValid minChoice maxChoice rest
      else Some (choice, rest)
  end.

Definition getValidInput (minChoice maxChoice : Z) (prompt : string) : IO Z :=
  fun w =>
    let h := push_back (history w) (CallInput minChoice maxChoice prompt) in
    match readValid minChoice maxChoice (inputs w) with
    | Some (choice, rest) => Done choice (mkWorld rest (rands w) h)
    | None => Pending (mkWorld [] (rands w) h)
    end.

(** [rand()]: a value between 0 and [RAND_MAX]. *)
Definition rand : IO Z :=
  fun w =>
    let h := push_back (history w) CallRand in
    match rands w with
    | r :: rest => Done (Z.of_N r) (mkWorld (inputs w) rest h)
    | [] => Pending (mkWorld (inputs w) [] h)
    end.

(** A marker in the history. *)
Definition mark (e : Event) : IO unit :=
  fun w => Done tt (mkWorld (inputs w) (rands w) (push_back (history w) e)).

(** ** Game functions *)

Definition coinFlipPrompt : string := "Your choice: ".

Definition coinFlip : IO bool :=
  choice <- getValidInput 1 2 coinFlipPrompt ;;
  r <- rand ;;
  let coinResult := Z.rem r 2 =? 0 in
  let playerWon :=
    ((choice =? 1) && coinResult) || ((choice =? 2) && negb coinResult) in
  ret playerWon.

(** [showSkillsMenu]: returns the pair (player, target). *)
Definition showSkillsMenu (player target : Unit) : IO (Unit * Unit) :=
  skillChoice <- getValidInput 1 3 "Choose skill (1-3): " ;;
  let '(skillUsed, player1, target1) :=
    if skillChoice =? 1 then useSkill1 player target
    else if skillChoice =? 2 then useSkill2 player target
    else if skillChoice =? 3 then useSkill3 player target
    else (false, player, target) in
  if negb skillUsed
  then ret (attack player1 target1)
  else ret (player1, target1).

(** [Unit::showInventory]: the returned flag says that a potion was used. *)
Definition showInventory (u : Unit) : IO (bool * Unit) :=
  match equipment u, potions u with
  | [], [] => ret (false, u)
  | _, [] => ret (false, u)
  | _, _ :: _ =>
      choice <- getValidInput 0 (Z.of_nat (List.length (potions u)))
                  "Enter your choice: " ;;
      if 0 <? choice
      then ret (true, snd (usePotion (choice - 1) u))
      else ret (false, u)
  end.

Definition allItems : list Item :=
  [FireSword; IceShield; VampireRing; PoisonDagger; DragonScale; LightningOrb].

(** The [do ... while] of [generateRandomItems]: draw until the index is
    not among the used ones. *)
Fixpoint drawUnused (usedIndices : list Z) (rs : list N) (h : list Event)
    : option Z * list N * list Event :=
  match rs with
  | [] => (None, [], push_back h CallRand)
  | r :: rest =>
      let randomIndex := Z.rem (Z.of_N r) (Z.of_nat (List.length allItems)) in
      if existsb (Z.eqb randomIndex) usedIndices
      then drawUnused usedIndices rest (push_back h CallRand)
      else (Some randomIndex, rest, push_back h CallRand)
  end.

Definition drawIndex (usedIndices : list Z) : IO Z :=
  fun w =>
    match drawUnused usedIndices (rands w) (history w) with
    | (Some i, rest, h) => Done i (mkWorld (inputs w) rest h)
    | (None, rest, h) => Pending (mkWorld (inputs w) rest h)
    end.

Fixpoint selectItems (n : nat) (usedIndices : list Z) (selectedItems : list Item)
    : IO (list Item) :=
  match n with
  | O => ret selectedItems
  | S n' =>
      randomIndex <- drawIndex usedIndices ;;
      selectItems n' (push_back usedIndices randomIndex)
        (push_back selectedItems
           (nth (Z.to_nat randomIndex) allItems FireSword))
  end.

Definition generateRandomItems : IO (list Item) := selectItems 3 [] [].

Fixpoint dropPotions (n : nat) (dropped : list Item) : IO (list Item) :=
  match n with
  | O => ret dropped
  | S n' =>
      r <- rand ;;
      dropPotions n'
        (push_back dropped (if Z.rem r 2 =? 0 then HealthPotion else ManaPotion))
  end.

Definition generateRandomPotions : IO (list Item) :=
  r <- rand ;;
  let numPotions := Z.rem r 3 + 1 in
  dropPotions (Z.to_nat numPotions) [].

(** *** The two turns of a round *)

(** How the player's turn leaves the round: by the end of the [switch], or
    by the [continue] that follows the use of a potion. *)
Inductive PlayerTurn : Type :=
| Acted (player boss : Unit)
| UsedPotion (player boss : Unit).

Definition playerTurn (player boss : Unit) : IO PlayerTurn :=
  _ <- mark (TurnOf PlayerSide) ;;
  if hasStatus STUN player
  then
    let player1 :=
      addToBattleLog
        (ESC ++ "[1;35mYou are stunned and skip your turn!" ++ ESC ++ "[0m")
        player in
    ret (Acted (clearStatus STUN player1) boss)
  else
    let player1 := addToBattleLog (NL ++ "=== YOUR TURN ===") player in
    action <- getValidInput 1 4 "Choose action: " ;;
    if action =? 1 then
      let '(p, b) := attack player1 boss in ret (Acted p b)
    else if action =? 2 then
      '(p, b) <- showSkillsMenu player1 boss ;; ret (Acted p b)
    else if action =? 3 then
      '(used, p) <- showInventory player1 ;;
      if used then ret (UsedPotion p boss) else ret (Acted p boss)
    else if action =? 4 then
      ret (Acted (addToBattleLog "You pass your turn." player1) boss)
    else ret (Acted player1 boss).

(** The boss's turn; returns the pair (boss, player). *)
Definition bossTurn (boss player : Unit) : IO (Unit * Unit) :=
  _ <- mark (TurnOf BossSide) ;;
  let player1 :=
    addToBattleLog (NL ++ "=== " ++ name boss ++ "'s TURN ===") player in
  if hasStatus STUN boss
  then
    let player2 :=
      addToBattleLog
        (ESC ++ "[1;35m" ++ name boss ++ " is stunned and skips turn!"
           ++ ESC ++ "[0m") player1 in
    ret (clearStatus STUN boss, player2)
  else
    r <- rand ;;
    let bossAction := Z.rem r 4 in
    if bossAction =? 3 then
      let player2 :=
        addToBattleLog (name boss ++ " chooses to attack!") player1 in
      ret (attack boss player2)
    else if bossAction =? 0 then
      let player2 :=
        addToBattleLog (name boss ++ " uses " ++ getSkill1Name boss ++ "!")
          player1 in
      let '(_, b, p) := useSkill1 boss player2 in ret (b, p)
    else if bossAction =? 1 then
      let player2 :=
        addToBattleLog (name boss ++ " uses " ++ getSkill2Name boss ++ "!")
          player1 in
      let '(_, b, p) := useSkill2 boss player2 in ret (b, p)
    else if bossAction =? 2 then
      let player2 :=
        addToBattleLog (name boss ++ " uses " ++ getSkill3Name boss ++ "!")
          player1 in
      let '(_, b, p) := useSkill3 boss player2 in ret (b, p)
    else ret (boss, player1).

(** *** One round: the body of the combat loop *)

(** How the body of the loop ends: at its end or by [continue], by the
    [break] that follows the death of the boss, or by the [return] that
    follows the death of the player. *)
Inductive Round : Type :=
| NextRound (player boss : Unit)
| BreakLoop (player boss : Unit)
| ReturnDefeated (player boss : Unit).

Definition round (playerFirst : bool) (player boss : Unit) : IO Round :=
  _ <- mark RoundStart ;;
  let player := clearBattleLog player in
  let boss := clearBattleLog boss in
  if playerFirst then
    t <- playerTurn player boss ;;
    match t with
    | UsedPotion p b => ret (NextRound (processStatusEffects p) b)
    | Acted p b =>
        let p1 := processStatusEffects p in
        if negb (isAlive b) then ret (BreakLoop p1 b)
        else
          '(b1, p2) <- bossTurn b p1 ;;
          ret (NextRound p2 (processStatusEffects b1))
    end
  else
    '(b, p) <- bossTurn boss player ;;
    let b1 := processStatusEffects b in
    let p1 := clearBattleLog p in
    let b2 := clearBattleLog b1 in
    if negb (isAlive p1) then ret (ReturnDefeated p1 b2)
    else
      t <- playerTurn p1 b2 ;;
      match t with
      | UsedPotion p2 b3 => ret (NextRound (processStatusEffects p2) b3)
      | Acted p2 b3 => ret (NextRound (processStatusEffects p2) b3)
      end.

(** How the combat loop is left. *)
Inductive Battle : Type :=
| LoopEnded (player boss : Unit)
| Returned (player boss : Unit).

(** [while (player->isAlive() && boss->isAlive())]; [fuel] bounds the
    number of rounds, and the loop is pending when it is used up. *)
Fixpoint combatLoop (fuel : nat) (playerFirst : bool) (player boss : Unit)
    : IO Battle :=
  if isAlive player && isAlive boss then
    match fuel with
    | O => fun w => Pending w
    | S fuel' =>
        r <- round playerFirst player boss ;;
        match r with
        | NextRound p b => combatLoop fuel' playerFirst p b
        | BreakLoop p b => ret (LoopEnded p b)
        | ReturnDefeated p b => ret (Returned p b)
        end
    end
  else ret (LoopEnded player boss).

(** *** The campaign *)

Definition bossNames : list string :=
  ["Goblin King"; "Shadow Knight"; "Crimson Wraith"; "Lich Queen"; "Doom Reaper"].
Definition bossSkill1 : list string :=
  ["Goblin Smash"; "Shadow Blade"; "Crimson Slash"; "Necroflame"; "Void Strike"].
Definition bossSkill2 : list string :=
  ["Poison Cloud"; "Dark Mist"; "Blood Curse"; "Soul Drain"; "Void Corruption"].
Definition bossSkill3 : list string :=
  ["Stunning Roar"; "Shadow Bind"; "Crimson Howl"; "Necrotic Heal"; "Void Stasis"].

Definition newBoss (stage : Z) : Unit :=
  let bossIndex := Z.to_nat (stage - 1) in
  newBossUnit (nth bossIndex bossNames "") (nth bossIndex bossSkill1 "")
    (nth bossIndex bossSkill2 "") (nth bossIndex bossSkill3 "")
    (10 + stage * 5) (70 + stage * 20) (stage - 1).

(** The battle of a stage: the coin flip, then the combat loop. *)
Definition stageBattle (fuel : nat) (player boss : Unit) : IO Battle :=
  playerFirst <- coinFlip ;;
  _ <- mark (TurnOrderSet playerFirst) ;;
  combatLoop fuel playerFirst player boss.

(** The [switch] on the permanent upgrade chosen after a stage. *)
Definition upgradeChoice (upgrade : Z) (player : Unit) : Unit :=
  if upgrade =? 1 then heal 30 player
  else if upgrade =? 2 then restoreMana 20 player
  else if upgrade =? 3 then increaseAttack 5 player
  else if upgrade =? 4 then increaseDefense 3 player
  else player.

(** What follows the defeat of the boss of [stage]. *)
Definition stageRewards (stage : Z) (player : Unit) : IO Unit :=
  droppedPotions <- generateRandomPotions ;;
  let player1 :=
    fold_left (fun p potion => addItem potion p) droppedPotions player in
  if stage <? 5 then
    upgrade <- getValidInput 1 4 "Choose (1-4): " ;;
    let player2 := upgradeChoice upgrade player1 in
    itemChoices <- generateRandomItems ;;
    itemChoice <- getValidInput 1 3 "Choose item (1-3): " ;;
    ret (addItem (nth (Z.to_nat (itemChoice - 1)) itemChoices FireSword) player2)
  else ret player1.

(** The loop over the stages, from [stage] on, [todo] stages being left;
    returns the player at the end of the campaign. *)
Fixpoint stageLoop (fuel : nat) (todo : nat) (stage : Z) (player : Unit)
    : IO Unit :=
  match todo with
  | O => ret player
  | S todo' =>
      _ <- mark (StageStart stage) ;;
      b <- stageBattle fuel player (newBoss stage) ;;
      match b with
      | Returned p _ => ret p
      | LoopEnded p _ =>
          if negb (isAlive p) then ret p
          else
            p1 <- stageRewards stage p ;;
            stageLoop fuel todo' (stage + 1) p1
      end
  end.

Definition gameLoop (fuel : nat) (player : Unit) : IO Unit :=
  stageLoop fuel 5 1 player.

(** [createPlayer]: the class of the player by the number chosen. *)
Definition createPlayer (playerName : string) : IO Unit :=
  choice <- getValidInput 1 3 "Choose (1-3): " ;;
  if choice =? 1 then ret (newWarrior playerName)
  else if choice =? 2 then ret (newArcher playerName)
  else if choice =? 3 then ret (newMage playerName)
  else ret (newWarrior playerName).

(** * Vocabulary of the properties

    The predicates, measures and auxiliary functions in which the properties
    of the engine are stated. *)

(** ** Units

    Two units that differ at most by their battle logs. *)
Definition same_stats (a b : Unit) : Prop :=
  class a = class b /\ name a = name b
  /\ maxHealth a = maxHealth b /\ health a = health b
  /\ maxMana a = maxMana b /\ mana a = mana b
  /\ baseAttack a = baseAttack b /\ currentAttack a = currentAttack b
  /\ defense a = defense b /\ statusEffects a = statusEffects b
  /\ equipment a = equipment b /\ potions a = potions b.

(** ** The status tick

    An entry after its duration is decremented, and whether it expires. *)
Definition decremented (kv : StatusEffect * Z) : StatusEffect * Z :=
  (fst kv, snd kv - 1).

Definition expires (kv : StatusEffect * Z) : bool := snd kv - 1 <=? 0.

(** The attack the visit of the entries of a table leaves, from the attack
    [ca] before it. *)
Fixpoint attackAfter (m : StatusMap.t) (base ca : Z) : Z :=
  match m with
  | [] => ca
  | (STRENGTH_UP, _) :: rest => attackAfter rest base (base + 10)
  | (WEAKNESS, _) :: rest => attackAfter rest base (Z.max 1 (base - 5))
  | _ :: rest => attackAfter rest base ca
  end.

(** What the status tick leaves alone, and what it may do to the health. *)
Definition tick_frame (u u' : Unit) : Prop :=
  class u' = class u /\ name u' = name u
  /\ maxHealth u' = maxHealth u /\ maxMana u' = maxMana u /\ mana u' = mana u
  /\ baseAttack u' = baseAttack u /\ defense u' = defense u
  /\ equipment u' = equipment u /\ potions u' = potions u
  /\ (0 <= health u -> 0 <= health u' <= health u).

(** The test of the second loop of [processStatusEffects]. *)
Definition isAttackEffect (e : StatusEffect) : bool :=
  effect_eqb e STRENGTH_UP || effect_eqb e WEAKNESS.

(** What one tick makes of an entry of the table. *)
Definition tickedEntry (o : option Z) : option Z :=
  match o with
  | Some d => if d - 1 <=? 0 then None else Some (d - 1)
  | None => None
  end.

(** Whether one tick removes an entry of the table. *)
Definition expiring (o : option Z) : bool :=
  match o with
  | Some d => d - 1 <=? 0
  | None => false
  end.

(** [n] status ticks in a row. *)
Fixpoint ticks (n : nat) (u : Unit) : Unit :=
  match n with
  | O => u
  | S n' => ticks n' (processStatusEffects u)
  end.

(** An entry, if present, expires within [n] ticks. *)
Definition expiresWithin (n : nat) (o : option Z) : Prop :=
  match o with
  | Some d => d <= Z.of_nat n /\ (0 < n)%nat
  | None => True
  end.

(** The kinds in the order in which the loop of [processStatusEffects]
    visits them: the order of the entries of the table. *)
Definition visitOrder (u : Unit) : list StatusEffect :=
  StatusMap.keys (statusEffects u).

(** The table as the specification words it: the entries in the order in
    which the effects were applied. *)
Module InsertionOrder.

Fixpoint set (k : StatusEffect) (v : Z) (m : StatusMap.t) : StatusMap.t :=
  match m with
  | [] => [(k, v)]
  | (k', v') :: rest =>
      if effect_eqb k k' then (k, v) :: rest else (k', v') :: set k v rest
  end.

Definition addStatus (effect : StatusEffect) (duration : Z) (source : string)
    (u : Unit) : Unit :=
  let u1 := set_statusEffects (set effect duration (statusEffects u)) u in
  addToBattleLog
    (source ++ " applied " ++ statusNames effect ++ " to " ++ name u ++ "!") u1.

End InsertionOrder.

(** ** The invariant of the vital statistics *)
Definition vitals_ok (u : Unit) : Prop :=
  0 <= health u <= maxHealth u /\ 0 <= mana u <= maxMana u.

(** The invariant the engine maintains on its units: the vital statistics
    are within their bounds, the attacks are not negative and no potion of
    the inventory restores a negative amount. *)
Definition engine_ok (u : Unit) : Prop :=
  vitals_ok u
  /\ 0 <= baseAttack u /\ 0 <= currentAttack u
  /\ Forall (fun p => 0 <= potionAmount p) (potions u).

(** The mutations of one unit that the engine performs, with the arguments
    it performs them with. *)
Inductive Mutation : Type :=
| M_takeDamage (dmg : Z) (showBlock : bool) (source : string)
| M_heal (amount : N)
| M_restoreMana (amount : N)
| M_usePotion (index : Z)
| M_upgrade (choice : Z)
| M_addItem (item : Item)
| M_addStatus (effect : StatusEffect) (duration : Z) (source : string)
| M_clearStatus (effect : StatusEffect)
| M_processStatusEffects
| M_log (message : string)
| M_clearBattleLog.

Definition mutate (m : Mutation) (u : Unit) : Unit :=
  match m with
  | M_takeDamage dmg showBlock source => takeDamage dmg showBlock source u
  | M_heal amount => heal (Z.of_N amount) u
  | M_restoreMana amount => restoreMana (Z.of_N amount) u
  | M_usePotion index => snd (usePotion index u)
  | M_upgrade choice => upgradeChoice choice u
  | M_addItem item => addItem item u
  | M_addStatus effect duration source => addStatus effect duration source u
  | M_clearStatus effect => clearStatus effect u
  | M_processStatusEffects => processStatusEffects u
  | M_log message => addToBattleLog message u
  | M_clearBattleLog => clearBattleLog u
  end.

(** ** Menus

    The number of a skill in the menu and in the boss's draw, and the
    prompts of the three menus of the player's turn. *)
Definition slotNumber (k : SkillSlot) : Z :=
  match k with
  | Skill1 => 1
  | Skill2 => 2
  | Skill3 => 3
  end.

Definition skillsPrompt : string := "Choose skill (1-3): ".
Definition actionPrompt : string := "Choose action: ".
Definition potionPrompt : string := "Enter your choice: ".

(** ** The order of turns

    The claim on the order of turns is a property of the history of a run.
    It is stated as a monitor: an automaton that reads the history and
    rejects it as soon as a coin is flipped anywhere but at the start of a
    stage, the order is set twice in a battle, a round starts before the
    order is set, or a round opens with the turn of the other side. *)

(** The call of [getValidInput] that [coinFlip] makes. *)
Definition isCoinFlip (e : Event) : bool :=
  match e with
  | CallInput lo hi prompt =>
      (lo =? 1) && (hi =? 2) && String.eqb prompt coinFlipPrompt
  | _ => false
  end.

Definition firstSide (playerFirst : bool) : Side :=
  if playerFirst then PlayerSide else BossSide.

Definition side_eqb (a b : Side) : bool :=
  match a, b with
  | PlayerSide, PlayerSide | BossSide, BossSide => true
  | _, _ => false
  end.

(** The phases of the monitor. *)
Inductive Phase : Type :=
| Idle                          (* no stage has begun *)
| AwaitFlip                     (* a stage has begun, the coin is due *)
| Flipped                       (* the coin is asked for, the order not set *)
| Fighting (playerFirst : bool) (* the order of the battle is set *)
| RoundBegun (playerFirst : bool). (* a round has begun, the first turn is due *)

(** One event.  A stage starts between two stages only; the first event of
    a stage is the coin flip; between the flip and the setting of the order
    only the coin's random number is drawn; once the order is set, no coin
    is flipped and no order is set until the next stage; the event that
    follows the start of a round is the turn of the side the order names. *)
Definition step (ph : Phase) (e : Event) : option Phase :=
  match ph, e with
  | Idle, StageStart _ => Some AwaitFlip
  | Fighting _, StageStart _ => Some AwaitFlip
  | AwaitFlip, _ => if isCoinFlip e then Some Flipped else None
  | Flipped, CallRand => Some Flipped
  | Flipped, TurnOrderSet playerFirst => Some (Fighting playerFirst)
  | Fighting playerFirst, RoundStart => Some (RoundBegun playerFirst)
  | Fighting playerFirst, TurnOf _ => Some (Fighting playerFirst)
  | Fighting playerFirst, CallRand => Some (Fighting playerFirst)
  | Fighting playerFirst, CallInput _ _ _ =>
      if isCoinFlip e then None else Some (Fighting playerFirst)
  | RoundBegun playerFirst, TurnOf s =>
      if side_eqb s (firstSide playerFirst) then Some (Fighting playerFirst)
      else None
  | _, _ => None
  end.

Fixpoint run (ph : Phase) (t : list Event) : option Phase :=
  match t with
  | [] => Some ph
  | e :: rest =>
      match step ph e with
      | Some ph' => run ph' rest
      | None => None
      end
  end.

(** The monitor accepts the whole history. *)
Definition turnOrderRespected (h : list Event) : bool :=
  match run Idle h with
  | Some _ => true
  | None => false
  end.

(** A logic of the monitor over the computations.
    [triple ph m Q]: started in a world whose history has brought the monitor
    to [ph], the computation [m] extends the history by events the monitor
    accepts; if [m] finishes with [a], the monitor is in a phase [ph'] with
    [Q a ph']. *)
Definition triple {A : Type} (ph : Phase) (m : IO A) (Q : A -> Phase -> Prop)
    : Prop :=
  forall w, exists t,
    history (world_of (m w)) = history w ++ t
    /\ match m w with
       | Done a _ => exists ph', run ph t = Some ph' /\ Q a ph'
       | Pending _ => exists ph', run ph t = Some ph'
       end.

(** A computation of the battle: it leaves the order of the battle as it
    found it. *)
Definition keepsOrder {A : Type} (pf : bool) (m : IO A) : Prop :=
  triple (Fighting pf) m (fun _ p => p = Fighting pf).

(** The phases between two stages. *)
Definition betweenStages (ph : Phase) : Prop :=
  ph = Idle \/ exists pf, ph = Fighting pf.

(** ** Further vocabulary

    The health the visit of the entries of a table leaves, from the health
    [h] before it, for a unit of defense [def]. *)
Fixpoint healthAfter (m : StatusMap.t) (def h : Z) : Z :=
  match m with
  | [] => h
  | (POISON, _) :: rest => healthAfter rest def (Z.max 0 (h - Z.max 1 (5 - def)))
  | (BLEED, _) :: rest => healthAfter rest def (Z.max 0 (h - Z.max 1 (3 - def)))
  | _ :: rest => healthAfter rest def h
  end.

(** The damage the damage-over-time entries of a unit deal in one tick. *)
Definition dotDamage (u : Unit) : Z :=
  (match StatusMap.find POISON (statusEffects u) with
   | Some _ => Z.max 1 (5 - defense u)
   | None => 0
   end)
  + (match StatusMap.find BLEED (statusEffects u) with
     | Some _ => Z.max 1 (3 - defense u)
     | None => 0
     end).

(** Whatever [m] returns satisfies [Q]. *)
Definition ensures {A : Type} (m : IO A) (Q : A -> Prop) : Prop :=
  forall w a w', m w = Done a w' -> Q a.

(** The units a turn, a round and a battle hand back. *)
Definition unitsOfTurn (t : PlayerTurn) : Unit * Unit :=
  match t with
  | Acted p b | UsedPotion p b => (p, b)
  end.

Definition unitsOfRound (r : Round) : Unit * Unit :=
  match r with
  | NextRound p b | BreakLoop p b | ReturnDefeated p b => (p, b)
  end.

Definition unitsOfBattle (b : Battle) : Unit * Unit :=
  match b with
  | LoopEnded p b' | Returned p b' => (p, b')
  end.

Definition bothOk (pb : Unit * Unit) : Prop :=
  engine_ok (fst pb) /\ engine_ok (snd pb).

Definition isEquipment (i : Item) : bool :=
  match ItemData.getType i with
  | POTION => false
  | _ => true
  end.

(** The lines [takeDamage] leaves in the battle log. *)
Definition takeDamageLog (d : Z) (showBlock : bool) (source : string)
    (u : Unit) : list string :=
  battleLog (takeDamage d showBlock source u).

(** The caller and the target after a skill, and its success flag. *)
Definition skillOk (r : SkillResult) : bool := fst (fst r).
Definition skillSelf (r : SkillResult) : Unit := snd (fst r).
Definition skillTarget (r : SkillResult) : Unit := snd r.

(** The line that opens the player's turn in the battle log. *)
Definition yourTurnLine : string := NL ++ "=== YOUR TURN ===".

(** What the way a round, and a battle, is left says of the units. *)
Definition roundExit (r : Round) : Prop :=
  match r with
  | NextRound _ _ => True
  | BreakLoop _ b => isAlive b = false
  | ReturnDefeated p _ => isAlive p = false
  end.

Definition battleExit (r : Battle) : Prop :=
  match r with
  | LoopEnded p b => isAlive p && isAlive b = false
  | Returned p _ => isAlive p = false
  end.

(** An input that [getValidInput] rejects. *)
Definition outOfRange (lo hi x : Z) : Prop := x < lo \/ hi < x.

(** The item of the catalogue at an index drawn. *)
Definition itemAt (i : Z) : Item := nth (Z.to_nat i) allItems FireSword.

(** The state of the loop of [generateRandomItems]: the indices used are
    distinct and in range, and the items selected are the items at these
    indices, in order. *)
Definition selection (usedIndices : list Z) (selectedItems : list Item) : Prop :=
  NoDup usedIndices
  /\ Forall (fun i => 0 <= i < 6) usedIndices
  /\ selectedItems = List.map itemAt usedIndices.

Definition isPotionItem (i : Item) : Prop := i = HealthPotion \/ i = ManaPotion.

(** What the rewards of a stage add to the inventory of the player:
    between one and three potions at the end of the potions, and one item
    of equipment after every stage but the last. *)
Definition rewarded (stage : Z) (player player' : Unit) : Prop :=
  (exists added,
      potions player' = potions player ++ added
      /\ (1 <= List.length added <= 3)%nat)
  /\ (exists item,
        isEquipment item = true /\ In item allItems
        /\ equipment player'
           = equipment player ++ (if stage <? 5 then [item] else [])).

(** The player as [createPlayer] makes it. *)
Definition freshPlayer (playerName : string) (p : Unit) : Prop :=
  name p = playerName
  /\ health p = maxHealth p /\ mana p = maxMana p
  /\ currentAttack p = baseAttack p
  /\ statusEffects p = [] /\ equipment p = [] /\ potions p = []
  /\ battleLog p = [].

(** The permanent statistics of [u'] are at least those of [u]. *)
Definition statsNotLower (u u' : Unit) : Prop :=
  maxHealth u <= maxHealth u' /\ maxMana u <= maxMana u'
  /\ baseAttack u <= baseAttack u' /\ defense u <= defense u'.

(** An event other than the start of a stage. *)
Definition withinStage (e : Event) : Prop :=
  match e with
  | StageStart _ => False
  | _ => True
  end.

(** [m] extends the history by events that satisfy [P]. *)
Definition emits {A : Type} (P : Event -> Prop) (m : IO A) : Prop :=
  forall w, exists t,
    history (world_of (m w)) = history w ++ t /\ Forall P t.

(** The stages a history starts, in order. *)
Fixpoint stagesStarted (t : list Event) : list Z :=
  match t with
  | [] => []
  | StageStart s :: rest => s :: stagesStarted rest
  | _ :: rest => stagesStarted rest
  end.

(** The [k] consecutive stages from [stage] on. *)
Fixpoint stagesFrom (stage : Z) (k : nat) : list Z :=
  match k with
  | O => []
  | S k' => stage :: stagesFrom (stage + 1) k'
  end.

(** ** The order of the status tick

    The kinds in ascending order of their enumerators. *)
Definition allKinds : list StatusEffect :=
  [NONE; POISON; BLEED; STUN; STRENGTH_UP; WEAKNESS].

(** The entries of a table listed by ascending kind: for each kind in turn,
    its entry if the table has one. *)
Definition byAscendingKind (m : StatusMap.t) : StatusMap.t :=
  flat_map
    (fun k =>
       match StatusMap.find k m with
       | Some d => [(k, d)]
       | None => []
       end)
    allKinds.

(** The status tick that goes through the kinds in ascending order, looks
    each one up in the table of the unit and, when it is there, runs the
    body of the loop of [processStatusEffects] on its entry. *)
Definition processAscending (u : Unit) : Unit :=
  let '(entries', toRemove, u1) :=
    tickLoop (byAscendingKind (statusEffects u)) u in
  removeLoop toRemove (set_statusEffects entries' u1).

(** The per-tick effect of one kind: the [switch] of the loop of
    [processStatusEffects]. *)
Definition tickEffect (effect : StatusEffect) (u : Unit) : Unit :=
  match effect with
  | POISON => takeDamage 5 false "Poison" u
  | BLEED => takeDamage 3 false "Bleed" u
  | STRENGTH_UP => set_currentAttack (baseAttack u + 10) u
  | WEAKNESS => set_currentAttack (Z.max 1 (baseAttack u - 5)) u
  | _ => u
  end.

(** One pass of the loop of [processStatusEffects] on one entry, as a
    change of the unit: the per-tick effect of the kind, then the line of
    the log when the decremented duration is not positive. *)
Definition tickEntry (entry : StatusEffect * Z) (u : Unit) : Unit :=
  let u1 := tickEffect (fst entry) u in
  if snd entry - 1 <=? 0
  then addToBattleLog
         (name u1 ++ "'s " ++ statusNames (fst entry) ++ " wore off!") u1
  else u1.

(** The tick that applies the entries of a list one after the other, from
    the first to the last, stores the decremented durations and then
    removes the kinds that expired, in the same order. *)
Definition tickInOrder (entries : StatusMap.t) (u : Unit) : Unit :=
  removeLoop
    (map fst (filter (fun entry => snd entry - 1 <=? 0) entries))
    (set_statusEffects
       (map (fun entry => (fst entry, snd entry - 1)) entries)
       (fold_left (fun v entry => tickEntry entry v) entries u)).

(** Two entries with the one of the lower kind first. *)
Definition lowerFirst (e1 : StatusEffect) (d1 : Z) (e2 : StatusEffect) (d2 : Z)
    : (StatusEffect * Z) * (StatusEffect * Z) :=
  if rank e1 <? rank e2 then ((e1, d1), (e2, d2)) else ((e2, d2), (e1, d1)).

(** * Properties *)

(** Reduce the projections of a unit that the setters build, and nothing
    else. *)
Ltac unit_fields :=
  cbn [class name maxHealth health maxMana mana baseAttack currentAttack
       defense statusEffects equipment potions battleLog
       set_maxHealth set_health set_maxMana set_mana set_baseAttack
       set_currentAttack set_defense set_statusEffects set_equipment
       set_potions set_battleLog addToBattleLog clearBattleLog] in *.

Ltac frame_solve :=
  repeat split; intros; unit_fields; try reflexivity; try congruence; try lia.

(** ** Field lemmas

    The narration never touches the numbers: these equations let the proofs
    forget the battle log. *)

Section Fields.

Variables (msg source : string) (d amount : Z) (showBlock : bool).
Variable u : Unit.

Lemma takeDamage_health :
  health (takeDamage d showBlock source u)
  = Z.max 0 (health u - Z.max 1 (d - defense u)).
Proof. unfold takeDamage. destruct (_ && _); reflexivity. Qed.

Lemma takeDamage_battleLog_grows :
  exists lines, lines <> []
    /\ battleLog (takeDamage d showBlock source u) = battleLog u ++ lines.
Proof.
  unfold takeDamage, addToBattleLog, push_back.
  destruct (_ && _); cbn [battleLog set_battleLog set_health].
  - rewrite <- app_assoc. eexists. split; [|reflexivity]. discriminate.
  - eexists. split; [|reflexivity]. discriminate.
Qed.

Lemma heal_health :
  health (heal amount u) = Z.min (maxHealth u) (health u + amount).
Proof. reflexivity. Qed.

Lemma restoreMana_mana :
  mana (restoreMana amount u) = Z.min (maxMana u) (mana u + amount).
Proof. reflexivity. Qed.

End Fields.

Lemma same_stats_refl (a : Unit) : same_stats a a.
Proof. repeat split. Qed.

Lemma same_stats_trans (a b c : Unit) :
  same_stats a b -> same_stats b c -> same_stats a c.
Proof. unfold same_stats. intuition congruence. Qed.

Lemma same_stats_log (m : string) (a : Unit) : same_stats (addToBattleLog m a) a.
Proof. repeat split. Qed.

(** ** The damage pipeline *)

(** C1. After [takeDamage(d)] on a unit with [0 <= health <= maxHealth], the
    health is [max(0, health - max(1, d - defense))]: the damage that lands
    is at least 1 whatever the defense, the health does not become negative
    and stays within [0, maxHealth]. *)
Theorem takeDamage_spec (u : Unit) (d : Z) (showBlock : bool) (source : string) :
  0 <= health u <= maxHealth u ->
  let actualDamage := Z.max 1 (d - defense u) in
  let u' := takeDamage d showBlock source u in
  health u' = Z.max 0 (health u - actualDamage)
  /\ 1 <= actualDamage
  /\ health u' <= Z.max 0 (health u - 1)
  /\ 0 <= health u' <= maxHealth u'
  /\ maxHealth u' = maxHealth u.
Proof.
  intros Hh actualDamage u'. subst u'.
  rewrite takeDamage_health. fold actualDamage.
  assert (maxHealth (takeDamage d showBlock source u) = maxHealth u) as ->.
  { unfold takeDamage. destruct (_ && _); reflexivity. }
  subst actualDamage. lia.
Qed.

Lemma takeDamage_spec_witness :
  let u := newWarrior "Hero" in
  0 <= health u <= maxHealth u
  /\ health (takeDamage 12 true "" u) = 110.
Proof.
  split; [cbn; lia|].
  pose proof (takeDamage_spec (newWarrior "Hero") 12 true ""
                ltac:(cbn; lia)) as H.
  cbv zeta in H. destruct H as [H _]. rewrite H. reflexivity.
Defined.

(** ** Skills that the caller cannot pay *)

Lemma useSkill_fails (k : SkillSlot) (self target : Unit) :
  mana self < getSkillCost k self ->
  useSkill k self target
  = (false, addToBattleLog (notEnoughMP k self) self, target).
Proof.
  intros H. apply Z.ltb_lt in H.
  destruct k; cbn [getSkillCost] in H;
    unfold useSkill, useSkill1, useSkill2, useSkill3, notEnoughMP, getSkillName,
      getSkill1Name, getSkill2Name, getSkill3Name;
    destruct (class self) eqn:Hc;
    unfold WarriorSkills.useSkill1, WarriorSkills.useSkill2,
      WarriorSkills.useSkill3, ArcherSkills.useSkill1, ArcherSkills.useSkill2,
      ArcherSkills.useSkill3, MageSkills.useSkill1, MageSkills.useSkill2,
      MageSkills.useSkill3, BossSkills.useSkill1, BossSkills.useSkill2,
      BossSkills.useSkill3;
    rewrite H; unfold getSkill1Name, getSkill2Name, getSkill3Name;
    rewrite ?Hc; reflexivity.
Qed.

(** C2. A skill whose cost exceeds the caller's mana returns the failure
    signal, appends the insufficient-MP message to the caller's battle log,
    leaves the caller's mana (and every other number of the caller) as it
    was and does not touch the target; invoked a second time it fails again
    in the same way. *)
Theorem skill_failure_atomic (k : SkillSlot) (self target : Unit) :
  mana self < getSkillCost k self ->
  let '(ok1, self1, target1) := useSkill k self target in
  let '(ok2, self2, target2) := useSkill k self1 target1 in
  ok1 = false /\ ok2 = false
  /\ battleLog self1 = battleLog self ++ [notEnoughMP k self]
  /\ battleLog self2 = battleLog self1 ++ [notEnoughMP k self]
  /\ mana self1 = mana self /\ mana self2 = mana self
  /\ same_stats self1 self /\ same_stats self2 self
  /\ target1 = target /\ target2 = target.
Proof.
  intros H.
  rewrite (useSkill_fails k self target H).
  rewrite (useSkill_fails k (addToBattleLog (notEnoughMP k self) self) target)
    by (destruct k; exact H).
  assert (notEnoughMP k (addToBattleLog (notEnoughMP k self) self)
          = notEnoughMP k self) as -> by (destruct k; reflexivity).
  repeat split.
Qed.

Lemma skill_failure_atomic_witness :
  let self := set_mana 5 (newMage "Hero") in
  let target := newBossUnit "Goblin King" "a" "b" "c" 15 90 0 in
  mana self < getSkillCost Skill3 self
  /\ fst (fst (useSkill Skill3 self target)) = false
  /\ battleLog (snd (fst (useSkill Skill3 self target)))
     = ["Not enough MP for Life Drain!"].
Proof.
  cbv zeta.
  pose proof (skill_failure_atomic Skill3 (set_mana 5 (newMage "Hero"))
                (newBossUnit "Goblin King" "a" "b" "c" 15 90 0)
                ltac:(cbn; lia)) as H.
  split; [cbn; lia|].
  destruct (useSkill Skill3 _ _) as [[ok1 self1] target1].
  destruct (useSkill Skill3 self1 target1) as [[ok2 self2] target2].
  destruct H as (H1 & _ & H3 & _). cbn [fst snd]. split; [exact H1|exact H3].
Defined.

(** ** The status table *)

Lemma effect_eqb_eq (a b : StatusEffect) : effect_eqb a b = true <-> a = b.
Proof.
  unfold effect_eqb. rewrite Z.eqb_eq.
  split; [|intros ->; reflexivity].
  destruct a, b; cbn; intros H; try reflexivity; discriminate H.
Qed.

Lemma effect_eqb_refl (a : StatusEffect) : effect_eqb a a = true.
Proof. apply effect_eqb_eq. reflexivity. Qed.

Lemma effect_eqb_neq (a b : StatusEffect) : a <> b -> effect_eqb a b = false.
Proof.
  intros H. destruct (effect_eqb a b) eqn:E; [|reflexivity].
  apply effect_eqb_eq in E. contradiction.
Qed.

Lemma rank_inj (a b : StatusEffect) : rank a = rank b -> a = b.
Proof. intros H. apply effect_eqb_eq. unfold effect_eqb. now apply Z.eqb_eq. Qed.

Lemma rank_bounds (a : StatusEffect) : 0 <= rank a <= 5.
Proof. destruct a; cbn; lia. Qed.

Module StatusMapFacts.
Import StatusMap.

Lemma sorted_from_weaken (lo lo' : Z) (m : t) :
  lo' <= lo -> sorted_from lo m -> sorted_from lo' m.
Proof. destruct m as [|[k v] r]; cbn; [trivial|]. intros ? [? ?]. split; [lia|assumption]. Qed.

Lemma find_below (k : StatusEffect) (m : t) :
  forall lo, sorted_from lo m -> rank k <= lo -> find k m = None.
Proof.
  induction m as [|[k' v'] r IH]; cbn; intros lo Hs Hk; [reflexivity|].
  destruct Hs as [Hlo Hr].
  rewrite effect_eqb_neq by (intros ->; lia).
  apply (IH (rank k')); [assumption|lia].
Qed.

Lemma find_set_same (k : StatusEffect) (v : Z) (m : t) :
  find k (set k v m) = Some v.
Proof.
  induction m as [|[k' v'] r IH]; cbn.
  - now rewrite effect_eqb_refl.
  - destruct (rank k <? rank k') eqn:E1; cbn.
    + now rewrite effect_eqb_refl.
    + destruct (rank k =? rank k') eqn:E2; cbn.
      * now rewrite effect_eqb_refl.
      * unfold effect_eqb at 1. rewrite E2. exact IH.
Qed.

Lemma find_set_other (k k0 : StatusEffect) (v : Z) (m : t) :
  k0 <> k -> find k0 (set k v m) = find k0 m.
Proof.
  intros Hne. induction m as [|[k' v'] r IH]; cbn.
  - now rewrite effect_eqb_neq.
  - destruct (rank k <? rank k') eqn:E1; cbn.
    + now rewrite (effect_eqb_neq k0 k).
    + destruct (rank k =? rank k') eqn:E2; cbn.
      * apply Z.eqb_eq, rank_inj in E2. subst k'.
        now rewrite (effect_eqb_neq k0 k).
      * now rewrite IH.
Qed.

Lemma set_sorted (k : StatusEffect) (v : Z) (m : t) :
  forall lo, sorted_from lo m -> lo < rank k -> sorted_from lo (set k v m).
Proof.
  induction m as [|[k' v'] r IH]; cbn; intros lo Hs Hk.
  - auto.
  - destruct Hs as [Hlo Hr].
    destruct (rank k <? rank k') eqn:E1; cbn.
    + apply Z.ltb_lt in E1. auto.
    + destruct (rank k =? rank k') eqn:E2; cbn.
      * apply Z.eqb_eq in E2. rewrite E2. auto.
      * apply Z.ltb_ge in E1. apply Z.eqb_neq in E2.
        split; [assumption|]. apply IH; [assumption|lia].
Qed.

Lemma count_below (k : StatusEffect) (m : t) :
  forall lo, sorted_from lo m -> rank k <= lo -> count k m = 0.
Proof.
  unfold count.
  induction m as [|[k' v'] r IH]; cbn; intros lo Hs Hk; [reflexivity|].
  destruct Hs as [Hlo Hr].
  rewrite effect_eqb_neq by (intros ->; lia).
  apply (IH (rank k')); [assumption|lia].
Qed.

Lemma count_cons (k k' : StatusEffect) (v' : Z) (r : t) :
  count k ((k', v') :: r) = (if effect_eqb k k' then 1 else 0) + count k r.
Proof.
  unfold count. cbn. destruct (effect_eqb k k'); cbn [List.length]; lia.
Qed.

(** A well-formed table holds at most one entry per kind. *)
Lemma sorted_count_le_1 (k : StatusEffect) (m : t) :
  forall lo, sorted_from lo m -> 0 <= count k m <= 1.
Proof.
  induction m as [|[k' v'] r IH]; intros lo Hs.
  - cbn. lia.
  - destruct Hs as [Hlo Hr]. rewrite count_cons.
    destruct (effect_eqb k k') eqn:E.
    + apply effect_eqb_eq in E. subst k'.
      rewrite (count_below k r (rank k)); [lia|assumption|lia].
    + specialize (IH _ Hr). lia.
Qed.

Lemma count_find (k : StatusEffect) (m : t) :
  forall lo, sorted_from lo m ->
  count k m = match find k m with Some _ => 1 | None => 0 end.
Proof.
  induction m as [|[k' v'] r IH]; intros lo Hs; [reflexivity|].
  destruct Hs as [Hlo Hr]. rewrite count_cons. cbn [find].
  destruct (effect_eqb k k') eqn:E.
  - apply effect_eqb_eq in E. subst k'.
    rewrite (count_below k r (rank k)); [lia|assumption|lia].
  - rewrite (IH _ Hr). lia.
Qed.

Lemma erase_sorted (k : StatusEffect) (m : t) :
  forall lo, sorted_from lo m -> sorted_from lo (erase k m).
Proof.
  induction m as [|[k' v'] r IH]; cbn; intros lo Hs; [trivial|].
  destruct Hs as [Hlo Hr].
  destruct (effect_eqb k k').
  - apply IH. apply (sorted_from_weaken (rank k')); [lia|assumption].
  - cbn. split; [assumption|]. apply IH. assumption.
Qed.

Lemma find_erase_same (k : StatusEffect) (m : t) : find k (erase k m) = None.
Proof.
  induction m as [|[k' v'] r IH]; cbn; [reflexivity|].
  destruct (effect_eqb k k') eqn:E; [assumption|]. cbn. now rewrite E.
Qed.

Lemma find_erase_other (k k0 : StatusEffect) (m : t) :
  k0 <> k -> find k0 (erase k m) = find k0 m.
Proof.
  intros Hne. induction m as [|[k' v'] r IH]; cbn; [reflexivity|].
  destruct (effect_eqb k k') eqn:E.
  - apply effect_eqb_eq in E. subst k'. now rewrite (effect_eqb_neq k0 k).
  - cbn. now rewrite IH.
Qed.

(** Two well-formed tables with the same content are the same list. *)
Lemma sorted_ext (m1 : t) :
  forall m2 lo, sorted_from lo m1 -> sorted_from lo m2 ->
  (forall k, find k m1 = find k m2) -> m1 = m2.
Proof.
  induction m1 as [|[k1 v1] r1 IH]; intros [|[k2 v2] r2] lo H1 H2 Hf.
  - reflexivity.
  - specialize (Hf k2). cbn in Hf. rewrite effect_eqb_refl in Hf. discriminate.
  - specialize (Hf k1). cbn in Hf. rewrite effect_eqb_refl in Hf. discriminate.
  - destruct H1 as [Hl1 Hr1], H2 as [Hl2 Hr2].
    assert (k1 = k2) as <-.
    { destruct (Z.lt_trichotomy (rank k1) (rank k2)) as [Hlt|[Heq|Hgt]].
      - pose proof (Hf k1) as F. cbn in F. rewrite effect_eqb_refl in F.
        rewrite effect_eqb_neq in F by (intros ->; lia).
        rewrite (find_below k1 r2 (rank k2)) in F by (assumption || lia).
        discriminate.
      - now apply rank_inj.
      - pose proof (Hf k2) as F. cbn in F. rewrite effect_eqb_refl in F.
        rewrite effect_eqb_neq in F by (intros ->; lia).
        rewrite (find_below k2 r1 (rank k1)) in F by (assumption || lia).
        discriminate. }
    pose proof (Hf k1) as F. cbn in F. rewrite effect_eqb_refl in F.
    injection F as <-.
    f_equal. apply (IH r2 (rank k1)); try assumption.
    intros k. specialize (Hf k). cbn in Hf.
    destruct (effect_eqb k k1) eqn:E; [|assumption].
    apply effect_eqb_eq in E. subst k.
    rewrite (find_below k1 r1 (rank k1)), (find_below k1 r2 (rank k1));
      (reflexivity || assumption || lia).
Qed.

End StatusMapFacts.

Lemma addStatus_statusEffects (e : StatusEffect) (d : Z) (src : string) (u : Unit) :
  statusEffects (addStatus e d src u) = StatusMap.set e d (statusEffects u).
Proof. reflexivity. Qed.

Lemma newUnit_sorted (c : UnitClass) (n : string) (hp mp atk def : Z) :
  StatusMap.sorted (statusEffects (newUnit c n hp mp atk def)).
Proof. exact I. Qed.

(** C10. [addStatus] on a kind that is already active overwrites its
    remaining duration with the new one (the durations are not added), and
    the table keeps at most one entry per kind. *)
Theorem addStatus_overwrites
    (u : Unit) (e : StatusEffect) (d : Z) (source : string) :
  StatusMap.sorted (statusEffects u) ->
  let u' := addStatus e d source u in
  StatusMap.find e (statusEffects u') = Some d
  /\ StatusMap.count e (statusEffects u') = 1
  /\ (forall k, k <> e ->
        StatusMap.find k (statusEffects u') = StatusMap.find k (statusEffects u)
        /\ StatusMap.count k (statusEffects u')
           = StatusMap.count k (statusEffects u))
  /\ (forall k, 0 <= StatusMap.count k (statusEffects u') <= 1)
  /\ StatusMap.sorted (statusEffects u').
Proof.
  intros Hs u'. subst u'. rewrite addStatus_statusEffects.
  assert (Hs' : StatusMap.sorted (StatusMap.set e d (statusEffects u))).
  { apply StatusMapFacts.set_sorted; [exact Hs|]. pose proof (rank_bounds e). lia. }
  split; [apply StatusMapFacts.find_set_same|].
  split.
  { rewrite (StatusMapFacts.count_find _ _ _ Hs').
    now rewrite StatusMapFacts.find_set_same. }
  split.
  { intros k Hk.
    rewrite (StatusMapFacts.count_find _ _ _ Hs'),
      (StatusMapFacts.count_find _ _ _ Hs).
    rewrite StatusMapFacts.find_set_other by assumption. split; reflexivity. }
  split; [|exact Hs'].
  intros k. apply (StatusMapFacts.sorted_count_le_1 k _ _ Hs').
Qed.

Lemma addStatus_overwrites_witness :
  let u := addStatus POISON 3 "Archer" (newWarrior "Hero") in
  StatusMap.sorted (statusEffects u)
  /\ statusEffects (addStatus POISON 1 "Boss" u) = [(POISON, 1)].
Proof.
  cbv zeta. split; [cbn; lia|].
  pose proof (addStatus_overwrites
                (addStatus POISON 3 "Archer" (newWarrior "Hero")) POISON 1 "Boss"
                ltac:(cbn; lia)) as H.
  cbv zeta in H. destruct H as (Hfind & _ & _ & _ & _).
  rewrite addStatus_statusEffects in *. cbn in *. reflexivity.
Defined.

(** ** The status tick *)

Lemma tick_frame_refl (u : Unit) : tick_frame u u.
Proof. unfold tick_frame. frame_solve. Qed.

Lemma tick_frame_trans (a b c : Unit) :
  tick_frame a b -> tick_frame b c -> tick_frame a c.
Proof. unfold tick_frame. intuition (congruence || lia). Qed.

Lemma tick_frame_takeDamage (d : Z) (sb : bool) (src : string) (u : Unit) :
  tick_frame u (takeDamage d sb src u).
Proof.
  unfold tick_frame. rewrite takeDamage_health.
  unfold takeDamage. destruct (_ && _); frame_solve.
Qed.

Lemma tickLoop_table (m : StatusMap.t) :
  forall u, fst (fst (tickLoop m u)) = List.map decremented m.
Proof.
  induction m as [|[k d] r IH]; intros u; [reflexivity|].
  cbn [tickLoop]. cbv zeta.
  match goal with |- context [tickLoop r ?x] => specialize (IH x);
    destruct (tickLoop r x) as [[r' rem'] u3] end.
  cbn in *. now rewrite IH.
Qed.

Lemma tickLoop_toRemove (m : StatusMap.t) :
  forall u, snd (fst (tickLoop m u)) = List.map fst (List.filter expires m).
Proof.
  induction m as [|[k d] r IH]; intros u; [reflexivity|].
  cbn [tickLoop]. cbv zeta.
  match goal with |- context [tickLoop r ?x] => specialize (IH x);
    destruct (tickLoop r x) as [[r' rem'] u3] end.
  cbn in *. unfold expires at 1. cbn [snd].
  destruct (d - 1 <=? 0); cbn; now rewrite IH.
Qed.

Lemma tickLoop_unit (m : StatusMap.t) :
  forall u,
    let u' := snd (tickLoop m u) in
    tick_frame u u'
    /\ statusEffects u' = statusEffects u
    /\ currentAttack u' = attackAfter m (baseAttack u) (currentAttack u).
Proof.
  induction m as [|[k d] r IH]; intros u.
  - cbn. split; [apply tick_frame_refl|]. split; reflexivity.
  - cbn [tickLoop]. cbv zeta.
    match goal with |- context [tickLoop r ?x] =>
      set (u2 := x); specialize (IH u2);
      destruct (tickLoop r u2) as [[r' rem'] u3] end.
    cbn [fst snd] in *. cbv zeta in IH. destruct IH as (F & S & A).
    assert (F2 : tick_frame u u2
                 /\ statusEffects u2 = statusEffects u
                 /\ currentAttack u2
                    = match k with
                      | STRENGTH_UP => baseAttack u + 10
                      | WEAKNESS => Z.max 1 (baseAttack u - 5)
                      | _ => currentAttack u
                      end).
    { subst u2.
      destruct k, (d - 1 <=? 0);
        try (pose proof (tick_frame_takeDamage 5 false "Poison" u));
        try (pose proof (tick_frame_takeDamage 3 false "Bleed" u));
        unfold tick_frame in *; frame_solve. }
    destruct F2 as (F2 & S2 & A2).
    split; [eapply tick_frame_trans; eassumption|].
    split; [congruence|].
    rewrite A, A2.
    assert (baseAttack u2 = baseAttack u) as -> by (apply F2).
    destruct k; reflexivity.
Qed.

Lemma removeLoop_unit (toRemove : list StatusEffect) :
  forall u,
    let u' := removeLoop toRemove u in
    tick_frame u u' /\ health u' = health u
    /\ battleLog u' = battleLog u
    /\ currentAttack u'
       = (if existsb isAttackEffect toRemove then baseAttack u
          else currentAttack u)
    /\ (forall k, StatusMap.find k (statusEffects u')
                  = if existsb (effect_eqb k) toRemove then None
                    else StatusMap.find k (statusEffects u))
    /\ (StatusMap.sorted (statusEffects u) -> StatusMap.sorted (statusEffects u')).
Proof.
  induction toRemove as [|e rest IH]; intros u.
  - cbn. split; [apply tick_frame_refl|]. auto.
  - cbn [removeLoop]. cbv zeta.
    match goal with |- context [removeLoop rest ?x] =>
      set (u2 := x); specialize (IH u2) end.
    cbv zeta in IH. destruct IH as (F & H & L & A & M & S).
    assert (F2 : tick_frame u u2 /\ health u2 = health u
                 /\ battleLog u2 = battleLog u
                 /\ baseAttack u2 = baseAttack u
                 /\ currentAttack u2
                    = (if isAttackEffect e then baseAttack u else currentAttack u)
                 /\ statusEffects u2 = StatusMap.erase e (statusEffects u)).
    { subst u2. fold (isAttackEffect e).
      destruct (isAttackEffect e); unfold tick_frame; frame_solve. }
    destruct F2 as (F2 & H2 & L2 & B2 & A2 & S2).
    split; [eapply tick_frame_trans; eassumption|].
    split; [congruence|]. split; [congruence|].
    split.
    { rewrite A, A2, B2. cbn [existsb].
      destruct (isAttackEffect e), (existsb isAttackEffect rest); reflexivity. }
    split.
    { intros k. rewrite M, S2. cbn [existsb].
      destruct (effect_eqb k e) eqn:E.
      - apply effect_eqb_eq in E. subst k.
        rewrite StatusMapFacts.find_erase_same. cbn.
        destruct (existsb (effect_eqb e) rest); reflexivity.
      - cbn. rewrite StatusMapFacts.find_erase_other; [reflexivity|].
        intros ->. now rewrite effect_eqb_refl in E. }
    intros Hs. apply S. rewrite S2. now apply StatusMapFacts.erase_sorted.
Qed.

Module TickFacts.
Import StatusMap StatusMapFacts.

Lemma map_decremented_sorted (m : t) :
  forall lo, sorted_from lo m -> sorted_from lo (List.map decremented m).
Proof.
  induction m as [|[k d] r IH]; cbn; intros lo Hs; [trivial|].
  destruct Hs. split; auto.
Qed.

Lemma find_map_decremented (k : StatusEffect) (m : t) :
  find k (List.map decremented m) = option_map (fun d => d - 1) (find k m).
Proof.
  induction m as [|[k' d'] r IH]; cbn; [reflexivity|].
  destruct (effect_eqb k k'); [reflexivity|assumption].
Qed.

Lemma expired_below (k : StatusEffect) (m : t) :
  forall lo, sorted_from lo m -> rank k <= lo ->
  existsb (effect_eqb k) (List.map fst (List.filter expires m)) = false.
Proof.
  induction m as [|[k' d'] r IH]; cbn; intros lo Hs Hk; [reflexivity|].
  destruct Hs as [Hlo Hr].
  assert (existsb (effect_eqb k) (List.map fst (List.filter expires r)) = false)
    as IHr by (apply (IH (rank k')); [assumption|lia]).
  destruct (expires (k', d')); cbn; [|assumption].
  rewrite IHr, effect_eqb_neq; [reflexivity|intros ->; lia].
Qed.

Lemma expired_find (k : StatusEffect) (m : t) :
  forall lo, sorted_from lo m ->
  existsb (effect_eqb k) (List.map fst (List.filter expires m))
  = match find k m with Some d => d - 1 <=? 0 | None => false end.
Proof.
  induction m as [|[k' d'] r IH]; cbn [find List.filter]; intros lo Hs;
    [reflexivity|].
  destruct Hs as [Hlo Hr].
  destruct (effect_eqb k k') eqn:E.
  - apply effect_eqb_eq in E. subst k'.
    pose proof (expired_below k r (rank k) Hr (Z.le_refl _)) as Hb.
    unfold expires at 1. cbn [snd].
    destruct (d' - 1 <=? 0); cbn; [|assumption].
    now rewrite effect_eqb_refl.
  - rewrite <- (IH _ Hr).
    destruct (expires (k', d')); cbn; [|reflexivity]. now rewrite E.
Qed.

Lemma attackAfter_find (m : t) :
  forall lo base ca, sorted_from lo m ->
  attackAfter m base ca
  = match find WEAKNESS m, find STRENGTH_UP m with
    | Some _, _ => Z.max 1 (base - 5)
    | None, Some _ => base + 10
    | None, None => ca
    end.
Proof.
  induction m as [|[k d] r IH]; intros lo base ca Hs; [reflexivity|].
  destruct Hs as [Hlo Hr].
  destruct k; cbn [attackAfter find]; rewrite (IH _ _ _ Hr);
    try reflexivity.
  - (* STRENGTH_UP *)
    cbn. rewrite (find_below STRENGTH_UP r (rank STRENGTH_UP));
      [|assumption|lia].
    now destruct (find WEAKNESS r).
  - (* WEAKNESS *)
    cbn.
    rewrite (find_below STRENGTH_UP r (rank WEAKNESS)); [|assumption|cbn; lia].
    rewrite (find_below WEAKNESS r (rank WEAKNESS)); [|assumption|lia].
    reflexivity.
Qed.

End TickFacts.

Lemma existsb_isAttackEffect (l : list StatusEffect) :
  existsb isAttackEffect l
  = existsb (effect_eqb STRENGTH_UP) l || existsb (effect_eqb WEAKNESS) l.
Proof.
  induction l as [|e r IH]; [reflexivity|].
  cbn [existsb]. rewrite IH. unfold isAttackEffect.
  destruct e; cbn; repeat (destruct (existsb _ r)); reflexivity.
Qed.

(** [processStatusEffects] in terms of the table it starts from. *)
Lemma processStatusEffects_spec (u : Unit) :
  StatusMap.sorted (statusEffects u) ->
  let u' := processStatusEffects u in
  let su := StatusMap.find STRENGTH_UP (statusEffects u) in
  let wk := StatusMap.find WEAKNESS (statusEffects u) in
  tick_frame u u'
  /\ StatusMap.sorted (statusEffects u')
  /\ (forall k, StatusMap.find k (statusEffects u')
                = tickedEntry (StatusMap.find k (statusEffects u)))
  /\ currentAttack u'
     = (if expiring su || expiring wk then baseAttack u
        else match wk, su with
             | Some _, _ => Z.max 1 (baseAttack u - 5)
             | None, Some _ => baseAttack u + 10
             | None, None => currentAttack u
             end).
Proof.
  intros Hs u' su wk. subst u'. unfold processStatusEffects.
  pose proof (tickLoop_table (statusEffects u) u) as T.
  pose proof (tickLoop_toRemove (statusEffects u) u) as R.
  pose proof (tickLoop_unit (statusEffects u) u) as U.
  destruct (tickLoop (statusEffects u) u) as [[m' rem] u1].
  cbn [fst snd] in *. cbv zeta in U. destruct U as (F1 & S1 & A1).
  pose proof (removeLoop_unit rem (set_statusEffects m' u1)) as Q.
  cbv zeta in Q. destruct Q as (F2 & _ & _ & A2 & M2 & S2).
  cbn [statusEffects set_statusEffects baseAttack currentAttack] in *.
  split.
  { eapply tick_frame_trans; [exact F1|].
    eapply tick_frame_trans; [|exact F2].
    unfold tick_frame; frame_solve. }
  split.
  { apply S2. rewrite T. now apply TickFacts.map_decremented_sorted. }
  split.
  { intros k. rewrite M2, R, T.
    rewrite (TickFacts.expired_find k _ _ Hs), TickFacts.find_map_decremented.
    unfold tickedEntry.
    destruct (StatusMap.find k (statusEffects u)) as [d|]; cbn; [|reflexivity].
    now destruct (d - 1 <=? 0). }
  rewrite A2, A1, R, existsb_isAttackEffect.
  rewrite !(TickFacts.expired_find _ _ _ Hs).
  rewrite (TickFacts.attackAfter_find _ _ _ _ Hs).
  fold su wk. unfold expiring.
  assert (baseAttack u1 = baseAttack u) as -> by apply F1.
  reflexivity.
Qed.

Lemma processStatusEffects_sorted (u : Unit) :
  StatusMap.sorted (statusEffects u) ->
  StatusMap.sorted (statusEffects (processStatusEffects u)).
Proof. intros Hs. apply (processStatusEffects_spec u Hs). Qed.

Lemma ticks_expire (n : nat) :
  forall u,
    StatusMap.sorted (statusEffects u) ->
    expiresWithin n (StatusMap.find STRENGTH_UP (statusEffects u)) ->
    expiresWithin n (StatusMap.find WEAKNESS (statusEffects u)) ->
    (StatusMap.find STRENGTH_UP (statusEffects u) = None ->
     StatusMap.find WEAKNESS (statusEffects u) = None ->
     currentAttack u = baseAttack u) ->
    let u' := ticks n u in
    currentAttack u' = baseAttack u /\ baseAttack u' = baseAttack u
    /\ StatusMap.find STRENGTH_UP (statusEffects u') = None
    /\ StatusMap.find WEAKNESS (statusEffects u') = None.
Proof.
  induction n as [|n IH]; intros u Hs Hsu Hwk Hca.
  - cbn. unfold expiresWithin in *.
    destruct (StatusMap.find STRENGTH_UP (statusEffects u)); [lia|].
    destruct (StatusMap.find WEAKNESS (statusEffects u)); [lia|].
    auto.
  - cbn [ticks]. cbv zeta.
    pose proof (processStatusEffects_spec u Hs) as P. cbv zeta in P.
    destruct P as (F & S & M & A).
    assert (B : baseAttack (processStatusEffects u) = baseAttack u) by apply F.
    rewrite <- B. apply IH; clear IH.
    + exact S.
    + rewrite M. unfold expiresWithin, tickedEntry in *.
      destruct (StatusMap.find STRENGTH_UP (statusEffects u)) as [d|]; [|exact I].
      destruct (d - 1 <=? 0) eqn:E; [exact I|]. apply Z.leb_gt in E. lia.
    + rewrite M. unfold expiresWithin, tickedEntry in *.
      destruct (StatusMap.find WEAKNESS (statusEffects u)) as [d|]; [|exact I].
      destruct (d - 1 <=? 0) eqn:E; [exact I|]. apply Z.leb_gt in E. lia.
    + rewrite !M, A, B. unfold tickedEntry, expiring.
      destruct (StatusMap.find STRENGTH_UP (statusEffects u)) as [ds|],
               (StatusMap.find WEAKNESS (statusEffects u)) as [dw|];
        try destruct (ds - 1 <=? 0); try destruct (dw - 1 <=? 0);
        cbn; intros; try discriminate; auto.
Qed.

(** C8. Apply STRENGTH_UP and WEAKNESS to a unit, in either order, and run
    the status tick until both have expired (any number of ticks that
    reaches both durations): the unit's [currentAttack] is exactly its
    [baseAttack] again, and neither entry is left. *)
Theorem buff_debuff_round_trip
    (u : Unit) (dS dW : Z) (srcS srcW : string) (n : nat) :
  StatusMap.sorted (statusEffects u) ->
  (0 < n)%nat -> dS <= Z.of_nat n -> dW <= Z.of_nat n ->
  forall u1,
    u1 = addStatus WEAKNESS dW srcW (addStatus STRENGTH_UP dS srcS u)
    \/ u1 = addStatus STRENGTH_UP dS srcS (addStatus WEAKNESS dW srcW u) ->
    let u' := ticks n u1 in
    currentAttack u' = baseAttack u'
    /\ baseAttack u' = baseAttack u
    /\ StatusMap.find STRENGTH_UP (statusEffects u') = None
    /\ StatusMap.find WEAKNESS (statusEffects u') = None.
Proof.
  intros Hs Hn HS HW u1 Hu1 u'.
  assert (Hrk : forall e, -1 < rank e) by (intros e; pose proof (rank_bounds e); lia).
  assert (H1 : StatusMap.sorted (statusEffects u1)
               /\ StatusMap.find STRENGTH_UP (statusEffects u1) = Some dS
               /\ StatusMap.find WEAKNESS (statusEffects u1) = Some dW
               /\ baseAttack u1 = baseAttack u).
  { destruct Hu1 as [-> | ->]; rewrite !addStatus_statusEffects;
      (split; [repeat apply StatusMapFacts.set_sorted; auto|]);
      rewrite ?StatusMapFacts.find_set_same;
      rewrite ?StatusMapFacts.find_set_other by discriminate;
      rewrite ?StatusMapFacts.find_set_same; repeat split. }
  destruct H1 as (S1 & FS & FW & B1).
  pose proof (ticks_expire n u1 S1) as T. cbv zeta in T.
  rewrite FS, FW in T. fold u' in T.
  destruct T as (A & B & NS & NW); try (cbn; lia); try discriminate.
  repeat split; congruence.
Qed.

Lemma buff_debuff_round_trip_witness :
  let u := newWarrior "Hero" in
  let u1 := addStatus WEAKNESS 3 "Boss" (addStatus STRENGTH_UP 3 "Hero" u) in
  StatusMap.sorted (statusEffects u)
  /\ currentAttack (ticks 2 u1) = 15
  /\ currentAttack (ticks 3 u1) = 20
  /\ statusEffects (ticks 3 u1) = [].
Proof.
  cbv zeta. split; [exact I|].
  pose proof (buff_debuff_round_trip (newWarrior "Hero") 3 3 "Hero" "Boss" 3
                I ltac:(lia) ltac:(cbn; lia) ltac:(cbn; lia) _
                (or_introl eq_refl)) as H.
  cbv zeta in H. destruct H as (H1 & H2 & _).
  split; [reflexivity|]. split; [|reflexivity].
  rewrite H1, H2. reflexivity.
Defined.

(** ** The order of the status tick *)

(** C9, as the specification states it, fails.  A warrior is weakened and
    then strengthened: a tick in insertion order would apply WEAKNESS and
    then STRENGTH_UP and leave the attack at 30; the tick of the program
    visits STRENGTH_UP before WEAKNESS and leaves it at 15.  Likewise BLEED
    applied before POISON is narrated after it. *)
Lemma tick_order_not_insertion_order :
  let u := newWarrior "Hero" in
  let applied := addStatus STRENGTH_UP 3 "Hero" (addStatus WEAKNESS 3 "Boss" u) in
  let worded :=
    InsertionOrder.addStatus STRENGTH_UP 3 "Hero"
      (InsertionOrder.addStatus WEAKNESS 3 "Boss" u) in
  visitOrder worded = [WEAKNESS; STRENGTH_UP]
  /\ visitOrder applied = [STRENGTH_UP; WEAKNESS]
  /\ currentAttack (processStatusEffects worded) = 30
  /\ currentAttack (processStatusEffects applied) = 15
  /\ battleLog
       (processStatusEffects
          (clearBattleLog
             (addStatus POISON 3 "Boss" (addStatus BLEED 2 "Boss" u))))
     = ["Hero took 3 damage from Poison! [120 -> 117/120 HP]";
        "Hero took 1 damage from Bleed! [117 -> 116/120 HP]"].
Proof. repeat split. Qed.

Lemma set_set_comm (e1 e2 : StatusEffect) (d1 d2 : Z) (m : StatusMap.t) :
  StatusMap.sorted m -> e1 <> e2 ->
  StatusMap.set e2 d2 (StatusMap.set e1 d1 m)
  = StatusMap.set e1 d1 (StatusMap.set e2 d2 m).
Proof.
  intros Hs Hne.
  assert (Hrk : forall e, -1 < rank e) by (intros e; pose proof (rank_bounds e); lia).
  apply (StatusMapFacts.sorted_ext _ _ (-1));
    try (repeat apply StatusMapFacts.set_sorted; auto; fail).
  intros k.
  destruct (effect_eqb k e1) eqn:E1.
  - apply effect_eqb_eq in E1. subst k.
    rewrite StatusMapFacts.find_set_other by assumption.
    now rewrite !StatusMapFacts.find_set_same.
  - assert (k <> e1) by (intros ->; now rewrite effect_eqb_refl in E1).
    destruct (effect_eqb k e2) eqn:E2.
    + apply effect_eqb_eq in E2. subst k.
      rewrite StatusMapFacts.find_set_same.
      rewrite StatusMapFacts.find_set_other by assumption.
      now rewrite StatusMapFacts.find_set_same.
    + assert (k <> e2) by (intros ->; now rewrite effect_eqb_refl in E2).
      now rewrite !StatusMapFacts.find_set_other by assumption.
Qed.

Lemma byAscendingKind_sorted (m : StatusMap.t) :
  StatusMap.sorted (byAscendingKind m).
Proof.
  unfold byAscendingKind, allKinds. cbn [flat_map].
  destruct (StatusMap.find NONE m), (StatusMap.find POISON m),
    (StatusMap.find BLEED m), (StatusMap.find STUN m),
    (StatusMap.find STRENGTH_UP m), (StatusMap.find WEAKNESS m);
    cbn; repeat split; lia.
Qed.

Lemma find_byAscendingKind (k : StatusEffect) (m : StatusMap.t) :
  StatusMap.find k (byAscendingKind m) = StatusMap.find k m.
Proof.
  unfold byAscendingKind, allKinds. cbn [flat_map].
  destruct (StatusMap.find NONE m) eqn:E0,
    (StatusMap.find POISON m) eqn:E1, (StatusMap.find BLEED m) eqn:E2,
    (StatusMap.find STUN m) eqn:E3, (StatusMap.find STRENGTH_UP m) eqn:E4,
    (StatusMap.find WEAKNESS m) eqn:E5;
    destruct k; cbn; congruence.
Qed.

(** A well-formed table is the list of its entries by ascending kind. *)
Lemma sorted_byAscendingKind (m : StatusMap.t) :
  StatusMap.sorted m -> byAscendingKind m = m.
Proof.
  intros Hs. apply (StatusMapFacts.sorted_ext _ _ (-1)).
  - apply byAscendingKind_sorted.
  - exact Hs.
  - intros k. apply find_byAscendingKind.
Qed.

Lemma processStatusEffects_ascending (u : Unit) :
  StatusMap.sorted (statusEffects u) ->
  processStatusEffects u = processAscending u.
Proof.
  intros Hs. unfold processAscending, processStatusEffects.
  now rewrite (sorted_byAscendingKind _ Hs).
Qed.

(** The first loop of the tick, entry by entry from the head of the list. *)
Lemma tickLoop_fold (m : StatusMap.t) :
  forall u,
    tickLoop m u
    = (map (fun entry => (fst entry, snd entry - 1)) m,
       map fst (filter (fun entry => snd entry - 1 <=? 0) m),
       fold_left (fun v entry => tickEntry entry v) m u).
Proof.
  induction m as [|[k d] m IH]; intros u; [reflexivity|].
  cbn [tickLoop map filter fold_left fst snd]. cbv zeta.
  rewrite IH. unfold tickEntry, tickEffect. cbn [fst snd].
  destruct (d - 1 <=? 0); destruct k; reflexivity.
Qed.

Lemma processStatusEffects_in_order (u : Unit) :
  StatusMap.sorted (statusEffects u) ->
  processStatusEffects u = tickInOrder (byAscendingKind (statusEffects u)) u.
Proof.
  intros Hs. rewrite (sorted_byAscendingKind _ Hs).
  unfold processStatusEffects, tickInOrder. now rewrite tickLoop_fold.
Qed.

(** The tick of a unit with two entries that do not expire: the effect of
    the first entry, then the effect of the second. *)
Lemma processStatusEffects_two_entries
    (u : Unit) (k1 k2 : StatusEffect) (d1 d2 : Z) :
  statusEffects u = [(k1, d1); (k2, d2)] -> 1 < d1 -> 1 < d2 ->
  processStatusEffects u
  = set_statusEffects [(k1, d1 - 1); (k2, d2 - 1)]
      (tickEffect k2 (tickEffect k1 u)).
Proof.
  intros Hm H1 H2. unfold processStatusEffects. rewrite Hm.
  cbn [tickLoop]. cbv zeta.
  assert ((d1 - 1 <=? 0) = false) as -> by (apply Z.leb_gt; lia).
  assert ((d2 - 1 <=? 0) = false) as -> by (apply Z.leb_gt; lia).
  cbn [removeLoop]. destruct k1, k2; reflexivity.
Qed.

Lemma two_entries_lower_first
    (u : Unit) (e1 e2 : StatusEffect) (d1 d2 : Z) (s1 s2 : string) :
  statusEffects u = [] -> e1 <> e2 ->
  statusEffects (addStatus e2 d2 s2 (addStatus e1 d1 s1 u))
  = [fst (lowerFirst e1 d1 e2 d2); snd (lowerFirst e1 d1 e2 d2)].
Proof.
  intros Hu Hne. rewrite !addStatus_statusEffects, Hu.
  unfold lowerFirst.
  destruct e1, e2; try contradiction; reflexivity.
Qed.

Lemma lowerFirst_sym (e1 e2 : StatusEffect) (d1 d2 : Z) :
  e1 <> e2 -> lowerFirst e2 d2 e1 d1 = lowerFirst e1 d1 e2 d2.
Proof.
  intros Hne. unfold lowerFirst.
  destruct e1, e2; try contradiction; reflexivity.
Qed.

(** The order of the per-tick effects can be seen: the attack of a unit
    under STRENGTH_UP and WEAKNESS is the one the effect applied last
    leaves. *)
Example tickEffect_order_matters :
  let u := newWarrior "Hero" in
  currentAttack (tickEffect WEAKNESS (tickEffect STRENGTH_UP u))
  <> currentAttack (tickEffect STRENGTH_UP (tickEffect WEAKNESS u)).
Proof. cbv zeta. vm_compute. discriminate. Qed.

(** C9, amended.  The status tick visits the active effects in ascending
    order of their kind (POISON, BLEED, STUN, STRENGTH_UP, WEAKNESS: the
    order of the keys of the table), whatever the order in which they were
    applied.  Applying two kinds in one order or the other gives the same
    table, hence the same visit order and the same tick; the tick of the
    program is the tick that goes through the kinds in ascending order and
    runs the body of the loop on each entry it finds, that is, the one
    that applies the entries listed by ascending kind one after the other
    from the first to the last; and on a unit that
    had no entry before, with two durations that do not expire, the tick
    applies the per-tick effect of the lower kind and then the one of the
    higher kind, whichever was applied first. *)
Theorem tick_order_is_key_order
    (u : Unit) (e1 e2 : StatusEffect) (d1 d2 : Z) (s1 s2 : string) :
  StatusMap.sorted (statusEffects u) -> e1 <> e2 ->
  let a := addStatus e2 d2 s2 (addStatus e1 d1 s1 u) in
  let b := addStatus e1 d1 s1 (addStatus e2 d2 s2 u) in
  let lo := fst (lowerFirst e1 d1 e2 d2) in
  let hi := snd (lowerFirst e1 d1 e2 d2) in
  StatusMap.sorted (statusEffects a)
  /\ visitOrder a = visitOrder b
  /\ clearBattleLog a = clearBattleLog b
  /\ processStatusEffects (clearBattleLog a)
     = processStatusEffects (clearBattleLog b)
  /\ byAscendingKind (statusEffects a) = statusEffects a
  /\ processStatusEffects a = processAscending a
  /\ processStatusEffects b = processAscending b
  /\ processStatusEffects a
     = tickInOrder (byAscendingKind (statusEffects a)) a
  /\ processStatusEffects b
     = tickInOrder (byAscendingKind (statusEffects a)) b
  /\ rank (fst lo) < rank (fst hi)
  /\ (statusEffects u = [] ->
      visitOrder a = [fst lo; fst hi] /\ visitOrder b = [fst lo; fst hi])
  /\ (statusEffects u = [] -> 1 < d1 -> 1 < d2 ->
      processStatusEffects a
      = set_statusEffects [(fst lo, snd lo - 1); (fst hi, snd hi - 1)]
          (tickEffect (fst hi) (tickEffect (fst lo) a))
      /\ processStatusEffects b
         = set_statusEffects [(fst lo, snd lo - 1); (fst hi, snd hi - 1)]
             (tickEffect (fst hi) (tickEffect (fst lo) b))).
Proof.
  intros Hs Hne a b lo hi.
  assert (Hrk : forall e, -1 < rank e) by (intros e; pose proof (rank_bounds e); lia).
  assert (E : statusEffects a = statusEffects b).
  { subst a b. rewrite !addStatus_statusEffects. now apply set_set_comm. }
  assert (C : clearBattleLog a = clearBattleLog b).
  { unfold clearBattleLog, set_battleLog. rewrite E. reflexivity. }
  assert (Sa : StatusMap.sorted (statusEffects a)).
  { subst a. rewrite !addStatus_statusEffects.
    repeat apply StatusMapFacts.set_sorted; auto. }
  assert (Sb : StatusMap.sorted (statusEffects b)) by (now rewrite <- E).
  assert (Hlohi : rank (fst lo) < rank (fst hi)).
  { subst lo hi. unfold lowerFirst.
    destruct e1, e2; try contradiction; cbn; lia. }
  assert (Ta : statusEffects u = [] -> statusEffects a = [lo; hi])
    by (intros Hu; now apply two_entries_lower_first).
  assert (Tb : statusEffects u = [] -> statusEffects b = [lo; hi])
    by (intros Hu; rewrite <- E; now apply Ta).
  assert (Hd : 1 < d1 -> 1 < d2 -> 1 < snd lo /\ 1 < snd hi).
  { intros H1 H2. subst lo hi. unfold lowerFirst.
    destruct (rank e1 <? rank e2); cbn; lia. }
  split; [exact Sa|].
  split; [unfold visitOrder; now rewrite E|].
  split; [exact C|]. split; [now rewrite C|].
  split; [now apply sorted_byAscendingKind|].
  split; [now apply processStatusEffects_ascending|].
  split; [now apply processStatusEffects_ascending|].
  split; [now apply processStatusEffects_in_order|].
  split; [rewrite E; now apply processStatusEffects_in_order|].
  split; [exact Hlohi|].
  split.
  { intros Hu. unfold visitOrder. rewrite (Ta Hu), (Tb Hu). split; reflexivity. }
  intros Hu H1 H2. destruct (Hd H1 H2) as [Hl Hh].
  split; apply processStatusEffects_two_entries; try assumption.
  - rewrite (Ta Hu). now destruct lo, hi.
  - rewrite (Tb Hu). now destruct lo, hi.
Qed.

Lemma tick_order_is_key_order_witness :
  let u := newWarrior "Hero" in
  let weakFirst :=
    addStatus STRENGTH_UP 3 "Hero" (addStatus WEAKNESS 3 "Boss" u) in
  StatusMap.sorted (statusEffects u) /\ WEAKNESS <> STRENGTH_UP
  /\ statusEffects u = [] /\ 1 < 3
  /\ visitOrder weakFirst = [STRENGTH_UP; WEAKNESS]
  /\ processStatusEffects weakFirst
     = set_statusEffects [(STRENGTH_UP, 2); (WEAKNESS, 2)]
         (tickEffect WEAKNESS (tickEffect STRENGTH_UP weakFirst))
  /\ currentAttack (processStatusEffects weakFirst) = 15.
Proof.
  cbv zeta. split; [exact I|]. split; [discriminate|].
  split; [reflexivity|]. split; [lia|].
  destruct (tick_order_is_key_order (newWarrior "Hero") WEAKNESS STRENGTH_UP
              3 3 "Boss" "Hero" I ltac:(discriminate))
    as (_ & _ & _ & _ & _ & _ & _ & _ & _ & _ & Hv & Ht).
  destruct (Hv eq_refl) as [Ha _].
  destruct (Ht eq_refl ltac:(lia) ltac:(lia)) as [Hp _].
  split; [exact Ha|]. split; [exact Hp|].
  rewrite Hp. reflexivity.
Defined.

(** ** The invariant of the vital statistics *)

Create HintDb engine.

Section EngineInvariant.

Variable u : Unit.
Hypothesis Hu : engine_ok u.

Lemma engine_ok_log (msg : string) : engine_ok (addToBattleLog msg u).
Proof. exact Hu. Qed.

Lemma engine_ok_clearBattleLog : engine_ok (clearBattleLog u).
Proof. exact Hu. Qed.

Lemma engine_ok_takeDamage (d : Z) (sb : bool) (src : string) :
  engine_ok (takeDamage d sb src u).
Proof.
  destruct Hu as ((Hh & Hm) & Hb & Hc & Hp).
  pose proof (tick_frame_takeDamage d sb src u) as F.
  assert (C : currentAttack (takeDamage d sb src u) = currentAttack u).
  { unfold takeDamage. destruct (_ && _); reflexivity. }
  unfold tick_frame in F. unfold engine_ok, vitals_ok.
  destruct F as (_ & _ & -> & -> & -> & -> & _ & _ & -> & F).
  rewrite C. intuition lia.
Qed.

Lemma engine_ok_heal (amount : Z) : 0 <= amount -> engine_ok (heal amount u).
Proof.
  intros Ha. destruct Hu as ((Hh & Hm) & Hb & Hc & Hp).
  unfold engine_ok, vitals_ok, heal. unit_fields. intuition lia.
Qed.

Lemma engine_ok_restoreMana (amount : Z) :
  0 <= amount -> engine_ok (restoreMana amount u).
Proof.
  intros Ha. destruct Hu as ((Hh & Hm) & Hb & Hc & Hp).
  unfold engine_ok, vitals_ok, restoreMana. unit_fields. intuition lia.
Qed.

Lemma engine_ok_pay (cost : Z) :
  0 <= cost -> (mana u <? cost) = false ->
  engine_ok (set_mana (mana u - cost) u).
Proof.
  intros Hc0 Hlt. apply Z.ltb_ge in Hlt.
  destruct Hu as ((Hh & Hm) & Hb & Hc & Hp).
  unfold engine_ok, vitals_ok. unit_fields. intuition lia.
Qed.

Lemma engine_ok_increaseMaxHealth (amount : Z) :
  0 <= amount -> engine_ok (increaseMaxHealth amount u).
Proof.
  intros Ha. destruct Hu as ((Hh & Hm) & Hb & Hc & Hp).
  unfold engine_ok, vitals_ok, increaseMaxHealth. unit_fields. intuition lia.
Qed.

Lemma engine_ok_increaseMaxMana (amount : Z) :
  0 <= amount -> engine_ok (increaseMaxMana amount u).
Proof.
  intros Ha. destruct Hu as ((Hh & Hm) & Hb & Hc & Hp).
  unfold engine_ok, vitals_ok, increaseMaxMana. unit_fields. intuition lia.
Qed.

Lemma engine_ok_increaseAttack (amount : Z) :
  0 <= amount -> engine_ok (increaseAttack amount u).
Proof.
  intros Ha. destruct Hu as ((Hh & Hm) & Hb & Hc & Hp).
  unfold engine_ok, vitals_ok, increaseAttack. unit_fields. intuition lia.
Qed.

Lemma engine_ok_increaseDefense (amount : Z) :
  engine_ok (increaseDefense amount u).
Proof. exact Hu. Qed.

Lemma engine_ok_addStatus (e : StatusEffect) (d : Z) (src : string) :
  engine_ok (addStatus e d src u).
Proof. exact Hu. Qed.

Lemma engine_ok_clearStatus (e : StatusEffect) : engine_ok (clearStatus e u).
Proof. exact Hu. Qed.

Lemma engine_ok_set_equipment (v : list Item) : engine_ok (set_equipment v u).
Proof. exact Hu. Qed.

End EngineInvariant.

#[export] Hint Resolve engine_ok_log engine_ok_clearBattleLog
  engine_ok_takeDamage engine_ok_heal engine_ok_restoreMana engine_ok_pay
  engine_ok_increaseMaxHealth engine_ok_increaseMaxMana
  engine_ok_increaseAttack engine_ok_increaseDefense engine_ok_addStatus
  engine_ok_clearStatus engine_ok_set_equipment : engine.

Lemma attackAfter_nonneg (m : StatusMap.t) :
  forall base ca, 0 <= base -> 0 <= ca -> 0 <= attackAfter m base ca.
Proof.
  induction m as [|[k d] r IH]; intros base ca Hb Hc; [exact Hc|].
  destruct k; cbn [attackAfter]; apply IH; lia.
Qed.

Lemma engine_ok_processStatusEffects (u : Unit) :
  engine_ok u -> engine_ok (processStatusEffects u).
Proof.
  intros ((Hh & Hm) & Hb & Hc & Hp). unfold processStatusEffects.
  pose proof (tickLoop_unit (statusEffects u) u) as U.
  destruct (tickLoop (statusEffects u) u) as [[m' rem] u1].
  cbn [fst snd] in *. cbv zeta in U. destruct U as (F1 & S1 & A1).
  pose proof (removeLoop_unit rem (set_statusEffects m' u1)) as Q.
  cbv zeta in Q. destruct Q as (F2 & H2 & _ & A2 & _ & _).
  unfold tick_frame in F1, F2. unit_fields.
  destruct F1 as (_ & _ & M1 & MM1 & Ma1 & B1 & _ & _ & P1 & Hl1).
  destruct F2 as (_ & _ & M2 & MM2 & Ma2 & B2 & _ & _ & P2 & Hl2).
  pose proof (attackAfter_nonneg (statusEffects u) _ _ Hb Hc).
  unfold engine_ok, vitals_ok.
  rewrite M2, MM2, Ma2, B2, P2, H2, A2, M1, MM1, Ma1, B1, P1.
  destruct (existsb isAttackEffect rem); intuition lia.
Qed.

Lemma Forall_erase_at {A : Type} (P : A -> Prop) (v : list A) :
  forall i, Forall P v -> Forall P (erase_at i v).
Proof.
  induction v as [|x r IH]; intros i H; [destruct i; exact H|].
  inversion H; subst. destruct i; cbn; [assumption|].
  constructor; auto.
Qed.

Lemma engine_ok_set_potions (v : list Potion) (u : Unit) :
  engine_ok u -> Forall (fun p => 0 <= potionAmount p) v ->
  engine_ok (set_potions v u).
Proof. intros (V & B & C & _) Hv. repeat split; try apply V; assumption. Qed.

Lemma engine_ok_usePotion (index : Z) (u : Unit) :
  engine_ok u -> engine_ok (snd (usePotion index u)).
Proof.
  intros Hu. unfold usePotion.
  destruct (_ || _); [exact Hu|].
  destruct (nth_error (potions u) (Z.to_nat index)) as [potion|] eqn:E;
    [|exact Hu].
  cbn [snd].
  assert (Hp : 0 <= potionAmount potion).
  { destruct Hu as (_ & _ & _ & Hp).
    rewrite Forall_forall in Hp. apply Hp. eapply nth_error_In; eassumption. }
  assert (H1 : engine_ok (if isHealthPotion potion
                          then heal (potionAmount potion) u
                          else restoreMana (potionAmount potion) u))
    by (destruct (isHealthPotion potion); auto with engine).
  apply engine_ok_set_potions; [auto with engine|].
  apply Forall_erase_at. unit_fields. apply H1.
Qed.

Lemma engine_ok_addItem (item : Item) (u : Unit) :
  engine_ok u -> engine_ok (addItem item u).
Proof.
  intros Hu.
  assert (Hpush : forall p, 0 <= potionAmount p ->
            engine_ok (set_potions (push_back (potions u) p) u)).
  { intros p Hp. apply engine_ok_set_potions; [assumption|].
    unfold push_back. apply Forall_app. split; [apply Hu|].
    constructor; [assumption|constructor]. }
  destruct item; unfold addItem; cbn [ItemData.getType applyEffect];
    try (apply Hpush; cbn; lia);
    apply engine_ok_log;
    repeat first
      [ apply engine_ok_increaseDefense
      | apply engine_ok_increaseMaxHealth; [|cbn; lia]
      | apply engine_ok_increaseAttack; [|cbn; lia]
      | apply engine_ok_set_equipment; exact Hu ].
Qed.

Lemma engine_ok_upgradeChoice (choice : Z) (u : Unit) :
  engine_ok u -> engine_ok (upgradeChoice choice u).
Proof.
  intros Hu. unfold upgradeChoice.
  repeat (match goal with |- context [if ?c then _ else _] => destruct c end);
    auto with engine; (apply engine_ok_heal || apply engine_ok_restoreMana ||
                       apply engine_ok_increaseAttack); auto; lia.
Qed.

Lemma engine_ok_mutate (m : Mutation) (u : Unit) :
  engine_ok u -> engine_ok (mutate m u).
Proof.
  intros Hu. destruct m; cbn [mutate]; auto with engine.
  - apply engine_ok_heal; [assumption|lia].
  - apply engine_ok_restoreMana; [assumption|lia].
  - now apply engine_ok_usePotion.
  - now apply engine_ok_upgradeChoice.
  - now apply engine_ok_addItem.
  - now apply engine_ok_processStatusEffects.
Qed.

Lemma engine_ok_attack (self target : Unit) :
  engine_ok self -> engine_ok target ->
  engine_ok (fst (attack self target)) /\ engine_ok (snd (attack self target)).
Proof. intros Hs Ht. unfold attack. cbn [fst snd]. auto with engine. Qed.

Lemma skill_cost_nonneg (k : SkillSlot) (u : Unit) : 0 <= getSkillCost k u.
Proof.
  destruct k; cbn; unfold getSkill1Cost, getSkill2Cost, getSkill3Cost;
    destruct (class u); lia.
Qed.

Lemma engine_ok_useSkill (k : SkillSlot) (self target : Unit) :
  engine_ok self -> engine_ok target ->
  let '(_, self', target') := useSkill k self target in
  engine_ok self' /\ engine_ok target'.
Proof.
  intros Hs Ht.
  pose proof (skill_cost_nonneg k self) as Hcost.
  assert (Hatk : 0 <= currentAttack self) by apply Hs.
  destruct k; cbn [getSkillCost] in Hcost;
    unfold useSkill, useSkill1, useSkill2, useSkill3;
    destruct (class self);
    unfold WarriorSkills.useSkill1, WarriorSkills.useSkill2,
      WarriorSkills.useSkill3, ArcherSkills.useSkill1, ArcherSkills.useSkill2,
      ArcherSkills.useSkill3, MageSkills.useSkill1, MageSkills.useSkill2,
      MageSkills.useSkill3, BossSkills.useSkill1, BossSkills.useSkill2,
      BossSkills.useSkill3;
    match goal with |- context [mana self <? ?c] =>
      destruct (mana self <? c) eqn:E end;
    (split; auto 10 with engine);
    repeat apply engine_ok_log;
    try (apply engine_ok_addStatus; repeat apply engine_ok_log);
    try (apply engine_ok_heal;
         [|first [lia | apply Z.quot_pos; unit_fields; lia]]);
    repeat apply engine_ok_log;
    auto with engine.
Qed.

Lemma newUnit_engine_ok (c : UnitClass) (n : string) (hp mp atk def : Z) :
  0 <= hp -> 0 <= mp -> 0 <= atk -> engine_ok (newUnit c n hp mp atk def).
Proof.
  intros. unfold engine_ok, vitals_ok, newUnit. cbn. intuition (lia || auto).
Qed.

(** C7. Every operation by which the engine mutates a unit keeps
    [0 <= health <= maxHealth] and [0 <= mana <= maxMana]: the damage
    pipeline, healing and mana restoration, the use of a potion, the
    permanent upgrades, the application of equipment, the status tick, the
    status bookkeeping, and the basic attack and the twelve skills (the debit
    of their mana, their damage, their self-heal) for caller and target
    alike.  The units the engine creates satisfy the invariant to begin
    with. *)
Theorem engine_preserves_vitals :
  (forall (m : Mutation) (u : Unit),
      engine_ok u -> engine_ok (mutate m u) /\ vitals_ok (mutate m u))
  /\ (forall (k : SkillSlot) (self target : Unit),
        engine_ok self -> engine_ok target ->
        let '(_, self', target') := useSkill k self target in
        (engine_ok self' /\ vitals_ok self')
        /\ (engine_ok target' /\ vitals_ok target'))
  /\ (forall self target : Unit,
        engine_ok self -> engine_ok target ->
        let '(self', target') := attack self target in
        (engine_ok self' /\ vitals_ok self')
        /\ (engine_ok target' /\ vitals_ok target'))
  /\ (forall n,
        engine_ok (newWarrior n) /\ engine_ok (newArcher n)
        /\ engine_ok (newMage n))
  /\ (forall stage, 1 <= stage <= 5 -> engine_ok (newBoss stage)).
Proof.
  split.
  { intros m u Hu. pose proof (engine_ok_mutate m u Hu) as H.
    split; [exact H|apply H]. }
  split.
  { intros k self target Hs Ht.
    pose proof (engine_ok_useSkill k self target Hs Ht) as H.
    destruct (useSkill k self target) as [[ok self'] target'].
    destruct H as [H1 H2]. repeat split; (assumption || apply H1 || apply H2). }
  split.
  { intros self target Hs Ht.
    pose proof (engine_ok_attack self target Hs Ht) as H.
    destruct (attack self target) as [self' target'].
    destruct H as [H1 H2]. repeat split; (assumption || apply H1 || apply H2). }
  split.
  { intros n. repeat split; apply newUnit_engine_ok; lia. }
  intros stage Hst. unfold newBoss, newBossUnit. apply newUnit_engine_ok; lia.
Qed.

Lemma engine_preserves_vitals_witness :
  let u := newMage "Hero" in
  let boss := newBoss 1 in
  engine_ok u /\ engine_ok boss
  /\ vitals_ok (mutate (M_heal 30) (mutate (M_takeDamage 500 true "") u))
  /\ vitals_ok (snd (useSkill Skill3 u boss)).
Proof.
  cbv zeta.
  destruct engine_preserves_vitals as (Hm & Hs & _ & Hn & Hb).
  assert (Hu : engine_ok (newMage "Hero")) by apply Hn.
  assert (HB : engine_ok (newBoss 1)) by (apply Hb; lia).
  split; [exact Hu|]. split; [exact HB|]. split.
  - apply Hm. apply Hm. exact Hu.
  - specialize (Hs Skill3 _ _ Hu HB).
    destruct (useSkill Skill3 (newMage "Hero") (newBoss 1)) as [[ok s] t].
    cbn [snd]. apply Hs.
Defined.

(** ** Turns, rounds and the battle *)

Lemma readValid_head (lo hi c : Z) (rest : list Z) :
  lo <= c <= hi -> readValid lo hi (c :: rest) = Some (c, rest).
Proof.
  intros H. cbn.
  assert ((c <? lo) = false) as -> by (apply Z.ltb_ge; lia).
  assert ((hi <? c) = false) as -> by (apply Z.ltb_ge; lia).
  reflexivity.
Qed.

(** The player's side of the fallback: a skill chosen in the menu that the
    player cannot pay is followed by a basic attack. *)
Lemma showSkillsMenu_falls_back
    (k : SkillSlot) (player target : Unit) (w : World) (rest : list Z) :
  inputs w = slotNumber k :: rest ->
  mana player < getSkillCost k player ->
  showSkillsMenu player target w
  = Done (attack (addToBattleLog (notEnoughMP k player) player) target)
      (mkWorld rest (rands w)
         (history w ++ [CallInput 1 3 skillsPrompt])).
Proof.
  intros Hin Hm. unfold showSkillsMenu, bind, getValidInput. rewrite Hin.
  rewrite readValid_head by (destruct k; cbn; lia).
  pose proof (useSkill_fails k player target Hm) as F.
  destruct k; cbn [slotNumber useSkill] in *; cbn [Z.eqb Pos.eqb];
    rewrite F; reflexivity.
Qed.

(** The boss's side: the flag its skill returns is dropped, and a skill the
    boss cannot pay leaves the player as the announcement of the turn left
    it. *)
Lemma bossTurn_no_fallback
    (k : SkillSlot) (boss player : Unit) (w : World) (r : N) (rest : list N) :
  hasStatus STUN boss = false ->
  rands w = r :: rest ->
  Z.rem (Z.of_N r) 4 = slotNumber k - 1 ->
  mana boss < getSkillCost k boss ->
  bossTurn boss player w
  = Done
      (addToBattleLog (notEnoughMP k boss) boss,
       addToBattleLog (name boss ++ " uses " ++ getSkillName k boss ++ "!")
         (addToBattleLog (NL ++ "=== " ++ name boss ++ "'s TURN ===") player))
      (mkWorld (inputs w) rest (history w ++ [TurnOf BossSide; CallRand])).
Proof.
  intros Hst Hr Hk Hm.
  unfold bossTurn, bind, mark, rand. rewrite Hst.
  cbn [rands inputs history]. rewrite Hr. cbv beta iota. rewrite Hk.
  unfold push_back. rewrite <- app_assoc. cbn [app].
  destruct k;
    [ change (slotNumber Skill1 - 1) with 0
    | change (slotNumber Skill2 - 1) with 1
    | change (slotNumber Skill3 - 1) with 2 ];
    cbn [Z.eqb Pos.eqb];
    match goal with
    | |- context [useSkill1 ?b ?p] =>
        rewrite (useSkill_fails Skill1 b p Hm : useSkill1 b p = _)
    | |- context [useSkill2 ?b ?p] =>
        rewrite (useSkill_fails Skill2 b p Hm : useSkill2 b p = _)
    | |- context [useSkill3 ?b ?p] =>
        rewrite (useSkill_fails Skill3 b p Hm : useSkill3 b p = _)
    end; reflexivity.
Qed.

(** C5, at a failing input.  The Goblin King has 10 MP left and draws its
    first skill (cost 15): the skill fails, and the boss's turn ends there.
    The hero has lost no health and the boss's log holds no attack. *)
Example boss_skill_failure_no_attack :
  let boss := set_mana 10 (newBoss 1) in
  let player := newWarrior "Hero" in
  match bossTurn boss player (mkWorld [] [0%N] []) with
  | Done (boss', player') w' =>
      health player' = health player
      /\ battleLog boss'
         = ["Goblin King doesn't have enough MP for Goblin Smash!"]
      /\ battleLog player'
         = [(NL ++ "=== Goblin King's TURN ===")%string;
            "Goblin King uses Goblin Smash!"]
      /\ history w' = [TurnOf BossSide; CallRand]
  | Pending _ => False
  end.
Proof. cbn. repeat split. Qed.

(** A potion used by the player who moves first ends the round at once. *)
Lemma potion_use_player_first
    (player boss : Unit) (w : World) (choice : Z) (rest : list Z) :
  hasStatus STUN player = false ->
  potions player <> [] ->
  inputs w = 3 :: choice :: rest ->
  0 < choice <= Z.of_nat (List.length (potions player)) ->
  exists player',
    round true player boss w
    = Done (NextRound player' (clearBattleLog boss))
        (mkWorld rest (rands w)
           (history w
              ++ [RoundStart; TurnOf PlayerSide; CallInput 1 4 actionPrompt;
                  CallInput 0 (Z.of_nat (List.length (potions player)))
                    potionPrompt])).
Proof.
  intros Hst Hp Hin Hc.
  unfold round, bind, mark, playerTurn, bind, mark.
  assert (hasStatus STUN (clearBattleLog player) = false) as -> by exact Hst.
  unfold getValidInput at 1. cbn [inputs rands history]. rewrite Hin.
  rewrite readValid_head by lia. cbn [Z.eqb Pos.eqb].
  unfold showInventory, bind. unit_fields.
  destruct (potions player) as [|p ps] eqn:Ep; [contradiction|].
  destruct (equipment player);
    unfold getValidInput; cbn [inputs rands history];
    rewrite readValid_head by lia;
    (assert ((0 <? choice) = true) as -> by (apply Z.ltb_lt; lia));
    unfold ret, push_back; rewrite <- !app_assoc; cbn [app];
    eexists; reflexivity.
Qed.

(** C3, at a failing input.  The hero moves first and drinks a potion: the
    round ends without a turn of the boss (the boss is as it was, no random
    number is drawn), and the next round opens with the hero's turn again.
    When the boss moves first, the same potion is followed by the boss's
    turn. *)
Example potion_use_skips_boss_turn :
  let player := set_health 50 (addItem HealthPotion (newWarrior "Hero")) in
  let boss := newBoss 1 in
  let w := mkWorld [3; 1; 1] [3%N; 3%N] [] in
  (exists player' w',
      round true player boss w = Done (NextRound player' boss) w'
      /\ health player' = 80
      /\ rands w' = rands w
      /\ history w'
         = [RoundStart; TurnOf PlayerSide; CallInput 1 4 actionPrompt;
            CallInput 0 1 potionPrompt])
  /\ history (world_of (combatLoop 2 true player boss w))
     = [RoundStart; TurnOf PlayerSide; CallInput 1 4 actionPrompt;
        CallInput 0 1 potionPrompt;
        RoundStart; TurnOf PlayerSide; CallInput 1 4 actionPrompt;
        TurnOf BossSide; CallRand]
  /\ history (world_of (combatLoop 2 false player boss w))
     = [RoundStart; TurnOf BossSide; CallRand;
        TurnOf PlayerSide; CallInput 1 4 actionPrompt;
        CallInput 0 1 potionPrompt;
        RoundStart; TurnOf BossSide; CallRand;
        TurnOf PlayerSide; CallInput 1 4 actionPrompt].
Proof.
  cbv zeta. split; [|split; vm_compute; reflexivity].
  eexists. eexists. split; [vm_compute; reflexivity|].
  repeat split.
Qed.

(** ** Damage to a unit that is already dead *)

(** C4, as the specification states it, fails.  The archer's Double Shot
    on a boss with 20 HP: the first arrow kills, and the second one is
    still shot at the dead boss and narrated.  Likewise a unit that its
    poison kills is still hit by its bleeding in the same tick. *)
Lemma double_shot_hits_dead_target :
  let archer := newArcher "Hero" in
  let boss := set_health 20 (newBoss 1) in
  let first := takeDamage (currentAttack archer) true "" boss in
  let victim :=
    set_health 2
      (addStatus BLEED 2 "Hero" (addStatus POISON 3 "Hero" (newBoss 1))) in
  isAlive boss = true
  /\ isAlive first = false
  /\ snd (useSkill Skill3 archer boss)
     = takeDamage (currentAttack archer) true "" first
  /\ battleLog (snd (useSkill Skill3 archer boss))
     = ["Goblin King took 30 damage! [20 -> 0/90 HP]";
        "Goblin King took 30 damage! [0 -> 0/90 HP]"]
  /\ battleLog (processStatusEffects (clearBattleLog victim))
     = ["Goblin King took 5 damage from Poison! [2 -> 0/90 HP]";
        "Goblin King took 3 damage from Bleed! [0 -> 0/90 HP]"].
Proof. repeat split. Qed.

Lemma takeDamage_same_stats_dead (u : Unit) (d : Z) (sb : bool) (src : string) :
  health u = 0 -> same_stats (takeDamage d sb src u) u.
Proof.
  intros H. unfold same_stats. rewrite takeDamage_health.
  unfold takeDamage. destruct (_ && _); unit_fields;
    repeat split; rewrite ?H; lia.
Qed.

(** C4, amended.  A hit on a unit whose health is 0 changes nothing but
    the narration: the health stays 0 and every other statistic is as it
    was.  No round starts once either unit is dead, and the side that moves
    second does not move when it is dead after the first side's turn.  The
    hits themselves are not withheld: Double Shot always lands its two
    arrows. *)
Theorem dead_unit_takes_no_more_harm :
  (forall (u : Unit) (d : Z) (showBlock : bool) (source : string),
      health u = 0 ->
      health (takeDamage d showBlock source u) = 0
      /\ same_stats (takeDamage d showBlock source u) u)
  /\ (forall (fuel : nat) (playerFirst : bool) (player boss : Unit) (w : World),
        isAlive player && isAlive boss = false ->
        combatLoop fuel playerFirst player boss w
        = Done (LoopEnded player boss) w)
  /\ (forall (player boss p1 b1 : Unit) (w w1 : World),
        playerTurn (clearBattleLog player) (clearBattleLog boss)
          (world_of (mark RoundStart w)) = Done (Acted p1 b1) w1 ->
        isAlive b1 = false ->
        round true player boss w
        = Done (BreakLoop (processStatusEffects p1) b1) w1)
  /\ (forall (player boss p1 b1 : Unit) (w w1 : World),
        bossTurn (clearBattleLog boss) (clearBattleLog player)
          (world_of (mark RoundStart w)) = Done (b1, p1) w1 ->
        isAlive p1 = false ->
        round false player boss w
        = Done (ReturnDefeated (clearBattleLog p1)
                  (clearBattleLog (processStatusEffects b1))) w1)
  /\ (forall self target : Unit,
        class self = Archer -> getSkill3Cost self <= mana self ->
        snd (useSkill Skill3 self target)
        = takeDamage (currentAttack self) true ""
            (takeDamage (currentAttack self) true "" target)).
Proof.
  split.
  { intros u d sb src H. split; [|now apply takeDamage_same_stats_dead].
    rewrite takeDamage_health, H. lia. }
  split.
  { intros fuel pf p b w H. destruct fuel; cbn [combatLoop]; rewrite H;
      reflexivity. }
  split.
  { intros p b p1 b1 w w1 Ht Hd. unfold round, bind.
    cbn [world_of mark] in Ht. cbn [mark]. cbv beta iota.
    rewrite Ht. cbv beta iota. rewrite Hd. reflexivity. }
  split.
  { intros p b p1 b1 w w1 Ht Hd. unfold round, bind.
    cbn [world_of mark] in Ht. cbn [mark]. cbv beta iota.
    rewrite Ht. cbv beta iota.
    assert (isAlive (clearBattleLog p1) = false) as -> by exact Hd.
    reflexivity. }
  intros self target Hc Hm. cbn [useSkill]. unfold useSkill3. rewrite Hc.
  unfold ArcherSkills.useSkill3.
  assert ((mana self <? getSkill3Cost self) = false) as ->
    by (apply Z.ltb_ge; exact Hm).
  reflexivity.
Qed.

Lemma dead_unit_takes_no_more_harm_witness :
  let dead := set_health 0 (newBoss 1) in
  let player := newWarrior "Hero" in
  health dead = 0
  /\ health (takeDamage 30 true "" dead) = 0
  /\ isAlive player && isAlive dead = false
  /\ combatLoop 7 true player dead (mkWorld [1] [3%N] [])
     = Done (LoopEnded player dead) (mkWorld [1] [3%N] [])
  /\ (let archer := newArcher "Hero" in
      class archer = Archer /\ getSkill3Cost archer <= mana archer
      /\ health (snd (useSkill Skill3 archer (newBoss 1))) = 30).
Proof.
  cbv zeta.
  destruct dead_unit_takes_no_more_harm as (H1 & H2 & _ & _ & H5).
  split; [reflexivity|].
  split; [apply (H1 (set_health 0 (newBoss 1)) 30 true ""); reflexivity|].
  split; [reflexivity|].
  split; [apply H2; reflexivity|].
  split; [reflexivity|]. split; [cbn; lia|].
  rewrite (H5 (newArcher "Hero") (newBoss 1) eq_refl ltac:(cbn; lia)).
  reflexivity.
Defined.

(** ** The order of turns *)

(** The monitor does reject: a second coin flip in a battle, and a round
    that the wrong side opens. *)
Example monitor_rejects_second_flip :
  turnOrderRespected
    [StageStart 1; CallInput 1 2 coinFlipPrompt; CallRand; TurnOrderSet true;
     RoundStart; TurnOf PlayerSide; CallInput 1 4 actionPrompt;
     CallInput 1 2 coinFlipPrompt] = false.
Proof. reflexivity. Qed.

Example monitor_rejects_changed_order :
  turnOrderRespected
    [StageStart 1; CallInput 1 2 coinFlipPrompt; CallRand; TurnOrderSet true;
     RoundStart; TurnOf PlayerSide; CallInput 1 4 actionPrompt;
     TurnOf BossSide; CallRand;
     RoundStart; TurnOf BossSide] = false.
Proof. reflexivity. Qed.

Example monitor_rejects_battle_without_flip :
  turnOrderRespected [StageStart 1; RoundStart; TurnOf PlayerSide] = false.
Proof. reflexivity. Qed.

Lemma run_app (t1 t2 : list Event) :
  forall ph,
    run ph (t1 ++ t2)
    = match run ph t1 with
      | Some ph' => run ph' t2
      | None => None
      end.
Proof.
  induction t1 as [|e r IH]; intros ph; [reflexivity|].
  cbn. destruct (step ph e); [apply IH|reflexivity].
Qed.

Lemma triple_ret {A : Type} (ph : Phase) (a : A) (Q : A -> Phase -> Prop) :
  Q a ph -> triple ph (ret a) Q.
Proof.
  intros H w. exists []. cbn. rewrite app_nil_r. split; [reflexivity|eauto].
Qed.

Lemma triple_bind {A B : Type} (ph : Phase) (m : IO A) (k : A -> IO B)
    (Q : A -> Phase -> Prop) (R : B -> Phase -> Prop) :
  triple ph m Q ->
  (forall a ph', Q a ph' -> triple ph' (k a) R) ->
  triple ph (bind m k) R.
Proof.
  intros Hm Hk w. unfold bind.
  destruct (Hm w) as (t1 & Hh & Hr).
  destruct (m w) as [a w1|w1]; cbn [world_of] in *.
  - destruct Hr as (ph1 & Hrun & HQ).
    destruct (Hk a ph1 HQ w1) as (t2 & Hh2 & Hr2).
    exists (t1 ++ t2). split.
    + rewrite Hh2, Hh. now rewrite app_assoc.
    + rewrite run_app, Hrun. exact Hr2.
  - exists t1. split; assumption.
Qed.

Lemma triple_weaken {A : Type} (ph : Phase) (m : IO A)
    (Q Q' : A -> Phase -> Prop) :
  triple ph m Q -> (forall a ph', Q a ph' -> Q' a ph') -> triple ph m Q'.
Proof.
  intros Hm HQ w. destruct (Hm w) as (t & Hh & Hr). exists t.
  split; [assumption|].
  destruct (m w); [|assumption].
  destruct Hr as (ph' & ? & ?). eauto.
Qed.

Lemma triple_pending {A : Type} (ph : Phase) (Q : A -> Phase -> Prop) :
  triple ph (fun w => Pending w) Q.
Proof. intros w. exists []. cbn. rewrite app_nil_r. eauto. Qed.

Lemma triple_mark (ph ph' : Phase) (e : Event) :
  step ph e = Some ph' -> triple ph (mark e) (fun _ p => p = ph').
Proof.
  intros H w. exists [e]. cbn. rewrite H. split; [reflexivity|eauto].
Qed.

Lemma triple_rand (ph ph' : Phase) :
  step ph CallRand = Some ph' -> triple ph rand (fun _ p => p = ph').
Proof.
  intros H w. exists [CallRand]. unfold rand.
  destruct (rands w); cbn; rewrite H; split; (reflexivity || eauto).
Qed.

Lemma triple_getValidInput (ph ph' : Phase) (lo hi : Z) (prompt : string) :
  step ph (CallInput lo hi prompt) = Some ph' ->
  triple ph (getValidInput lo hi prompt) (fun _ p => p = ph').
Proof.
  intros H w. exists [CallInput lo hi prompt]. unfold getValidInput.
  destruct (readValid lo hi (inputs w)) as [[c rest]|]; cbn; rewrite H;
    split; (reflexivity || eauto).
Qed.

Lemma keepsOrder_ret {A : Type} (pf : bool) (a : A) : keepsOrder pf (ret a).
Proof. now apply triple_ret. Qed.

Lemma keepsOrder_bind {A B : Type} (pf : bool) (m : IO A) (k : A -> IO B) :
  keepsOrder pf m -> (forall a, keepsOrder pf (k a)) ->
  keepsOrder pf (bind m k).
Proof.
  intros Hm Hk. eapply triple_bind; [exact Hm|].
  intros a ph' ->. apply Hk.
Qed.

Lemma keepsOrder_rand (pf : bool) : keepsOrder pf rand.
Proof. now apply triple_rand. Qed.

Lemma keepsOrder_getValidInput (pf : bool) (lo hi : Z) (prompt : string) :
  isCoinFlip (CallInput lo hi prompt) = false ->
  keepsOrder pf (getValidInput lo hi prompt).
Proof. intros H. apply triple_getValidInput. cbn [step]. now rewrite H. Qed.

Lemma keepsOrder_showSkillsMenu (pf : bool) (player target : Unit) :
  keepsOrder pf (showSkillsMenu player target).
Proof.
  unfold showSkillsMenu. apply keepsOrder_bind.
  - now apply keepsOrder_getValidInput.
  - intros c.
    destruct (if c =? 1 then _ else _) as [[used p] t].
    destruct (negb used); apply keepsOrder_ret.
Qed.

Lemma keepsOrder_showInventory (pf : bool) (u : Unit) :
  keepsOrder pf (showInventory u).
Proof.
  unfold showInventory.
  assert (H : forall n, keepsOrder pf
            (choice <- getValidInput 0 n "Enter your choice: " ;;
             if 0 <? choice then ret (true, snd (usePotion (choice - 1) u))
             else ret (false, u))).
  { intros n. apply keepsOrder_bind.
    - now apply keepsOrder_getValidInput.
    - intros c. destruct (0 <? c); apply keepsOrder_ret. }
  destruct (equipment u), (potions u); try apply keepsOrder_ret; apply H.
Qed.

(** The turn of a side, from any phase in which the monitor accepts it. *)
Lemma triple_playerTurn (ph : Phase) (pf : bool) (player boss : Unit) :
  step ph (TurnOf PlayerSide) = Some (Fighting pf) ->
  triple ph (playerTurn player boss) (fun _ p => p = Fighting pf).
Proof.
  intros H. unfold playerTurn.
  eapply triple_bind; [apply (triple_mark _ _ _ H)|].
  intros _ ph' ->. fold (@keepsOrder PlayerTurn pf).
  destruct (hasStatus STUN player); [apply keepsOrder_ret|].
  apply keepsOrder_bind; [now apply keepsOrder_getValidInput|].
  intros action.
  destruct (action =? 1).
  { destruct (attack _ boss). apply keepsOrder_ret. }
  destruct (action =? 2).
  { apply keepsOrder_bind; [apply keepsOrder_showSkillsMenu|].
    intros [p b]. apply keepsOrder_ret. }
  destruct (action =? 3).
  { apply keepsOrder_bind; [apply keepsOrder_showInventory|].
    intros [used p]. destruct used; apply keepsOrder_ret. }
  destruct (action =? 4); apply keepsOrder_ret.
Qed.

Lemma triple_bossTurn (ph : Phase) (pf : bool) (boss player : Unit) :
  step ph (TurnOf BossSide) = Some (Fighting pf) ->
  triple ph (bossTurn boss player) (fun _ p => p = Fighting pf).
Proof.
  intros H. unfold bossTurn.
  eapply triple_bind; [apply (triple_mark _ _ _ H)|].
  intros _ ph' ->. fold (@keepsOrder (Unit * Unit) pf).
  destruct (hasStatus STUN boss); [apply keepsOrder_ret|].
  apply keepsOrder_bind; [apply keepsOrder_rand|].
  intros r.
  destruct (Z.rem r 4 =? 3); [apply keepsOrder_ret|].
  destruct (Z.rem r 4 =? 0).
  { destruct (useSkill1 boss _) as [[ok b] p]. apply keepsOrder_ret. }
  destruct (Z.rem r 4 =? 1).
  { destruct (useSkill2 boss _) as [[ok b] p]. apply keepsOrder_ret. }
  destruct (Z.rem r 4 =? 2).
  { destruct (useSkill3 boss _) as [[ok b] p]. apply keepsOrder_ret. }
  apply keepsOrder_ret.
Qed.

(** A round opens with the turn of the side the order names, and leaves
    the order as it is. *)
Lemma keepsOrder_round (pf : bool) (player boss : Unit) :
  keepsOrder pf (round pf player boss).
Proof.
  unfold round.
  eapply triple_bind;
    [apply (triple_mark (Fighting pf) (RoundBegun pf)); reflexivity|].
  intros _ ph' ->. destruct pf.
  - eapply triple_bind; [apply (triple_playerTurn _ true); reflexivity|].
    intros t ph' ->. fold (@keepsOrder Round true).
    destruct t as [p b|p b]; [|apply keepsOrder_ret].
    destruct (negb (isAlive b)); [apply keepsOrder_ret|].
    apply keepsOrder_bind; [apply (triple_bossTurn _ true); reflexivity|].
    intros [b1 p2]. apply keepsOrder_ret.
  - eapply triple_bind; [apply (triple_bossTurn _ false); reflexivity|].
    intros [b p] ph' ->. fold (@keepsOrder Round false).
    destruct (negb (isAlive (clearBattleLog p))); [apply keepsOrder_ret|].
    apply keepsOrder_bind; [apply (triple_playerTurn _ false); reflexivity|].
    intros [p2 b3|p2 b3]; apply keepsOrder_ret.
Qed.

Lemma keepsOrder_combatLoop (pf : bool) (fuel : nat) :
  forall player boss, keepsOrder pf (combatLoop fuel pf player boss).
Proof.
  induction fuel as [|fuel IH]; intros player boss; cbn [combatLoop];
    destruct (isAlive player && isAlive boss); try apply keepsOrder_ret.
  - apply triple_pending.
  - apply keepsOrder_bind; [apply keepsOrder_round|].
    intros [p b|p b|p b]; [apply IH|apply keepsOrder_ret..].
Qed.

Lemma run_rands (pf : bool) (k : nat) :
  run (Fighting pf) (repeat CallRand k) = Some (Fighting pf).
Proof. induction k; [reflexivity|exact IHk]. Qed.

Lemma drawUnused_history (usedIndices : list Z) (rs : list N) :
  forall h, exists k,
    snd (drawUnused usedIndices rs h) = h ++ repeat CallRand k.
Proof.
  induction rs as [|r rest IH]; intros h; cbn [drawUnused].
  - exists 1%nat. reflexivity.
  - cbv zeta. destruct (existsb _ usedIndices).
    + destruct (IH (push_back h CallRand)) as (k & Hk).
      exists (S k). rewrite Hk. unfold push_back.
      rewrite <- app_assoc. reflexivity.
    + exists 1%nat. reflexivity.
Qed.

Lemma keepsOrder_drawIndex (pf : bool) (usedIndices : list Z) :
  keepsOrder pf (drawIndex usedIndices).
Proof.
  intros w. unfold drawIndex.
  destruct (drawUnused_history usedIndices (rands w) (history w)) as (k & Hk).
  exists (repeat CallRand k).
  destruct (drawUnused usedIndices (rands w) (history w)) as [[[i|] rest] h];
    cbn [snd world_of history] in *; rewrite run_rands; split; eauto.
Qed.

Lemma keepsOrder_selectItems (pf : bool) (n : nat) :
  forall usedIndices selectedItems,
    keepsOrder pf (selectItems n usedIndices selectedItems).
Proof.
  induction n as [|n IH]; intros used sel; cbn [selectItems].
  - apply keepsOrder_ret.
  - apply keepsOrder_bind; [apply keepsOrder_drawIndex|]. intros i. apply IH.
Qed.

Lemma keepsOrder_dropPotions (pf : bool) (n : nat) :
  forall dropped, keepsOrder pf (dropPotions n dropped).
Proof.
  induction n as [|n IH]; intros dropped; cbn [dropPotions].
  - apply keepsOrder_ret.
  - apply keepsOrder_bind; [apply keepsOrder_rand|]. intros r. apply IH.
Qed.

Lemma keepsOrder_stageRewards (pf : bool) (stage : Z) (player : Unit) :
  keepsOrder pf (stageRewards stage player).
Proof.
  unfold stageRewards, generateRandomPotions, generateRandomItems.
  apply keepsOrder_bind.
  { apply keepsOrder_bind; [apply keepsOrder_rand|].
    intros r. apply keepsOrder_dropPotions. }
  intros dropped. destruct (stage <? 5); [|apply keepsOrder_ret].
  apply keepsOrder_bind; [now apply keepsOrder_getValidInput|]. intros upgrade.
  apply keepsOrder_bind; [apply keepsOrder_selectItems|]. intros choices.
  apply keepsOrder_bind; [now apply keepsOrder_getValidInput|]. intros choice.
  apply keepsOrder_ret.
Qed.

Lemma triple_coinFlip : triple AwaitFlip coinFlip (fun _ p => p = Flipped).
Proof.
  unfold coinFlip.
  eapply triple_bind; [apply (triple_getValidInput AwaitFlip Flipped); reflexivity|].
  intros choice ph' ->.
  eapply triple_bind; [apply (triple_rand Flipped Flipped); reflexivity|].
  intros r ph' ->. now apply triple_ret.
Qed.

(** The battle of a stage flips the coin once, sets the order once and
    keeps it. *)
Lemma triple_stageBattle (fuel : nat) (player boss : Unit) :
  triple AwaitFlip (stageBattle fuel player boss)
    (fun _ p => exists pf, p = Fighting pf).
Proof.
  unfold stageBattle.
  eapply triple_bind; [apply triple_coinFlip|].
  intros pf ph' ->.
  eapply triple_bind;
    [apply (triple_mark Flipped (Fighting pf)); reflexivity|].
  intros _ ph' ->.
  eapply triple_weaken; [apply keepsOrder_combatLoop|].
  intros b ph' ->. eauto.
Qed.

Lemma triple_stageLoop (fuel todo : nat) :
  forall ph stage player,
    betweenStages ph ->
    triple ph (stageLoop fuel todo stage player) (fun _ p => betweenStages p).
Proof.
  induction todo as [|todo IH]; intros ph stage player Hph; cbn [stageLoop].
  - now apply triple_ret.
  - eapply triple_bind.
    { apply (triple_mark ph AwaitFlip).
      destruct Hph as [->|[pf ->]]; reflexivity. }
    intros _ ph' ->.
    eapply triple_bind; [apply triple_stageBattle|].
    intros b ph' [pf ->].
    assert (Hb : betweenStages (Fighting pf)) by (right; eauto).
    destruct b as [p b|p b]; [|now apply triple_ret].
    destruct (negb (isAlive p)); [now apply triple_ret|].
    eapply triple_bind; [apply (keepsOrder_stageRewards pf)|].
    intros p1 ph' ->. now apply IH.
Qed.

Lemma coinFlip_history (w w1 : World) (playerFirst : bool) :
  coinFlip w = Done playerFirst w1 ->
  history w1 = history w ++ [CallInput 1 2 coinFlipPrompt; CallRand].
Proof.
  unfold coinFlip, bind, getValidInput, rand, ret.
  destruct (readValid 1 2 (inputs w)) as [[c rest]|]; [|discriminate].
  cbn [rands history inputs].
  destruct (rands w); [discriminate|].
  intros H. injection H as _ <-. cbn [history]. unfold push_back.
  now rewrite <- app_assoc.
Qed.

(** C6. In every run of the campaign the order of turns is decided once per
    battle, by one coin flip at the start of the stage and before its first
    round; no coin is flipped and no order is set again until the next stage
    starts, every round of the battle opens with the turn of the side the
    flip named, and each later stage starts with a coin flip of its own.
    The second part names the order: after the flip returns [playerFirst],
    the rest of the battle is accepted by the monitor started with that
    order. *)
Theorem turn_order_fixed_per_battle :
  (forall (fuel : nat) (player : Unit) (typed : list Z) (drawn : list N),
      turnOrderRespected
        (history (world_of (gameLoop fuel player (mkWorld typed drawn []))))
      = true)
  /\ (forall (fuel : nat) (player boss : Unit) (w : World),
        match coinFlip w with
        | Done playerFirst _ =>
            exists tail ph,
              history (world_of (stageBattle fuel player boss w))
              = history w
                  ++ [CallInput 1 2 coinFlipPrompt; CallRand;
                      TurnOrderSet playerFirst]
                  ++ tail
              /\ run (Fighting playerFirst) tail = Some ph
        | Pending w1 => stageBattle fuel player boss w = Pending w1
        end).
Proof.
  split.
  - intros fuel player typed drawn. unfold turnOrderRespected, gameLoop.
    destruct (triple_stageLoop fuel 5 Idle 1 player (or_introl eq_refl)
                (mkWorld typed drawn [])) as (t & Hh & Hr).
    cbn [history app] in Hh. rewrite Hh.
    destruct (stageLoop fuel 5 1 player (mkWorld typed drawn []));
      destruct Hr as (ph & Hrun & _) || destruct Hr as (ph & Hrun);
      now rewrite Hrun.
  - intros fuel player boss w.
    destruct (coinFlip w) as [pf w1|w1] eqn:E;
      [|unfold stageBattle, bind; now rewrite E].
    pose proof (coinFlip_history w w1 pf E) as Hh.
    unfold stageBattle, bind, mark. rewrite E. cbv beta iota.
    destruct (keepsOrder_combatLoop pf fuel player boss
                (mkWorld (inputs w1) (rands w1)
                   (push_back (history w1) (TurnOrderSet pf))))
      as (t & Ht & Hr).
    exists t.
    assert (exists ph, run (Fighting pf) t = Some ph) as [ph Hph].
    { destruct (combatLoop fuel pf player boss _);
        [destruct Hr as (ph & ? & _)|destruct Hr as (ph & ?)]; eauto. }
    exists ph. split; [|exact Hph].
    rewrite Ht. cbn [history]. unfold push_back. rewrite Hh.
    now rewrite <- !app_assoc.
Qed.

(** A run of the campaign: the hero wins the first flip and the first
    battle, loses the second flip and dies in the second battle. *)
Example campaign_run :
  let w :=
    mkWorld [1; 1; 2; 1; 1; 3; 1; 4; 1; 1; 1; 1; 1; 1; 1; 1; 1; 1; 1; 1]
      [0; 0; 1; 2; 3; 0; 1; 2; 3; 4; 5; 6; 7; 3; 3; 3; 3; 3; 3; 3; 3; 3]%N
      [] in
  let h := history (world_of (gameLoop 100 (newWarrior "Hero") w)) in
  filter isCoinFlip h
  = [CallInput 1 2 coinFlipPrompt; CallInput 1 2 coinFlipPrompt]
  /\ firstn 6 h
     = [StageStart 1; CallInput 1 2 coinFlipPrompt; CallRand;
        TurnOrderSet true; RoundStart; TurnOf PlayerSide]
  /\ turnOrderRespected h = true.
Proof. vm_compute. repeat split. Qed.

(** * Further properties of the engine *)

(** ** Healing and mana restoration *)

(** X1. [heal] and [restoreMana] never exceed the maximum; the amount they
    narrate is [min(amount, max - before)]; and a second restoration by a
    non-negative amount gives what one restoration by the sum gives. *)
Theorem heal_restore_saturate (u : Unit) (a b : Z) :
  (health (heal a u) <= maxHealth u
   /\ health (heal a u) - health u = Z.min a (maxHealth u - health u)
   /\ battleLog (heal a u)
      = battleLog u
          ++ [(name u ++ " healed "
                 ++ to_string (Z.min a (maxHealth u - health u)) ++ " HP! ("
                 ++ to_string (health (heal a u)) ++ "/"
                 ++ to_string (maxHealth u) ++ ")")%string]
   /\ (0 <= b -> health (heal b (heal a u)) = health (heal (a + b) u)))
  /\ (mana (restoreMana a u) <= maxMana u
      /\ mana (restoreMana a u) - mana u = Z.min a (maxMana u - mana u)
      /\ battleLog (restoreMana a u)
         = battleLog u
             ++ [(name u ++ " restored "
                    ++ to_string (Z.min a (maxMana u - mana u)) ++ " MP! ("
                    ++ to_string (mana (restoreMana a u)) ++ "/"
                    ++ to_string (maxMana u) ++ ")")%string]
      /\ (0 <= b ->
          mana (restoreMana b (restoreMana a u)) = mana (restoreMana (a + b) u))).
Proof.
  split.
  - rewrite heal_health. repeat split; try lia.
    + unfold heal, addToBattleLog, push_back. unit_fields.
      replace (Z.min (maxHealth u) (health u + a) - health u)
        with (Z.min a (maxHealth u - health u)) by lia.
      reflexivity.
    + intros Hb. rewrite !heal_health. unfold heal. unit_fields. lia.
  - rewrite restoreMana_mana. repeat split; try lia.
    + unfold restoreMana, addToBattleLog, push_back. unit_fields.
      replace (Z.min (maxMana u) (mana u + a) - mana u)
        with (Z.min a (maxMana u - mana u)) by lia.
      reflexivity.
    + intros Hb. rewrite !restoreMana_mana. unfold restoreMana. unit_fields. lia.
Qed.

Lemma heal_restore_saturate_witness :
  let u := set_health 100 (newWarrior "Hero") in
  0 <= 30 /\ health (heal 30 (heal 10 u)) = 120
  /\ health (heal 40 u) = 120.
Proof.
  cbv zeta. split; [lia|].
  destruct (heal_restore_saturate (set_health 100 (newWarrior "Hero")) 10 30)
    as ((_ & _ & _ & H) & _).
  rewrite (H ltac:(lia)). split; reflexivity.
Defined.

(** ** The inventory *)

Lemma erase_at_length {A : Type} (v : list A) :
  forall i, (i < List.length v)%nat ->
  S (List.length (erase_at i v)) = List.length v.
Proof.
  induction v as [|x r IH]; intros i Hi; [cbn in Hi; lia|].
  destruct i; cbn; [reflexivity|]. cbn in Hi. rewrite IH; [reflexivity|lia].
Qed.

Lemma erase_at_nth_before {A : Type} (v : list A) :
  forall i j, (j < i)%nat -> nth_error (erase_at i v) j = nth_error v j.
Proof.
  induction v as [|x r IH]; intros i j Hj; [destruct i; reflexivity|].
  destruct i; [lia|]. destruct j; cbn; [reflexivity|]. apply IH. lia.
Qed.

Lemma erase_at_nth_after {A : Type} (v : list A) :
  forall i j, (i <= j)%nat -> nth_error (erase_at i v) j = nth_error v (S j).
Proof.
  induction v as [|x r IH]; intros i j Hj.
  - destruct i, j; reflexivity.
  - destruct i; cbn; [reflexivity|].
    destruct j; [lia|]. cbn. apply IH. lia.
Qed.

Lemma erase_at_last {A : Type} (v : list A) (x : A) :
  erase_at (List.length v) (v ++ [x]) = v.
Proof. induction v as [|y r IH]; cbn; [reflexivity|]. now rewrite IH. Qed.

(** X2. [usePotion] with an index that is negative or not below the number
    of potions does nothing and returns false. *)
Theorem usePotion_out_of_range (index : Z) (u : Unit) :
  index < 0 \/ Z.of_nat (List.length (potions u)) <= index ->
  usePotion index u = (false, u).
Proof.
  intros H. unfold usePotion.
  assert ((index <? 0) || (Z.of_nat (List.length (potions u)) <=? index) = true)
    as ->; [|reflexivity].
  apply orb_true_iff. rewrite Z.ltb_lt, Z.leb_le. exact H.
Qed.

Lemma usePotion_out_of_range_witness :
  let u := addItem HealthPotion (set_health 50 (newWarrior "Hero")) in
  (1 < 0 \/ Z.of_nat (List.length (potions u)) <= 1)
  /\ usePotion 1 u = (false, u)
  /\ usePotion 0 (newWarrior "Hero") = (false, newWarrior "Hero").
Proof.
  cbv zeta. split; [right; cbn; lia|]. split.
  - apply usePotion_out_of_range. right. cbn. lia.
  - apply usePotion_out_of_range. right. cbn. lia.
Defined.

(** X3. [usePotion] with a valid index returns true, restores health or
    mana (according to the kind of the potion at that index) by the
    saturating amount of the potion, narrates its use last, and removes that
    potion and no other: the potions before it keep their places, the ones
    after it move up by one. *)
Theorem usePotion_valid (index : Z) (u : Unit) :
  0 <= index < Z.of_nat (List.length (potions u)) ->
  exists potion,
    nth_error (potions u) (Z.to_nat index) = Some potion
    /\ fst (usePotion index u) = true
    /\ let u' := snd (usePotion index u) in
       (if isHealthPotion potion
        then health u' = Z.min (maxHealth u) (health u + potionAmount potion)
             /\ mana u' = mana u
        else mana u' = Z.min (maxMana u) (mana u + potionAmount potion)
             /\ health u' = health u)
       /\ maxHealth u' = maxHealth u /\ maxMana u' = maxMana u
       /\ S (List.length (potions u')) = List.length (potions u)
       /\ (forall j, (j < Z.to_nat index)%nat ->
             nth_error (potions u') j = nth_error (potions u) j)
       /\ (forall j, (Z.to_nat index <= j)%nat ->
             nth_error (potions u') j = nth_error (potions u) (S j))
       /\ last (battleLog u') ""
          = (name u ++ " used " ++ potionName potion ++ "!")%string.
Proof.
  intros H. unfold usePotion.
  assert ((index <? 0) || (Z.of_nat (List.length (potions u)) <=? index) = false)
    as -> by (apply orb_false_iff; rewrite Z.ltb_ge, Z.leb_gt; lia).
  assert (Hn : (Z.to_nat index < List.length (potions u))%nat) by lia.
  destruct (nth_error (potions u) (Z.to_nat index)) as [potion|] eqn:E;
    [|apply nth_error_None in E; lia].
  exists potion. split; [reflexivity|]. split; [reflexivity|].
  cbn [snd]. cbv zeta.
  destruct (isHealthPotion potion); unfold heal, restoreMana; unit_fields;
    (repeat split;
     [ now apply erase_at_length
     | intros j Hj; now apply erase_at_nth_before
     | intros j Hj; now apply erase_at_nth_after
     | unfold push_back; now rewrite last_last ]).
Qed.

Lemma usePotion_valid_witness :
  let u :=
    addItem ManaPotion
      (addItem HealthPotion (set_health 50 (newWarrior "Hero"))) in
  0 <= 0 < Z.of_nat (List.length (potions u))
  /\ fst (usePotion 0 u) = true
  /\ health (snd (usePotion 0 u)) = 80
  /\ List.map potionName (potions (snd (usePotion 0 u))) = ["Mana Potion"].
Proof.
  cbv zeta. split; [cbn; lia|].
  destruct (usePotion_valid 0
              (addItem ManaPotion
                 (addItem HealthPotion (set_health 50 (newWarrior "Hero"))))
              ltac:(cbn; lia)) as (potion & _ & H & _).
  split; [exact H|]. split; reflexivity.
Defined.

(** X4. An item of equipment is applied when it is added: the unit gains
    exactly the attack, health and defense bonuses the item declares (health
    and maximum health together), its mana, potions and status effects are
    untouched, and the item is appended to the equipment.  The current
    attack is reset to the new base attack when the item has an attack
    bonus, and is left alone otherwise. *)
Theorem addItem_equipment (item : Item) (u : Unit) :
  isEquipment item = true ->
  let u' := addItem item u in
  baseAttack u' = baseAttack u + ItemData.getAttackBonus item
  /\ maxHealth u' = maxHealth u + ItemData.getHealthBonus item
  /\ health u' = health u + ItemData.getHealthBonus item
  /\ defense u' = defense u + ItemData.getDefenseBonus item
  /\ currentAttack u'
     = (if 0 <? ItemData.getAttackBonus item then baseAttack u'
        else currentAttack u)
  /\ mana u' = mana u /\ maxMana u' = maxMana u
  /\ potions u' = potions u /\ statusEffects u' = statusEffects u
  /\ equipment u' = equipment u ++ [item]
  /\ last (battleLog u') ""
     = (name u ++ " equipped " ++ ItemData.getName item ++ "!")%string.
Proof.
  intros H. destruct item; try discriminate H;
    unfold addItem, applyEffect, increaseAttack, increaseMaxHealth,
      increaseDefense;
    cbn [ItemData.getType ItemData.getAttackBonus ItemData.getHealthBonus
         ItemData.getDefenseBonus ItemData.getName Z.ltb Z.compare];
    unit_fields; unfold push_back; rewrite ?last_last;
    repeat split; lia.
Qed.

Lemma addItem_equipment_witness :
  let u := newWarrior "Hero" in
  isEquipment DragonScale = true
  /\ baseAttack (addItem DragonScale u) = 30
  /\ maxHealth (addItem DragonScale u) = 150
  /\ defense (addItem DragonScale u) = 7.
Proof.
  cbv zeta. split; [reflexivity|].
  destruct (addItem_equipment DragonScale (newWarrior "Hero") eq_refl)
    as (H1 & H2 & _ & H4 & _).
  rewrite H1, H2, H4. repeat split.
Defined.

(** X5. A potion item is stored, not applied: adding it changes nothing of
    the unit but the list of potions, which gains one potion at its end
    (30 HP for a health potion, 20 MP for a mana potion).  Using the potion
    just added gives back the list of potions as it was. *)
Theorem addItem_potion_round_trip (item : Item) (u : Unit) :
  isEquipment item = false ->
  let u' := addItem item u in
  let index := Z.of_nat (List.length (potions u)) in
  potions u'
  = potions u
      ++ [match item with
          | HealthPotion => mkPotion "Health Potion" 30 true
          | _ => mkPotion "Mana Potion" 20 false
          end]
  /\ set_potions (potions u) u' = u
  /\ fst (usePotion index u') = true
  /\ potions (snd (usePotion index u')) = potions u
  /\ health (snd (usePotion index u'))
     = (match item with
        | HealthPotion => Z.min (maxHealth u) (health u + 30)
        | _ => health u
        end)
  /\ mana (snd (usePotion index u'))
     = (match item with
        | HealthPotion => mana u
        | _ => Z.min (maxMana u) (mana u + 20)
        end).
Proof.
  intros H. cbv zeta.
  assert (Hlen : forall p,
             Z.of_nat (List.length (potions u ++ [p]))
             = Z.of_nat (List.length (potions u)) + 1)
    by (intros p; rewrite length_app; cbn; lia).
  destruct item; try discriminate H; destruct u as [c n mh h mm m ba ca d st eq ps bl];
    unfold addItem, usePotion;
    cbn [ItemData.getType ItemData.getName ItemData.getHealthBonus
         ItemData.getManaBonus];
    unit_fields; unfold push_back;
    (split; [reflexivity|]); (split; [reflexivity|]);
    rewrite Hlen;
    match goal with |- context [(?a <? 0) || (?a + 1 <=? ?a)] =>
      assert ((a <? 0) || (a + 1 <=? a) = false) as ->
        by (apply orb_false_iff; rewrite Z.ltb_ge, Z.leb_gt; lia)
    end;
    rewrite Nat2Z.id, nth_error_app2, Nat.sub_diag by lia;
    cbn [nth_error isHealthPotion potionAmount potionName fst snd];
    unfold heal, restoreMana; unit_fields; rewrite erase_at_last;
    repeat split.
Qed.

Lemma addItem_potion_round_trip_witness :
  let u := set_health 50 (newWarrior "Hero") in
  isEquipment HealthPotion = false
  /\ potions (snd (usePotion 0 (addItem HealthPotion u))) = []
  /\ health (snd (usePotion 0 (addItem HealthPotion u))) = 80.
Proof.
  cbv zeta. split; [reflexivity|].
  destruct (addItem_potion_round_trip HealthPotion
              (set_health 50 (newWarrior "Hero")) eq_refl)
    as (_ & _ & _ & H4 & H5 & _).
  cbv zeta in H4, H5. cbn [potions set_health newWarrior newUnit List.length
                           Z.of_nat] in H4, H5.
  split; [exact H4|]. rewrite H5. reflexivity.
Defined.

(** ** Status effects: look-up, removal and the tick *)

Lemma erase_absent (k : StatusEffect) (m : StatusMap.t) :
  StatusMap.find k m = None -> StatusMap.erase k m = m.
Proof.
  induction m as [|[k' v'] r IH]; cbn; intros H; [reflexivity|].
  destruct (effect_eqb k k'); [discriminate|]. now rewrite IH.
Qed.

(** X6. After [addStatus] the kind is active exactly when the duration
    supplied is positive; after [clearStatus] it is not active; neither
    changes whether another kind is active; and [clearStatus] of a kind that
    has no entry leaves the unit as it is. *)
Theorem status_set_clear_lookup
    (u : Unit) (e : StatusEffect) (d : Z) (source : string) :
  hasStatus e (addStatus e d source u) = (0 <? d)
  /\ hasStatus e (clearStatus e u) = false
  /\ hasStatus e (clearStatus e (addStatus e d source u)) = false
  /\ (forall k, k <> e ->
        hasStatus k (addStatus e d source u) = hasStatus k u
        /\ hasStatus k (clearStatus e u) = hasStatus k u)
  /\ (StatusMap.find e (statusEffects u) = None -> clearStatus e u = u).
Proof.
  unfold hasStatus, clearStatus. rewrite addStatus_statusEffects.
  unit_fields.
  rewrite StatusMapFacts.find_set_same, !StatusMapFacts.find_erase_same.
  repeat split.
  - now rewrite StatusMapFacts.find_set_other.
  - now rewrite StatusMapFacts.find_erase_other.
  - intros H. rewrite (erase_absent _ _ H). now destruct u.
Qed.

Lemma status_set_clear_lookup_witness :
  let u := newWarrior "Hero" in
  BLEED <> STUN
  /\ hasStatus STUN (addStatus STUN 1 "Boss" u) = true
  /\ hasStatus STUN (addStatus STUN 0 "Boss" u) = false
  /\ hasStatus BLEED (addStatus STUN 1 "Boss" (addStatus BLEED 2 "Boss" u))
     = true
  /\ clearStatus STUN u = u.
Proof.
  cbv zeta. split; [discriminate|].
  destruct (status_set_clear_lookup
              (addStatus BLEED 2 "Boss" (newWarrior "Hero")) STUN 1 "Boss")
    as (_ & _ & _ & H4 & _).
  destruct (status_set_clear_lookup (newWarrior "Hero") STUN 1 "Boss")
    as (H1 & _ & _ & _ & H5).
  destruct (status_set_clear_lookup (newWarrior "Hero") STUN 0 "Boss")
    as (H0 & _).
  split; [rewrite H1; reflexivity|]. split; [rewrite H0; reflexivity|].
  split; [rewrite (proj1 (H4 BLEED ltac:(discriminate))); reflexivity|].
  apply H5. reflexivity.
Defined.

Lemma tickLoop_health (m : StatusMap.t) :
  forall u,
    health (snd (tickLoop m u)) = healthAfter m (defense u) (health u).
Proof.
  induction m as [|[k d] r IH]; intros u; [reflexivity|].
  cbn [tickLoop]. cbv zeta.
  match goal with |- context [tickLoop r ?x] =>
    set (u2 := x); specialize (IH u2);
    destruct (tickLoop r u2) as [[r' rem'] u3] end.
  cbn [fst snd] in *. rewrite IH.
  assert (D : defense u2 = defense u).
  { subst u2.
    destruct k, (d - 1 <=? 0); unit_fields; try reflexivity;
      unfold takeDamage; unit_fields; reflexivity. }
  assert (H : health u2
              = match k with
                | POISON => Z.max 0 (health u - Z.max 1 (5 - defense u))
                | BLEED => Z.max 0 (health u - Z.max 1 (3 - defense u))
                | _ => health u
                end).
  { subst u2.
    destruct k, (d - 1 <=? 0); unit_fields; rewrite ?takeDamage_health;
      reflexivity. }
  rewrite D, H. destruct k; reflexivity.
Qed.

Lemma healthAfter_find (m : StatusMap.t) :
  forall lo def h, StatusMap.sorted_from lo m -> 0 <= h ->
  healthAfter m def h
  = Z.max 0
      (h - ((match StatusMap.find POISON m with
             | Some _ => Z.max 1 (5 - def)
             | None => 0
             end)
            + (match StatusMap.find BLEED m with
               | Some _ => Z.max 1 (3 - def)
               | None => 0
               end))).
Proof.
  induction m as [|[k d] r IH]; intros lo def h Hs Hh; [cbn; lia|].
  destruct Hs as [Hlo Hr].
  destruct k; cbn [healthAfter StatusMap.find];
    try (rewrite (IH _ _ _ Hr) by lia; reflexivity).
  - (* POISON *)
    rewrite (IH _ _ _ Hr) by lia. cbn.
    rewrite (StatusMapFacts.find_below POISON r (rank POISON));
      [|assumption|lia].
    destruct (StatusMap.find BLEED r); lia.
  - (* BLEED *)
    rewrite (IH _ _ _ Hr) by lia. cbn.
    rewrite (StatusMapFacts.find_below POISON r (rank BLEED));
      [|assumption|cbn; lia].
    rewrite (StatusMapFacts.find_below BLEED r (rank BLEED));
      [|assumption|lia].
    lia.
Qed.

Lemma processStatusEffects_health_eq (u : Unit) :
  health (processStatusEffects u)
  = healthAfter (statusEffects u) (defense u) (health u).
Proof.
  unfold processStatusEffects.
  pose proof (tickLoop_health (statusEffects u) u) as H.
  destruct (tickLoop (statusEffects u) u) as [[m' rem] u1].
  cbn [snd] in H.
  pose proof (removeLoop_unit rem (set_statusEffects m' u1)) as Q.
  cbv zeta in Q. destruct Q as (_ & H2 & _). rewrite H2. exact H.
Qed.

Lemma processStatusEffects_health_dot (u : Unit) :
  StatusMap.sorted (statusEffects u) -> 0 <= health u ->
  health (processStatusEffects u) = Z.max 0 (health u - dotDamage u).
Proof.
  intros Hs Hh. rewrite processStatusEffects_health_eq.
  rewrite (healthAfter_find _ _ _ _ Hs Hh). reflexivity.
Qed.

(** X7. One status tick costs a unit exactly the damage of its
    damage-over-time entries, [max(1, 5 - defense)] for POISON and
    [max(1, 3 - defense)] for BLEED, with the health floored at 0 (so the
    defense reduces this damage too, down to 1); an entry counts whatever
    its remaining duration, and nothing else of the unit's health, mana or
    maxima changes. *)
Theorem tick_damage (u : Unit) :
  StatusMap.sorted (statusEffects u) -> 0 <= health u ->
  health (processStatusEffects u) = Z.max 0 (health u - dotDamage u)
  /\ maxHealth (processStatusEffects u) = maxHealth u
  /\ mana (processStatusEffects u) = mana u
  /\ maxMana (processStatusEffects u) = maxMana u
  /\ defense (processStatusEffects u) = defense u
  /\ potions (processStatusEffects u) = potions u.
Proof.
  intros Hs Hh.
  split; [now apply processStatusEffects_health_dot|].
  destruct (processStatusEffects_spec u Hs) as (F & _).
  unfold tick_frame in F. intuition.
Qed.

Lemma tick_damage_witness :
  let u :=
    addStatus BLEED 2 "Hero" (addStatus POISON 3 "Hero" (newBoss 3)) in
  StatusMap.sorted (statusEffects u) /\ 0 <= health u
  /\ dotDamage u = 4
  /\ health (processStatusEffects u) = 126.
Proof.
  cbv zeta.
  set (u := addStatus BLEED 2 "Hero" (addStatus POISON 3 "Hero" (newBoss 3))).
  assert (Hs : StatusMap.sorted (statusEffects u)) by (cbn; lia).
  assert (Hh : 0 <= health u) by (cbn; lia).
  split; [exact Hs|]. split; [exact Hh|]. split; [reflexivity|].
  rewrite (proj1 (tick_damage u Hs Hh)). reflexivity.
Defined.

(** X8. Neither a hit nor a status tick raises the health of a unit: a
    unit that is dead stays dead under both. *)
Theorem damage_never_heals (u : Unit) (d : Z) (showBlock : bool) (source : string) :
  0 <= health u ->
  0 <= health (takeDamage d showBlock source u) <= health u
  /\ 0 <= health (processStatusEffects u) <= health u
  /\ (isAlive u = false ->
      isAlive (takeDamage d showBlock source u) = false
      /\ isAlive (processStatusEffects u) = false).
Proof.
  intros Hh.
  assert (H1 : 0 <= health (takeDamage d showBlock source u) <= health u)
    by (rewrite takeDamage_health; lia).
  assert (H2 : 0 <= health (processStatusEffects u) <= health u).
  { unfold processStatusEffects.
    pose proof (tickLoop_unit (statusEffects u) u) as U.
    destruct (tickLoop (statusEffects u) u) as [[m' rem] u1].
    cbn [snd] in U. cbv zeta in U. destruct U as (F & _).
    pose proof (removeLoop_unit rem (set_statusEffects m' u1)) as Q.
    cbv zeta in Q. destruct Q as (_ & Hq & _). rewrite Hq. unit_fields.
    apply F. exact Hh. }
  split; [exact H1|]. split; [exact H2|].
  unfold isAlive. rewrite !Z.ltb_ge. lia.
Qed.

Lemma damage_never_heals_witness :
  let u := addStatus POISON 3 "Hero" (set_health 0 (newBoss 1)) in
  0 <= health u /\ isAlive u = false
  /\ isAlive (processStatusEffects u) = false.
Proof.
  cbv zeta. split; [cbn; lia|]. split; [reflexivity|].
  apply (damage_never_heals
           (addStatus POISON 3 "Hero" (set_health 0 (newBoss 1))) 0 true "");
    [cbn; lia|reflexivity].
Defined.

Lemma ticks_sorted (n : nat) :
  forall u, StatusMap.sorted (statusEffects u) ->
  StatusMap.sorted (statusEffects (ticks n u)).
Proof.
  induction n as [|n IH]; intros u Hs; [exact Hs|].
  cbn [ticks]. apply IH. now apply processStatusEffects_sorted.
Qed.

Lemma ticks_find (u : Unit) (k : StatusEffect) (n : nat) :
  StatusMap.sorted (statusEffects u) -> (0 < n)%nat ->
  StatusMap.find k (statusEffects (ticks n u))
  = match StatusMap.find k (statusEffects u) with
    | Some d => if d - Z.of_nat n <=? 0 then None else Some (d - Z.of_nat n)
    | None => None
    end.
Proof.
  intros Hs Hn.
  destruct n as [|n]; [lia|]. clear Hn. revert u Hs.
  induction n as [|n IH]; intros u Hs.
  - cbn [ticks].
    destruct (processStatusEffects_spec u Hs) as (_ & _ & M & _).
    rewrite M. unfold tickedEntry. reflexivity.
  - change (ticks (S (S n)) u) with (ticks (S n) (processStatusEffects u)).
    destruct (processStatusEffects_spec u Hs) as (_ & S1 & M & _).
    rewrite (IH _ S1), M. unfold tickedEntry.
    destruct (StatusMap.find k (statusEffects u)) as [d|]; [|reflexivity].
    destruct (d - 1 <=? 0) eqn:E1.
    + apply Z.leb_le in E1.
      assert ((d - Z.of_nat (S (S n)) <=? 0) = true) as ->
        by (apply Z.leb_le; lia).
      reflexivity.
    + replace (d - 1 - Z.of_nat (S n)) with (d - Z.of_nat (S (S n))) by lia.
      reflexivity.
Qed.

(** X9. After [n >= 1] status ticks an entry of remaining duration [d] has
    duration [d - n] if that is positive and is gone otherwise; no tick
    creates an entry.  So every entry a tick leaves has a positive duration,
    and an entry applied with a duration of 0 or less lives until the first
    tick. *)
Theorem ticks_durations (u : Unit) (k : StatusEffect) (n : nat) :
  StatusMap.sorted (statusEffects u) -> (0 < n)%nat ->
  StatusMap.find k (statusEffects (ticks n u))
  = match StatusMap.find k (statusEffects u) with
    | Some d => if d - Z.of_nat n <=? 0 then None else Some (d - Z.of_nat n)
    | None => None
    end
  /\ (forall d, StatusMap.find k (statusEffects (ticks n u)) = Some d -> 0 < d).
Proof.
  intros Hs Hn. pose proof (ticks_find u k n Hs Hn) as E.
  split; [exact E|].
  intros d. rewrite E.
  destruct (StatusMap.find k (statusEffects u)) as [d0|]; [|discriminate].
  destruct (d0 - Z.of_nat n <=? 0) eqn:E1; [discriminate|].
  apply Z.leb_gt in E1. intros H. injection H as <-. exact E1.
Qed.

Lemma ticks_durations_witness :
  let u := addStatus STUN 0 "Hero" (addStatus POISON 3 "Hero" (newBoss 1)) in
  StatusMap.sorted (statusEffects u) /\ (0 < 2)%nat
  /\ StatusMap.find POISON (statusEffects (ticks 2 u)) = Some 1
  /\ StatusMap.find STUN (statusEffects (ticks 2 u)) = None.
Proof.
  cbv zeta. split; [cbn; lia|]. split; [lia|].
  set (u := addStatus STUN 0 "Hero" (addStatus POISON 3 "Hero" (newBoss 1))).
  assert (Hs : StatusMap.sorted (statusEffects u)) by (cbn; lia).
  split.
  - rewrite (proj1 (ticks_durations u POISON 2 Hs ltac:(lia))).
    reflexivity.
  - rewrite (proj1 (ticks_durations u STUN 2 Hs ltac:(lia))).
    reflexivity.
Defined.

Lemma ticks_defense (n : nat) :
  forall u, defense (ticks n u) = defense u.
Proof.
  induction n as [|n IH]; intros u; [reflexivity|].
  cbn [ticks]. rewrite IH.
  unfold processStatusEffects.
  pose proof (tickLoop_unit (statusEffects u) u) as U.
  destruct (tickLoop (statusEffects u) u) as [[m' rem] u1].
  cbn [snd] in U. cbv zeta in U. destruct U as (F & _).
  pose proof (removeLoop_unit rem (set_statusEffects m' u1)) as Q.
  cbv zeta in Q. destruct Q as (F2 & _).
  unfold tick_frame in F, F2. unit_fields.
  destruct F2 as (_ & _ & _ & _ & _ & _ & -> & _). apply F.
Qed.

Lemma ticks_poison_health (n : nat) :
  forall u,
    StatusMap.sorted (statusEffects u) -> 0 <= health u ->
    StatusMap.find BLEED (statusEffects u) = None ->
    (forall d, StatusMap.find POISON (statusEffects u) = Some d -> 1 <= d) ->
    health (ticks n u)
    = Z.max 0
        (health u
         - (match StatusMap.find POISON (statusEffects u) with
            | Some d => Z.min (Z.of_nat n) d
            | None => 0
            end) * Z.max 1 (5 - defense u)).
Proof.
  induction n as [|n IH]; intros u Hs Hh Hb Hd.
  - cbn [ticks].
    destruct (StatusMap.find POISON (statusEffects u)) as [d|]; [|lia].
    specialize (Hd d eq_refl). lia.
  - cbn [ticks].
    destruct (processStatusEffects_spec u Hs) as (F & S1 & M & _).
    pose proof (processStatusEffects_health_dot u Hs Hh) as T.
    assert (D : defense (processStatusEffects u) = defense u) by apply F.
    rewrite IH; clear IH.
    + rewrite T, D, M. unfold dotDamage. rewrite Hb. unfold tickedEntry.
      destruct (StatusMap.find POISON (statusEffects u)) as [d|]; [|lia].
      specialize (Hd d eq_refl).
      destruct (d - 1 <=? 0) eqn:E.
      * apply Z.leb_le in E. nia.
      * apply Z.leb_gt in E. nia.
    + exact S1.
    + rewrite T. lia.
    + rewrite M, Hb. reflexivity.
    + intros d. rewrite M. unfold tickedEntry.
      destruct (StatusMap.find POISON (statusEffects u)) as [d0|];
        [|discriminate].
      destruct (d0 - 1 <=? 0) eqn:E; [discriminate|].
      apply Z.leb_gt in E. intros H. injection H as <-. lia.
Qed.

(** X10. Poison runs its course: a unit poisoned for [d >= 1] turns (and
    not bleeding) has lost [min(n, d)] times [max(1, 5 - defense)] health
    after [n] status ticks, floored at 0, and the poison is gone once [n]
    reaches [d]. *)
Theorem poison_runs_its_course (u : Unit) (d : Z) (n : nat) :
  StatusMap.sorted (statusEffects u) -> 0 <= health u ->
  StatusMap.find POISON (statusEffects u) = Some d -> 1 <= d ->
  StatusMap.find BLEED (statusEffects u) = None ->
  health (ticks n u)
  = Z.max 0 (health u - Z.min (Z.of_nat n) d * Z.max 1 (5 - defense u))
  /\ (d <= Z.of_nat n -> StatusMap.find POISON (statusEffects (ticks n u)) = None).
Proof.
  intros Hs Hh Hp Hd Hb. split.
  - rewrite (ticks_poison_health n u Hs Hh Hb); [now rewrite Hp|].
    intros d0. rewrite Hp. intros H. injection H as <-. exact Hd.
  - intros Hn.
    rewrite (ticks_find u POISON n Hs ltac:(lia)), Hp.
    assert ((d - Z.of_nat n <=? 0) = true) as -> by (apply Z.leb_le; lia).
    reflexivity.
Qed.

Lemma poison_runs_its_course_witness :
  let boss := newBoss 2 in
  let u := skillTarget (useSkill Skill1 (newArcher "Hero") boss) in
  StatusMap.sorted (statusEffects u) /\ 0 <= health u
  /\ StatusMap.find POISON (statusEffects u) = Some 3 /\ 1 <= 3
  /\ StatusMap.find BLEED (statusEffects u) = None
  /\ health u = 81
  /\ health (ticks 2 u) = 73
  /\ health (ticks 5 u) = 69
  /\ statusEffects (ticks 5 u) = [].
Proof.
  cbv zeta.
  set (u := skillTarget (useSkill Skill1 (newArcher "Hero") (newBoss 2))).
  assert (Hs : StatusMap.sorted (statusEffects u)) by (cbn; lia).
  assert (Hh : 0 <= health u) by (cbn; lia).
  split; [exact Hs|]. split; [exact Hh|]. split; [reflexivity|].
  split; [lia|]. split; [reflexivity|]. split; [reflexivity|].
  split; [|split].
  - rewrite (proj1 (poison_runs_its_course u 3 2 Hs Hh eq_refl ltac:(lia)
                      eq_refl)). reflexivity.
  - rewrite (proj1 (poison_runs_its_course u 3 5 Hs Hh eq_refl ltac:(lia)
                      eq_refl)). reflexivity.
  - reflexivity.
Defined.

Lemma ticks_no_attack_effect (n : nat) :
  forall u,
    StatusMap.sorted (statusEffects u) ->
    StatusMap.find STRENGTH_UP (statusEffects u) = None ->
    StatusMap.find WEAKNESS (statusEffects u) = None ->
    currentAttack (ticks n u) = currentAttack u.
Proof.
  induction n as [|n IH]; intros u Hs Hsu Hwk; [reflexivity|].
  cbn [ticks].
  destruct (processStatusEffects_spec u Hs) as (_ & S1 & M & A).
  rewrite IH; [|exact S1|rewrite M, Hsu; reflexivity|rewrite M, Hwk; reflexivity].
  rewrite A, Hsu, Hwk. reflexivity.
Qed.

Lemma ticks_strength_up (m : nat) :
  forall u d,
    StatusMap.sorted (statusEffects u) ->
    StatusMap.find STRENGTH_UP (statusEffects u) = Some d ->
    StatusMap.find WEAKNESS (statusEffects u) = None ->
    currentAttack (ticks (S m) u)
    = if Z.of_nat (S m) <? d then baseAttack u + 10 else baseAttack u.
Proof.
  induction m as [|m IH]; intros u d Hs Hsu Hwk;
    destruct (processStatusEffects_spec u Hs) as (F & S1 & M & A);
    rewrite Hsu, Hwk in A; cbn [expiring orb] in A;
    rewrite Bool.orb_false_r in A.
  - cbn [ticks]. rewrite A.
    destruct (d - 1 <=? 0) eqn:E;
      [apply Z.leb_le in E; assert ((Z.of_nat 1 <? d) = false) as ->
         by (apply Z.ltb_ge; lia)
      |apply Z.leb_gt in E; assert ((Z.of_nat 1 <? d) = true) as ->
         by (apply Z.ltb_lt; lia)]; reflexivity.
  - change (ticks (S (S m)) u) with (ticks (S m) (processStatusEffects u)).
    assert (B : baseAttack (processStatusEffects u) = baseAttack u) by apply F.
    destruct (d - 1 <=? 0) eqn:E.
    + apply Z.leb_le in E.
      rewrite ticks_no_attack_effect;
        [|exact S1|rewrite M, Hsu; unfold tickedEntry;
                   assert ((d - 1 <=? 0) = true) as -> by (apply Z.leb_le; lia);
                   reflexivity
         |rewrite M, Hwk; reflexivity].
      rewrite A.
      assert ((Z.of_nat (S (S m)) <? d) = false) as ->
        by (apply Z.ltb_ge; lia).
      reflexivity.
    + apply Z.leb_gt in E.
      rewrite (IH _ (d - 1) S1);
        [|rewrite M, Hsu; unfold tickedEntry;
          assert ((d - 1 <=? 0) = false) as -> by (apply Z.leb_gt; lia);
          reflexivity
         |rewrite M, Hwk; reflexivity].
      rewrite B.
      destruct (Z.of_nat (S m) <? d - 1) eqn:E2;
        [apply Z.ltb_lt in E2;
         assert ((Z.of_nat (S (S m)) <? d) = true) as ->
           by (apply Z.ltb_lt; lia)
        |apply Z.ltb_ge in E2;
         assert ((Z.of_nat (S (S m)) <? d) = false) as ->
           by (apply Z.ltb_ge; lia)]; reflexivity.
Qed.

Lemma ticks_weakness (m : nat) :
  forall u d,
    StatusMap.sorted (statusEffects u) ->
    StatusMap.find WEAKNESS (statusEffects u) = Some d ->
    StatusMap.find STRENGTH_UP (statusEffects u) = None ->
    currentAttack (ticks (S m) u)
    = if Z.of_nat (S m) <? d then Z.max 1 (baseAttack u - 5) else baseAttack u.
Proof.
  induction m as [|m IH]; intros u d Hs Hwk Hsu;
    destruct (processStatusEffects_spec u Hs) as (F & S1 & M & A);
    rewrite Hsu, Hwk in A; cbn [expiring orb] in A.
  - cbn [ticks]. rewrite A.
    destruct (d - 1 <=? 0) eqn:E;
      [apply Z.leb_le in E; assert ((Z.of_nat 1 <? d) = false) as ->
         by (apply Z.ltb_ge; lia)
      |apply Z.leb_gt in E; assert ((Z.of_nat 1 <? d) = true) as ->
         by (apply Z.ltb_lt; lia)]; reflexivity.
  - change (ticks (S (S m)) u) with (ticks (S m) (processStatusEffects u)).
    assert (B : baseAttack (processStatusEffects u) = baseAttack u) by apply F.
    destruct (d - 1 <=? 0) eqn:E.
    + apply Z.leb_le in E.
      rewrite ticks_no_attack_effect;
        [|exact S1|rewrite M, Hsu; reflexivity
         |rewrite M, Hwk; unfold tickedEntry;
          assert ((d - 1 <=? 0) = true) as -> by (apply Z.leb_le; lia);
          reflexivity].
      rewrite A.
      assert ((Z.of_nat (S (S m)) <? d) = false) as ->
        by (apply Z.ltb_ge; lia).
      reflexivity.
    + apply Z.leb_gt in E.
      rewrite (IH _ (d - 1) S1);
        [|rewrite M, Hwk; unfold tickedEntry;
          assert ((d - 1 <=? 0) = false) as -> by (apply Z.leb_gt; lia);
          reflexivity
         |rewrite M, Hsu; reflexivity].
      rewrite B.
      destruct (Z.of_nat (S m) <? d - 1) eqn:E2;
        [apply Z.ltb_lt in E2;
         assert ((Z.of_nat (S (S m)) <? d) = true) as ->
           by (apply Z.ltb_lt; lia)
        |apply Z.ltb_ge in E2;
         assert ((Z.of_nat (S (S m)) <? d) = false) as ->
           by (apply Z.ltb_ge; lia)]; reflexivity.
Qed.

(** X11. An attack modifier works for one tick less than its duration.
    Applying STRENGTH_UP or WEAKNESS does not change the current attack; the
    first tick does.  With the other modifier absent, after [n >= 1] ticks
    the current attack is [baseAttack + 10] (resp. [max(1, baseAttack - 5)])
    while [n < d], and [baseAttack] from the [d]-th tick on: Battle Rage,
    applied for 3 turns, strengthens the attacks that follow the first and
    the second tick only. *)
Theorem attack_modifier_duration (u : Unit) (d : Z) (n : nat) (source : string) :
  StatusMap.sorted (statusEffects u) -> (0 < n)%nat ->
  currentAttack (addStatus STRENGTH_UP d source u) = currentAttack u
  /\ currentAttack (addStatus WEAKNESS d source u) = currentAttack u
  /\ (StatusMap.find WEAKNESS (statusEffects u) = None ->
      currentAttack (ticks n (addStatus STRENGTH_UP d source u))
      = if Z.of_nat n <? d then baseAttack u + 10 else baseAttack u)
  /\ (StatusMap.find STRENGTH_UP (statusEffects u) = None ->
      currentAttack (ticks n (addStatus WEAKNESS d source u))
      = if Z.of_nat n <? d then Z.max 1 (baseAttack u - 5) else baseAttack u).
Proof.
  intros Hs Hn. destruct n as [|m]; [lia|].
  assert (Hrk : forall e, -1 < rank e) by (intros e; pose proof (rank_bounds e); lia).
  split; [reflexivity|]. split; [reflexivity|]. split; intros H.
  - rewrite (ticks_strength_up m _ d).
    + reflexivity.
    + rewrite addStatus_statusEffects. apply StatusMapFacts.set_sorted; auto.
    + rewrite addStatus_statusEffects. apply StatusMapFacts.find_set_same.
    + rewrite addStatus_statusEffects.
      rewrite StatusMapFacts.find_set_other by discriminate. exact H.
  - rewrite (ticks_weakness m _ d).
    + reflexivity.
    + rewrite addStatus_statusEffects. apply StatusMapFacts.set_sorted; auto.
    + rewrite addStatus_statusEffects. apply StatusMapFacts.find_set_same.
    + rewrite addStatus_statusEffects.
      rewrite StatusMapFacts.find_set_other by discriminate. exact H.
Qed.

Lemma attack_modifier_duration_witness :
  let hero := skillSelf (useSkill Skill3 (newWarrior "Hero") (newBoss 1)) in
  StatusMap.sorted (statusEffects (newWarrior "Hero")) /\ (0 < 2)%nat
  /\ StatusMap.find WEAKNESS (statusEffects (newWarrior "Hero")) = None
  /\ currentAttack hero = 20
  /\ currentAttack (ticks 2 (addStatus STRENGTH_UP 3 "Hero" (newWarrior "Hero")))
     = 30
  /\ List.map currentAttack [ticks 1 hero; ticks 2 hero; ticks 3 hero]
     = [30; 30; 20].
Proof.
  cbv zeta. split; [exact I|]. split; [lia|]. split; [reflexivity|].
  split; [reflexivity|]. split; [|reflexivity].
  destruct (attack_modifier_duration (newWarrior "Hero") 3 2 "Hero" I
              ltac:(lia)) as (_ & _ & H & _).
  rewrite (H eq_refl). reflexivity.
Defined.

(** ** Turns that do nothing *)

(** X12. A stunned side skips its turn and the stun is consumed whatever
    its remaining duration: the turn reads no input and draws no random
    number, the stunned unit keeps its health, mana and other status
    effects, and the opponent is not touched (the player's log apart). *)
Theorem stunned_turn_is_skipped (player boss : Unit) (w : World) :
  (hasStatus STUN player = true ->
   exists player',
     playerTurn player boss w
     = Done (Acted player' boss)
         (mkWorld (inputs w) (rands w) (history w ++ [TurnOf PlayerSide]))
     /\ StatusMap.find STUN (statusEffects player') = None
     /\ (forall k, k <> STUN ->
           StatusMap.find k (statusEffects player')
           = StatusMap.find k (statusEffects player))
     /\ same_stats (set_statusEffects (statusEffects player) player') player)
  /\ (hasStatus STUN boss = true ->
      exists boss' player',
        bossTurn boss player w
        = Done (boss', player')
            (mkWorld (inputs w) (rands w) (history w ++ [TurnOf BossSide]))
        /\ StatusMap.find STUN (statusEffects boss') = None
        /\ (forall k, k <> STUN ->
              StatusMap.find k (statusEffects boss')
              = StatusMap.find k (statusEffects boss))
        /\ set_statusEffects (statusEffects boss) boss' = boss
        /\ same_stats player' player).
Proof.
  split; intros H.
  - unfold playerTurn, bind, mark. rewrite H. eexists. split; [reflexivity|].
    unfold clearStatus. unit_fields.
    split; [apply StatusMapFacts.find_erase_same|].
    split; [intros k Hk; now apply StatusMapFacts.find_erase_other|].
    repeat split.
  - unfold bossTurn, bind, mark. rewrite H. eexists. eexists.
    split; [reflexivity|].
    unfold clearStatus. unit_fields.
    split; [apply StatusMapFacts.find_erase_same|].
    split; [intros k Hk; now apply StatusMapFacts.find_erase_other|].
    split; [now destruct boss|repeat split].
Qed.

Lemma stunned_turn_is_skipped_witness :
  let player := addStatus STUN 5 "Boss" (newWarrior "Hero") in
  let w := mkWorld [1; 1] [3%N] [] in
  hasStatus STUN player = true
  /\ exists player',
       playerTurn player (newBoss 1) w = Done (Acted player' (newBoss 1))
                                           (mkWorld [1; 1] [3%N] [TurnOf PlayerSide])
       /\ StatusMap.find STUN (statusEffects player') = None.
Proof.
  cbv zeta. split; [reflexivity|].
  destruct (stunned_turn_is_skipped
              (addStatus STUN 5 "Boss" (newWarrior "Hero")) (newBoss 1)
              (mkWorld [1; 1] [3%N] [])) as (H & _).
  destruct (H eq_refl) as (p' & H1 & H2 & _).
  exists p'. split; [exact H1|exact H2].
Defined.

(** X13. Passing, and opening the inventory without drinking (no potion
    owned, or the choice 0 that cancels), end the player's turn like an
    action: the turn is over, and neither unit has changed but for the
    player's battle log. *)
Theorem idle_actions_end_the_turn
    (player boss : Unit) (w : World) (rest : list Z) :
  hasStatus STUN player = false ->
  (inputs w = 4 :: rest ->
   playerTurn player boss w
   = Done (Acted (addToBattleLog "You pass your turn."
                    (addToBattleLog yourTurnLine player)) boss)
       (mkWorld rest (rands w)
          (history w ++ [TurnOf PlayerSide; CallInput 1 4 actionPrompt])))
  /\ (inputs w = 3 :: rest -> potions player = [] ->
      playerTurn player boss w
      = Done (Acted (addToBattleLog yourTurnLine player) boss)
          (mkWorld rest (rands w)
             (history w ++ [TurnOf PlayerSide; CallInput 1 4 actionPrompt])))
  /\ (inputs w = 3 :: 0 :: rest -> potions player <> [] ->
      playerTurn player boss w
      = Done (Acted (addToBattleLog yourTurnLine player) boss)
          (mkWorld rest (rands w)
             (history w
                ++ [TurnOf PlayerSide; CallInput 1 4 actionPrompt;
                    CallInput 0 (Z.of_nat (List.length (potions player)))
                      potionPrompt]))).
Proof.
  intros Hst.
  assert (Hh : forall e1 e2 : Event,
             push_back (push_back (history w) e1) e2 = history w ++ [e1; e2])
    by (intros; unfold push_back; now rewrite <- app_assoc).
  assert (Hh3 : forall e1 e2 e3 : Event,
             push_back (push_back (push_back (history w) e1) e2) e3
             = history w ++ [e1; e2; e3])
    by (intros; unfold push_back; now rewrite <- !app_assoc).
  split; [|split].
  - intros Hin. unfold playerTurn, bind, mark. rewrite Hst.
    unfold getValidInput. cbn [inputs rands history]. rewrite Hin.
    rewrite readValid_head by lia. cbn [Z.eqb Pos.eqb]. unfold ret.
    now rewrite Hh.
  - intros Hin Hp. unfold playerTurn, bind, mark. rewrite Hst.
    unfold getValidInput at 1. cbn [inputs rands history]. rewrite Hin.
    rewrite readValid_head by lia. cbn [Z.eqb Pos.eqb].
    unfold showInventory. unit_fields. rewrite Hp.
    destruct (equipment player); unfold ret; now rewrite Hh.
  - intros Hin Hp. unfold playerTurn, bind, mark. rewrite Hst.
    unfold getValidInput at 1. cbn [inputs rands history]. rewrite Hin.
    rewrite readValid_head by lia. cbn [Z.eqb Pos.eqb].
    unfold showInventory, bind. unit_fields.
    destruct (potions player) as [|p ps] eqn:Ep; [contradiction|].
    destruct (equipment player);
      unfold getValidInput; cbn [inputs rands history];
      rewrite readValid_head by lia; cbn [Z.ltb Z.compare];
      unfold ret; now rewrite Hh3.
Qed.

Lemma idle_actions_end_the_turn_witness :
  let player := addItem HealthPotion (newWarrior "Hero") in
  let w := mkWorld [3; 0; 1] [3%N] [] in
  hasStatus STUN player = false /\ inputs w = [3; 0; 1] /\ potions player <> []
  /\ playerTurn player (newBoss 1) w
     = Done (Acted (addToBattleLog yourTurnLine player) (newBoss 1))
         (mkWorld [1] [3%N]
            [TurnOf PlayerSide; CallInput 1 4 actionPrompt;
             CallInput 0 1 potionPrompt]).
Proof.
  cbv zeta. split; [reflexivity|]. split; [reflexivity|].
  split; [discriminate|].
  destruct (idle_actions_end_the_turn (addItem HealthPotion (newWarrior "Hero"))
              (newBoss 1) (mkWorld [3; 0; 1] [3%N] []) [1] eq_refl)
    as (_ & _ & H).
  apply H; [reflexivity|discriminate].
Defined.

(** ** Attacks and skills that succeed *)

Lemma takeDamage_eq (d : Z) (sb : bool) (src : string) (u : Unit) :
  takeDamage d sb src u
  = set_battleLog (takeDamageLog d sb src u)
      (set_health (Z.max 0 (health u - Z.max 1 (d - defense u))) u).
Proof.
  unfold takeDamageLog, takeDamage. destruct (_ && _); reflexivity.
Qed.

(** X14. The basic attack costs nothing and cannot fail: the attacker
    changes only by two lines of its battle log, and the target only by its
    health, which becomes
    [max(0, health - max(1, currentAttack - defense))], and by its log. *)
Theorem attack_frame (self target : Unit) :
  let '(self', target') := attack self target in
  same_stats self' self
  /\ health target'
     = Z.max 0 (health target - Z.max 1 (currentAttack self - defense target))
  /\ same_stats (set_health (health target) target') target
  /\ battleLog self'
     = battleLog self
         ++ [(name self ++ " attacks " ++ name target ++ " for "
                ++ to_string (currentAttack self) ++ " damage!")%string;
             hpLine target' (health target)].
Proof.
  unfold attack. unit_fields. rewrite takeDamage_eq. unit_fields.
  unfold push_back. rewrite <- app_assoc.
  repeat split.
Qed.

(** X15. A skill the caller can pay returns true and debits exactly its
    cost; it leaves the caller's attack, defense and maxima alone and never
    lowers the caller's health; it never raises the target's health and
    leaves the target's mana, attack, defense and maxima alone. *)
Theorem skill_success (k : SkillSlot) (self target : Unit) :
  getSkillCost k self <= mana self ->
  let r := useSkill k self target in
  skillOk r = true
  /\ mana (skillSelf r) = mana self - getSkillCost k self
  /\ maxMana (skillSelf r) = maxMana self
  /\ maxHealth (skillSelf r) = maxHealth self
  /\ baseAttack (skillSelf r) = baseAttack self
  /\ currentAttack (skillSelf r) = currentAttack self
  /\ defense (skillSelf r) = defense self
  /\ (health self <= maxHealth self -> 0 <= currentAttack self ->
      health self <= health (skillSelf r) <= maxHealth self)
  /\ (0 <= health target -> 0 <= health (skillTarget r) <= health target)
  /\ mana (skillTarget r) = mana target
  /\ maxMana (skillTarget r) = maxMana target
  /\ maxHealth (skillTarget r) = maxHealth target
  /\ baseAttack (skillTarget r) = baseAttack target
  /\ currentAttack (skillTarget r) = currentAttack target
  /\ defense (skillTarget r) = defense target.
Proof.
  intros Hm. apply Z.ltb_ge in Hm. cbv zeta.
  unfold skillOk, skillSelf, skillTarget.
  destruct k; cbn [getSkillCost] in Hm;
    unfold useSkill, useSkill1, useSkill2, useSkill3;
    destruct (class self);
    unfold WarriorSkills.useSkill1, WarriorSkills.useSkill2,
      WarriorSkills.useSkill3, ArcherSkills.useSkill1, ArcherSkills.useSkill2,
      ArcherSkills.useSkill3, MageSkills.useSkill1, MageSkills.useSkill2,
      MageSkills.useSkill3, BossSkills.useSkill1, BossSkills.useSkill2,
      BossSkills.useSkill3;
    rewrite Hm; cbn [fst snd]; unfold addStatus, heal;
    rewrite ?takeDamage_eq; unit_fields;
    rewrite ?takeDamage_eq; unit_fields;
    repeat split; intros; try lia;
    match goal with
    | |- context [Z.quot ?a 2] =>
        pose proof (Z.quot_pos a 2 ltac:(lia) ltac:(lia)); lia
    end.
Qed.

Lemma skill_success_witness :
  let self := newArcher "Hero" in
  let target := newBoss 1 in
  getSkillCost Skill3 self <= mana self
  /\ skillOk (useSkill Skill3 self target) = true
  /\ mana (skillSelf (useSkill Skill3 self target)) = 15
  /\ health (skillTarget (useSkill Skill3 self target)) = 30.
Proof.
  cbv zeta. split; [cbn; lia|].
  destruct (skill_success Skill3 (newArcher "Hero") (newBoss 1)
              ltac:(cbn; lia)) as (H1 & H2 & _).
  split; [exact H1|]. split; [rewrite H2; reflexivity|reflexivity].
Defined.

(** X16. Life Drain heals the mage by half of the raw damage
    [(currentAttack + 5) / 2], saturating at the maximum, whatever lands on
    the target: the heal does not depend on the target's defense or
    remaining health. *)
Theorem life_drain_heals_from_raw_damage (self target : Unit) :
  class self = Mage -> getSkillCost Skill3 self <= mana self ->
  let r := useSkill Skill3 self target in
  health (skillSelf r)
  = Z.min (maxHealth self) (health self + Z.quot (currentAttack self + 5) 2)
  /\ health (skillTarget r)
     = Z.max 0 (health target
                - Z.max 1 (currentAttack self + 5 - defense target)).
Proof.
  intros Hc Hm. cbv zeta. unfold skillSelf, skillTarget.
  cbn [useSkill getSkillCost] in *. unfold useSkill3. rewrite Hc.
  unfold MageSkills.useSkill3.
  apply Z.ltb_ge in Hm. rewrite Hm. cbn [fst snd].
  rewrite takeDamage_health. split; reflexivity.
Qed.

Lemma life_drain_heals_from_raw_damage_witness :
  let self := set_health 40 (newMage "Hero") in
  let target := set_health 1 (set_defense 100 (newBoss 5)) in
  class self = Mage /\ getSkillCost Skill3 self <= mana self
  /\ health (skillTarget (useSkill Skill3 self target)) = 0
  /\ health (skillSelf (useSkill Skill3 self target)) = 55.
Proof.
  cbv zeta. split; [reflexivity|]. split; [cbn; lia|].
  destruct (life_drain_heals_from_raw_damage
              (set_health 40 (newMage "Hero"))
              (set_health 1 (set_defense 100 (newBoss 5)))
              eq_refl ltac:(cbn; lia)) as (H1 & H2).
  rewrite H1, H2. split; reflexivity.
Defined.

(** ** Input and chance *)

Lemma readValid_spec (lo hi : Z) (typed : list Z) :
  match readValid lo hi typed with
  | Some (c, rest) =>
      lo <= c <= hi
      /\ exists rejected,
           typed = rejected ++ c :: rest /\ Forall (outOfRange lo hi) rejected
  | None => Forall (outOfRange lo hi) typed
  end.
Proof.
  induction typed as [|x r IH]; cbn [readValid]; [constructor|].
  destruct ((x <? lo) || (hi <? x)) eqn:E.
  - apply orb_true_iff in E. rewrite !Z.ltb_lt in E.
    destruct (readValid lo hi r) as [[c rest]|].
    + destruct IH as (Hc & rej & -> & Hrej). split; [exact Hc|].
      exists (x :: rej). split; [reflexivity|]. now constructor.
    + now constructor.
  - apply orb_false_iff in E. rewrite !Z.ltb_ge in E.
    split; [lia|]. exists []. split; [reflexivity|constructor].
Qed.

Lemma getValidInput_spec (lo hi : Z) (prompt : string) (w : World) :
  match getValidInput lo hi prompt w with
  | Done c w' =>
      lo <= c <= hi
      /\ (exists rejected,
             inputs w = rejected ++ c :: inputs w'
             /\ Forall (outOfRange lo hi) rejected)
      /\ rands w' = rands w
      /\ history w' = history w ++ [CallInput lo hi prompt]
  | Pending w' =>
      Forall (outOfRange lo hi) (inputs w) /\ inputs w' = []
      /\ rands w' = rands w
  end.
Proof.
  unfold getValidInput. pose proof (readValid_spec lo hi (inputs w)) as H.
  destruct (readValid lo hi (inputs w)) as [[c rest]|].
  - destruct H as (Hc & rej & Hin & Hrej). cbn [inputs rands history].
    repeat split; try lia. exists rej. split; assumption.
  - cbn [inputs rands]. repeat split. exact H.
Qed.

(** X17. [getValidInput] returns the first integer typed that lies in
    [[minChoice, maxChoice]]: everything typed before it is out of range and
    is discarded, what is typed after it is left for the next prompt, and no
    random number is drawn.  It is pending exactly when nothing typed is in
    range. *)
Theorem getValidInput_first_valid (lo hi : Z) (prompt : string) (w : World) :
  match getValidInput lo hi prompt w with
  | Done c w' =>
      lo <= c <= hi
      /\ (exists rejected,
             inputs w = rejected ++ c :: inputs w'
             /\ Forall (outOfRange lo hi) rejected)
      /\ rands w' = rands w
      /\ history w' = history w ++ [CallInput lo hi prompt]
  | Pending w' =>
      Forall (outOfRange lo hi) (inputs w) /\ inputs w' = []
      /\ rands w' = rands w
  end.
Proof. exact (getValidInput_spec lo hi prompt w). Qed.

Lemma rem2_even (r : N) : (Z.rem (Z.of_N r) 2 =? 0) = N.even r.
Proof.
  rewrite Z.rem_mod_nonneg by lia. rewrite Zmod_even.
  assert (Z.even (Z.of_N r) = N.even r) as ->
    by (destruct r as [|[p|p|]]; reflexivity).
  now destruct (N.even r).
Qed.

(** X18. The coin: with a valid choice typed next, [coinFlip] reads that
    choice and one random number; choice 1 (heads) wins exactly when the
    number is even and choice 2 (tails) exactly when it is odd, so for one
    random number the two choices have opposite outcomes. *)
Theorem coinFlip_outcome (w : World) (c : Z) (rest : list Z) (r : N) (rs : list N) :
  inputs w = c :: rest -> c = 1 \/ c = 2 -> rands w = r :: rs ->
  coinFlip w
  = Done (Bool.eqb (c =? 1) (N.even r))
      (mkWorld rest rs
         (history w ++ [CallInput 1 2 coinFlipPrompt; CallRand])).
Proof.
  intros Hin Hc Hr. unfold coinFlip, bind, getValidInput, rand, ret.
  rewrite Hin. rewrite readValid_head by lia. cbn [inputs rands history].
  rewrite Hr. rewrite rem2_even. unfold push_back. rewrite <- app_assoc.
  cbn [app]. f_equal.
  destruct Hc as [-> | ->]; cbn [Z.eqb Pos.eqb]; destruct (N.even r); reflexivity.
Qed.

Lemma coinFlip_outcome_witness :
  let heads := mkWorld [1] [7%N] [] in
  let tails := mkWorld [2] [7%N] [] in
  inputs heads = [1] /\ (1 = 1 \/ 1 = 2) /\ rands heads = [7%N]
  /\ coinFlip heads = Done false (mkWorld [] [] [CallInput 1 2 coinFlipPrompt; CallRand])
  /\ coinFlip tails = Done true (mkWorld [] [] [CallInput 1 2 coinFlipPrompt; CallRand]).
Proof.
  cbv zeta. split; [reflexivity|]. split; [now left|]. split; [reflexivity|].
  split.
  - apply (coinFlip_outcome (mkWorld [1] [7%N] []) 1 [] 7 []); auto.
  - apply (coinFlip_outcome (mkWorld [2] [7%N] []) 2 [] 7 []); auto.
Defined.

(** ** The rewards of a stage *)

Lemma drawUnused_spec (usedIndices : list Z) (rs : list N) :
  forall h,
    match drawUnused usedIndices rs h with
    | (Some i, _, _) => 0 <= i < 6 /\ ~ In i usedIndices
    | (None, rest, _) => rest = []
    end.
Proof.
  induction rs as [|r rest IH]; intros h; cbn [drawUnused]; [reflexivity|].
  cbv zeta.
  destruct (existsb _ usedIndices) eqn:E; [apply IH|].
  split.
  - change (Z.of_nat (List.length allItems)) with 6.
    apply Z.rem_bound_pos; lia.
  - intros Hin.
    assert (existsb
              (Z.eqb (Z.rem (Z.of_N r) (Z.of_nat (List.length allItems))))
              usedIndices = true); [|congruence].
    apply existsb_exists. eexists. split; [exact Hin|apply Z.eqb_refl].
Qed.

Lemma drawIndex_spec (usedIndices : list Z) (w : World) :
  match drawIndex usedIndices w with
  | Done i w' => 0 <= i < 6 /\ ~ In i usedIndices /\ inputs w' = inputs w
  | Pending w' => rands w' = []
  end.
Proof.
  unfold drawIndex.
  pose proof (drawUnused_spec usedIndices (rands w) (history w)) as H.
  destruct (drawUnused usedIndices (rands w) (history w)) as [[[i|] rest] h].
  - destruct H as [H1 H2]. split; [exact H1|]. split; [exact H2|reflexivity].
  - exact H.
Qed.

Lemma selectItems_spec (n : nat) :
  forall usedIndices selectedItems w,
    selection usedIndices selectedItems ->
    match selectItems n usedIndices selectedItems w with
    | Done items w' =>
        (exists used',
            selection used' items
            /\ List.length used' = (List.length usedIndices + n)%nat)
        /\ inputs w' = inputs w
    | Pending w' => rands w' = []
    end.
Proof.
  induction n as [|n IH]; intros used sel w Hsel; cbn [selectItems].
  - cbn. split; [|reflexivity]. exists used. split; [exact Hsel|lia].
  - unfold bind. pose proof (drawIndex_spec used w) as D.
    destruct (drawIndex used w) as [i w1|w1]; [|exact D].
    destruct D as (Hi & Hnew & Hin1).
    assert (Hsel' : selection (push_back used i) (push_back sel (itemAt i))).
    { destruct Hsel as (Hnd & Hrange & ->). unfold selection, push_back.
      split; [|split].
      - apply NoDup_app; [exact Hnd|repeat constructor; intros []|].
        intros x Hx [<-|[]]. contradiction.
      - apply Forall_app. split; [exact Hrange|]. now constructor.
      - now rewrite map_app. }
    specialize (IH _ _ w1 Hsel').
    fold (itemAt i).
    destruct (selectItems n (push_back used i) (push_back sel (itemAt i)) w1)
      as [items w2|w2]; [|exact IH].
    destruct IH as ((used' & Hs' & Hlen) & Hin2).
    split; [|congruence].
    exists used'. split; [exact Hs'|].
    rewrite Hlen. unfold push_back. rewrite length_app. cbn. lia.
Qed.

Lemma itemAt_cases (i : Z) :
  0 <= i < 6 ->
  (i = 0 /\ itemAt i = FireSword) \/ (i = 1 /\ itemAt i = IceShield)
  \/ (i = 2 /\ itemAt i = VampireRing) \/ (i = 3 /\ itemAt i = PoisonDagger)
  \/ (i = 4 /\ itemAt i = DragonScale) \/ (i = 5 /\ itemAt i = LightningOrb).
Proof.
  intros H.
  assert (i = 0 \/ i = 1 \/ i = 2 \/ i = 3 \/ i = 4 \/ i = 5)
    as [->|[->|[->|[->|[->| ->]]]]] by lia; auto 10.
Qed.

Lemma selection_items (used : list Z) (items : list Item) :
  selection used items ->
  NoDup items
  /\ List.length items = List.length used
  /\ Forall (fun i => isEquipment i = true /\ In i allItems) items.
Proof.
  intros (Hnd & Hrange & ->). rewrite Forall_forall in Hrange.
  split; [|split].
  - apply NoDup_map_NoDup_ForallPairs; [|exact Hnd].
    intros x y Hx Hy.
    destruct (itemAt_cases x (Hrange x Hx))
      as [[-> ->]|[[-> ->]|[[-> ->]|[[-> ->]|[[-> ->]|[-> ->]]]]]];
      destruct (itemAt_cases y (Hrange y Hy))
        as [[-> ->]|[[-> ->]|[[-> ->]|[[-> ->]|[[-> ->]|[-> ->]]]]]];
      intros E; (reflexivity || discriminate E).
  - apply length_map.
  - apply Forall_forall. intros it Hit. apply in_map_iff in Hit.
    destruct Hit as (i & <- & Hi).
    destruct (itemAt_cases i (Hrange i Hi))
      as [[-> ->]|[[-> ->]|[[-> ->]|[[-> ->]|[[-> ->]|[-> ->]]]]]];
      (split; [reflexivity|cbn; auto 10]).
Qed.

Lemma generateRandomItems_spec (w : World) :
  match generateRandomItems w with
  | Done items w' =>
      List.length items = 3%nat /\ NoDup items
      /\ Forall (fun i => isEquipment i = true /\ In i allItems) items
      /\ inputs w' = inputs w
  | Pending w' => rands w' = []
  end.
Proof.
  unfold generateRandomItems.
  assert (H0 : selection [] [])
    by (repeat split; constructor).
  pose proof (selectItems_spec 3 [] [] w H0) as H.
  destruct (selectItems 3 [] [] w) as [items w'|w']; [|exact H].
  destruct H as ((used' & Hsel & Hlen) & Hin).
  destruct (selection_items _ _ Hsel) as (Hnd & Hl & Hall).
  repeat split; try assumption. rewrite Hl, Hlen. reflexivity.
Qed.

(** X19. [generateRandomItems] offers three different items of equipment of
    the catalogue of six (drawn without replacement, never a potion) and
    reads no input; it is pending only when the random numbers have run
    out. *)
Theorem generateRandomItems_distinct (w : World) :
  match generateRandomItems w with
  | Done items w' =>
      List.length items = 3%nat /\ NoDup items
      /\ Forall (fun i => isEquipment i = true /\ In i allItems) items
      /\ inputs w' = inputs w
  | Pending w' => rands w' = []
  end.
Proof. exact (generateRandomItems_spec w). Qed.

Lemma dropPotions_spec (n : nat) :
  forall dropped w,
    match dropPotions n dropped w with
    | Done l w' =>
        (exists added,
            l = dropped ++ added /\ List.length added = n
            /\ Forall isPotionItem added)
        /\ inputs w' = inputs w
    | Pending w' => rands w' = []
    end.
Proof.
  induction n as [|n IH]; intros dropped w; cbn [dropPotions].
  - cbn. split; [|reflexivity]. exists []. rewrite app_nil_r.
    repeat split. constructor.
  - unfold bind, rand at 1.
    destruct (rands w) as [|r rest] eqn:Er; [reflexivity|].
    match goal with |- context [dropPotions n ?d ?w1] =>
      specialize (IH d w1); destruct (dropPotions n d w1) as [l w'|w'] end;
      [|exact IH].
    destruct IH as ((added & -> & Hlen & Hall) & Hin).
    split; [|exact Hin].
    eexists (_ :: added). unfold push_back. rewrite <- app_assoc.
    split; [reflexivity|]. split; [cbn; lia|].
    constructor; [|exact Hall].
    destruct (Z.rem (Z.of_N r) 2 =? 0); [now left|now right].
Qed.

Lemma generateRandomPotions_spec (w : World) :
  match generateRandomPotions w with
  | Done dropped w' =>
      (1 <= List.length dropped <= 3)%nat /\ Forall isPotionItem dropped
      /\ inputs w' = inputs w
  | Pending w' => rands w' = []
  end.
Proof.
  unfold generateRandomPotions, bind, rand at 1.
  destruct (rands w) as [|r rest] eqn:Er; [reflexivity|].
  pose proof (Z.rem_bound_pos (Z.of_N r) 3 ltac:(lia) ltac:(lia)) as Hb.
  match goal with |- context [dropPotions ?n [] ?w1] =>
    pose proof (dropPotions_spec n [] w1) as H;
    destruct (dropPotions n [] w1) as [l w'|w'] end; [|exact H].
  destruct H as ((added & -> & Hlen & Hall) & Hin).
  cbn [app]. split; [rewrite Hlen; lia|]. split; assumption.
Qed.

(** X20. [generateRandomPotions] drops one, two or three potions, each a
    health or a mana potion, and reads no input; it is pending only when
    the random numbers have run out. *)
Theorem generateRandomPotions_count (w : World) :
  match generateRandomPotions w with
  | Done dropped w' =>
      (1 <= List.length dropped <= 3)%nat /\ Forall isPotionItem dropped
      /\ inputs w' = inputs w
  | Pending w' => rands w' = []
  end.
Proof. exact (generateRandomPotions_spec w). Qed.

Lemma addItem_inventory (item : Item) (u : Unit) :
  (isPotionItem item ->
   equipment (addItem item u) = equipment u
   /\ exists p, potions (addItem item u) = potions u ++ [p])
  /\ (isEquipment item = true ->
      equipment (addItem item u) = equipment u ++ [item]
      /\ potions (addItem item u) = potions u).
Proof.
  split.
  - intros [-> | ->]; (split; [reflexivity|eexists; reflexivity]).
  - intros H. destruct item; try discriminate H; split; reflexivity.
Qed.

Lemma dropped_potions_inventory (dropped : list Item) :
  forall u,
    Forall isPotionItem dropped ->
    let u' := fold_left (fun p potion => addItem potion p) dropped u in
    equipment u' = equipment u
    /\ exists added,
         potions u' = potions u ++ added
         /\ List.length added = List.length dropped.
Proof.
  induction dropped as [|it r IH]; intros u Hall.
  - cbn. split; [reflexivity|]. exists []. now rewrite app_nil_r.
  - inversion Hall as [|? ? Hit Hr]; subst. cbn [fold_left]. cbv zeta.
    destruct (proj1 (addItem_inventory it u) Hit) as (He & p & Hp).
    destruct (IH (addItem it u) Hr) as (He2 & added & Ha & Hl).
    cbv zeta in He2, Ha. split; [congruence|].
    exists (p :: added). rewrite Ha, Hp, <- app_assoc.
    split; [reflexivity|cbn; lia].
Qed.

Lemma upgradeChoice_inventory (choice : Z) (u : Unit) :
  equipment (upgradeChoice choice u) = equipment u
  /\ potions (upgradeChoice choice u) = potions u.
Proof.
  unfold upgradeChoice.
  repeat (match goal with |- context [if ?c then _ else _] => destruct c end);
    split; reflexivity.
Qed.

(** X21. The rewards of a cleared stage: between one and three potions are
    appended to the player's potions, and after every stage but the fifth
    exactly one item of equipment of the catalogue is appended to the
    equipment (none after the fifth); nothing is taken from the inventory.
    The rewards are pending only when the inputs or the random numbers have
    run out. *)
Theorem stageRewards_inventory (stage : Z) (player : Unit) (w : World) :
  match stageRewards stage player w with
  | Done player' _ => rewarded stage player player'
  | Pending w' => inputs w' = [] \/ rands w' = []
  end.
Proof.
  unfold stageRewards. unfold bind at 1.
  pose proof (generateRandomPotions_spec w) as HP.
  destruct (generateRandomPotions w) as [dropped w1|w1]; [|now right].
  destruct HP as (Hlen & Hall & _).
  destruct (dropped_potions_inventory dropped player Hall)
    as (He1 & added & Ha & Hl).
  cbv zeta in He1, Ha.
  set (player1 := fold_left (fun p potion => addItem potion p) dropped player)
    in *.
  assert (Hadd : exists added0,
             potions player1 = potions player ++ added0
             /\ (1 <= List.length added0 <= 3)%nat)
    by (exists added; split; [exact Ha|lia]).
  unfold rewarded. destruct (stage <? 5).
  - unfold bind at 1.
    pose proof (getValidInput_spec 1 4 "Choose (1-4): " w1) as H1.
    destruct (getValidInput 1 4 "Choose (1-4): " w1) as [upgrade w2|w2];
      [|left; apply H1].
    clear H1. unfold bind at 1.
    pose proof (generateRandomItems_spec w2) as HI.
    destruct (generateRandomItems w2) as [items w3|w3]; [|now right].
    destruct HI as (Hl3 & _ & Hitems & _).
    unfold bind.
    pose proof (getValidInput_spec 1 3 "Choose item (1-3): " w3) as H2.
    destruct (getValidInput 1 3 "Choose item (1-3): " w3) as [c w4|w4];
      [|left; apply H2].
    destruct H2 as (Hc & _). cbn [ret].
    set (item := nth (Z.to_nat (c - 1)) items FireSword).
    assert (Hin : In item items) by (apply nth_In; lia).
    rewrite Forall_forall in Hitems. destruct (Hitems item Hin) as (Heq & Hcat).
    destruct (proj2 (addItem_inventory item (upgradeChoice upgrade player1)) Heq)
      as (He & Hp).
    destruct (upgradeChoice_inventory upgrade player1) as (Hue & Hup).
    split.
    + rewrite Hp, Hup. exact Hadd.
    + exists item. rewrite He, Hue, He1. auto.
  - cbn [ret]. split; [exact Hadd|].
    exists FireSword. rewrite He1, app_nil_r. cbn. auto.
Qed.

(** ** The end of a battle, and the invariant through the campaign *)

Lemma ensures_ret {A : Type} (a : A) (Q : A -> Prop) : Q a -> ensures (ret a) Q.
Proof. intros H w a' w' E. injection E as <- _. exact H. Qed.

Lemma ensures_bind {A B : Type} (m : IO A) (k : A -> IO B)
    (Q : A -> Prop) (R : B -> Prop) :
  ensures m Q -> (forall a, Q a -> ensures (k a) R) -> ensures (bind m k) R.
Proof.
  intros Hm Hk w b w' E. unfold bind in E.
  destruct (m w) as [a w1|w1] eqn:Em; [|discriminate].
  exact (Hk a (Hm _ _ _ Em) _ _ _ E).
Qed.

Lemma ensures_true {A : Type} (m : IO A) : ensures m (fun _ => True).
Proof. intros w a w' _. exact I. Qed.

Lemma ensures_pending {A : Type} (Q : A -> Prop) :
  ensures (fun w => Pending w) Q.
Proof. intros w a w' E. discriminate E. Qed.

Lemma ensures_getValidInput (lo hi : Z) (prompt : string) :
  ensures (getValidInput lo hi prompt) (fun c => lo <= c <= hi).
Proof.
  intros w c w' E.
  pose proof (getValidInput_spec lo hi prompt w) as H.
  rewrite E in H. apply H.
Qed.

Lemma round_exit (pf : bool) (player boss : Unit) :
  ensures (round pf player boss) roundExit.
Proof.
  unfold round. eapply ensures_bind; [apply ensures_true|]. intros _ _.
  destruct pf.
  - eapply ensures_bind; [apply ensures_true|]. intros [p b|p b] _.
    + destruct (negb (isAlive b)) eqn:E.
      * apply ensures_ret. cbn. now apply negb_true_iff in E.
      * eapply ensures_bind; [apply ensures_true|]. intros [b1 p2] _.
        now apply ensures_ret.
    + now apply ensures_ret.
  - eapply ensures_bind; [apply ensures_true|]. intros [b p] _.
    destruct (negb (isAlive (clearBattleLog p))) eqn:E.
    + apply ensures_ret. cbn. now apply negb_true_iff in E.
    + eapply ensures_bind; [apply ensures_true|].
      intros [p2 b3|p2 b3] _; now apply ensures_ret.
Qed.

Lemma combatLoop_exit (pf : bool) (fuel : nat) :
  forall player boss, ensures (combatLoop fuel pf player boss) battleExit.
Proof.
  induction fuel as [|fuel IH]; intros player boss; cbn [combatLoop];
    destruct (isAlive player && isAlive boss) eqn:E;
    try (now apply ensures_ret).
  - apply ensures_pending.
  - eapply ensures_bind; [apply round_exit|].
    intros [p b|p b|p b] Hr; [apply IH|apply ensures_ret..]; cbn in *.
    + rewrite Hr. apply andb_false_r.
    + exact Hr.
Qed.

(** X22. The combat loop is left only over a dead unit: when it ends by its
    condition or by the [break], the player or the boss has no health left;
    when it ends by the [return], the player has none. *)
Theorem battle_ends_over_a_dead_unit
    (fuel : nat) (playerFirst : bool) (player boss : Unit) (w : World) :
  match combatLoop fuel playerFirst player boss w with
  | Done (LoopEnded p b) _ => isAlive p = false \/ isAlive b = false
  | Done (Returned p _) _ => isAlive p = false
  | Pending _ => True
  end.
Proof.
  pose proof (combatLoop_exit playerFirst fuel player boss w) as H.
  destruct (combatLoop fuel playerFirst player boss w) as [[p b|p b] w'|w'];
    [| |exact I]; specialize (H _ _ eq_refl); cbn in H.
  - now apply andb_false_iff.
  - exact H.
Qed.

Lemma engine_ok_useSkill123 (self target : Unit) :
  engine_ok self -> engine_ok target ->
  bothOk (snd (fst (useSkill1 self target)), snd (useSkill1 self target))
  /\ bothOk (snd (fst (useSkill2 self target)), snd (useSkill2 self target))
  /\ bothOk (snd (fst (useSkill3 self target)), snd (useSkill3 self target)).
Proof.
  intros Hs Ht.
  pose proof (engine_ok_useSkill Skill1 self target Hs Ht) as H1.
  pose proof (engine_ok_useSkill Skill2 self target Hs Ht) as H2.
  pose proof (engine_ok_useSkill Skill3 self target Hs Ht) as H3.
  cbn [useSkill] in *.
  destruct (useSkill1 self target) as [[? ?] ?],
           (useSkill2 self target) as [[? ?] ?],
           (useSkill3 self target) as [[? ?] ?].
  repeat split; cbn [fst snd]; (apply H1 || apply H2 || apply H3).
Qed.

Lemma bothOk_showSkillsMenu (player target : Unit) :
  engine_ok player -> engine_ok target ->
  ensures (showSkillsMenu player target) bothOk.
Proof.
  intros Hp Ht. unfold showSkillsMenu.
  eapply ensures_bind; [apply ensures_true|]. intros c _.
  destruct (engine_ok_useSkill123 player target Hp Ht) as (H1 & H2 & H3).
  assert (H : bothOk
                (snd (fst (if c =? 1 then useSkill1 player target
                           else if c =? 2 then useSkill2 player target
                           else if c =? 3 then useSkill3 player target
                           else (false, player, target))),
                 snd (if c =? 1 then useSkill1 player target
                      else if c =? 2 then useSkill2 player target
                      else if c =? 3 then useSkill3 player target
                      else (false, player, target)))).
  { destruct (c =? 1); [exact H1|]. destruct (c =? 2); [exact H2|].
    destruct (c =? 3); [exact H3|]. split; assumption. }
  destruct (if c =? 1 then _ else _) as [[used p1] t1].
  cbn [fst snd] in H. destruct H as [Hp1 Ht1].
  destruct (negb used); apply ensures_ret.
  - split; apply engine_ok_attack; assumption.
  - split; assumption.
Qed.

Lemma engine_ok_showInventory (u : Unit) :
  engine_ok u -> ensures (showInventory u) (fun r => engine_ok (snd r)).
Proof.
  intros Hu. unfold showInventory.
  assert (H : forall n, ensures
            (choice <- getValidInput 0 n "Enter your choice: " ;;
             if 0 <? choice then ret (true, snd (usePotion (choice - 1) u))
             else ret (false, u)) (fun r => engine_ok (snd r))).
  { intros n. eapply ensures_bind; [apply ensures_true|]. intros c _.
    destruct (0 <? c); apply ensures_ret; cbn [snd];
      [now apply engine_ok_usePotion|exact Hu]. }
  destruct (equipment u), (potions u); try (now apply ensures_ret); apply H.
Qed.

Lemma bothOk_playerTurn (player boss : Unit) :
  engine_ok player -> engine_ok boss ->
  ensures (playerTurn player boss) (fun t => bothOk (unitsOfTurn t)).
Proof.
  intros Hp Hb. unfold playerTurn.
  eapply ensures_bind; [apply ensures_true|]. intros _ _.
  destruct (hasStatus STUN player).
  { apply ensures_ret. split; cbn; auto with engine. }
  eapply ensures_bind; [apply ensures_true|]. intros action _.
  assert (Hp1 : engine_ok (addToBattleLog (NL ++ "=== YOUR TURN ===") player))
    by auto with engine.
  destruct (action =? 1).
  { pose proof (engine_ok_attack _ boss Hp1 Hb) as H.
    destruct (attack _ boss). apply ensures_ret. exact H. }
  destruct (action =? 2).
  { eapply ensures_bind; [apply bothOk_showSkillsMenu; assumption|].
    intros [p b] H. apply ensures_ret. exact H. }
  destruct (action =? 3).
  { eapply ensures_bind; [apply engine_ok_showInventory; exact Hp1|].
    intros [used p] H. cbn [snd] in H.
    destruct used; apply ensures_ret; split; assumption. }
  destruct (action =? 4); apply ensures_ret; split; cbn; auto with engine.
Qed.

Lemma bothOk_bossTurn (boss player : Unit) :
  engine_ok boss -> engine_ok player ->
  ensures (bossTurn boss player) bothOk.
Proof.
  intros Hb Hp. unfold bossTurn.
  eapply ensures_bind; [apply ensures_true|]. intros _ _.
  destruct (hasStatus STUN boss).
  { apply ensures_ret. split; cbn; auto with engine. }
  eapply ensures_bind; [apply ensures_true|]. intros r _.
  destruct (Z.rem r 4 =? 3).
  { apply ensures_ret. split; apply engine_ok_attack; auto with engine. }
  match goal with |- context [useSkill1 boss ?p] =>
    assert (Hp2 : engine_ok p) by auto with engine;
    destruct (engine_ok_useSkill123 boss p Hb Hp2) as (H1 & _ & _) end.
  match goal with |- context [useSkill2 boss ?p] =>
    assert (Hp3 : engine_ok p) by auto with engine;
    destruct (engine_ok_useSkill123 boss p Hb Hp3) as (_ & H2 & _) end.
  match goal with |- context [useSkill3 boss ?p] =>
    assert (Hp4 : engine_ok p) by auto with engine;
    destruct (engine_ok_useSkill123 boss p Hb Hp4) as (_ & _ & H3) end.
  destruct (Z.rem r 4 =? 0).
  { destruct (useSkill1 boss _) as [[ok b] p]. apply ensures_ret. exact H1. }
  destruct (Z.rem r 4 =? 1).
  { destruct (useSkill2 boss _) as [[ok b] p]. apply ensures_ret. exact H2. }
  destruct (Z.rem r 4 =? 2).
  { destruct (useSkill3 boss _) as [[ok b] p]. apply ensures_ret. exact H3. }
  apply ensures_ret. split; cbn; auto with engine.
Qed.

Lemma bothOk_round (pf : bool) (player boss : Unit) :
  engine_ok player -> engine_ok boss ->
  ensures (round pf player boss) (fun r => bothOk (unitsOfRound r)).
Proof.
  intros Hp Hb. unfold round.
  eapply ensures_bind; [apply ensures_true|]. intros _ _.
  assert (Hp0 : engine_ok (clearBattleLog player)) by auto with engine.
  assert (Hb0 : engine_ok (clearBattleLog boss)) by auto with engine.
  destruct pf.
  - eapply ensures_bind; [apply bothOk_playerTurn; assumption|].
    intros [p b|p b] [H1 H2]; cbn [unitsOfTurn fst snd] in *.
    + destruct (negb (isAlive b)).
      * apply ensures_ret. split; cbn;
          [now apply engine_ok_processStatusEffects|assumption].
      * eapply ensures_bind;
          [apply bothOk_bossTurn;
           [assumption|now apply engine_ok_processStatusEffects]|].
        intros [b1 p2] [H3 H4]. apply ensures_ret. split; cbn in *;
          [assumption|now apply engine_ok_processStatusEffects].
    + apply ensures_ret. split; cbn;
        [now apply engine_ok_processStatusEffects|assumption].
  - eapply ensures_bind; [apply bothOk_bossTurn; assumption|].
    intros [b p] [H1 H2]; cbn [fst snd] in *.
    assert (Hb1 : engine_ok (clearBattleLog (processStatusEffects b)))
      by (apply engine_ok_clearBattleLog; now apply engine_ok_processStatusEffects).
    assert (Hp1 : engine_ok (clearBattleLog p)) by auto with engine.
    destruct (negb (isAlive (clearBattleLog p))).
    + apply ensures_ret. split; assumption.
    + eapply ensures_bind; [apply bothOk_playerTurn; assumption|].
      intros [p2 b3|p2 b3] [H3 H4]; cbn [unitsOfTurn fst snd] in *;
        apply ensures_ret; split; cbn;
        (assumption || now apply engine_ok_processStatusEffects).
Qed.

Lemma bothOk_combatLoop (pf : bool) (fuel : nat) :
  forall player boss,
    engine_ok player -> engine_ok boss ->
    ensures (combatLoop fuel pf player boss)
      (fun r => bothOk (unitsOfBattle r)).
Proof.
  induction fuel as [|fuel IH]; intros player boss Hp Hb; cbn [combatLoop];
    destruct (isAlive player && isAlive boss);
    try (apply ensures_ret; split; assumption).
  - apply ensures_pending.
  - eapply ensures_bind; [apply bothOk_round; assumption|].
    intros [p b|p b|p b] [H1 H2]; cbn [unitsOfRound fst snd] in *;
      [now apply IH|apply ensures_ret; split; assumption..].
Qed.

Lemma engine_ok_fold_addItem (items : list Item) :
  forall u, engine_ok u ->
  engine_ok (fold_left (fun p potion => addItem potion p) items u).
Proof.
  induction items as [|it r IH]; intros u Hu; [exact Hu|].
  cbn [fold_left]. apply IH. now apply engine_ok_addItem.
Qed.

Lemma engine_ok_stageRewards (stage : Z) (player : Unit) :
  engine_ok player -> ensures (stageRewards stage player) engine_ok.
Proof.
  intros Hp. unfold stageRewards.
  eapply ensures_bind; [apply ensures_true|]. intros dropped _.
  pose proof (engine_ok_fold_addItem dropped player Hp) as H1.
  destruct (stage <? 5); [|now apply ensures_ret].
  eapply ensures_bind; [apply ensures_true|]. intros upgrade _.
  eapply ensures_bind; [apply ensures_true|]. intros items _.
  eapply ensures_bind; [apply ensures_true|]. intros c _.
  apply ensures_ret. apply engine_ok_addItem. now apply engine_ok_upgradeChoice.
Qed.

Lemma engine_ok_stageLoop (fuel todo : nat) :
  forall stage player,
    1 <= stage -> engine_ok player ->
    ensures (stageLoop fuel todo stage player) engine_ok.
Proof.
  induction todo as [|todo IH]; intros stage player Hst Hp; cbn [stageLoop].
  - now apply ensures_ret.
  - eapply ensures_bind; [apply ensures_true|]. intros _ _.
    assert (Hb : engine_ok (newBoss stage))
      by (unfold newBoss, newBossUnit; apply newUnit_engine_ok; lia).
    eapply ensures_bind.
    { unfold stageBattle.
      eapply ensures_bind; [apply ensures_true|]. intros pf _.
      eapply ensures_bind; [apply ensures_true|]. intros _ _.
      apply bothOk_combatLoop; assumption. }
    intros [p b|p b] [H1 H2]; cbn [unitsOfBattle fst snd] in *;
      [|now apply ensures_ret].
    destruct (negb (isAlive p)); [now apply ensures_ret|].
    eapply ensures_bind; [now apply engine_ok_stageRewards|].
    intros p1 Hp1. apply IH; [lia|assumption].
Qed.

(** X23. The invariant holds through the game: if the player (and the boss)
    satisfy it, so do both units after any round and after any battle, and
    so does the player a campaign returns; in particular its health and mana
    are within their bounds. *)
Theorem campaign_keeps_invariant (fuel : nat) (player : Unit) (w : World) :
  engine_ok player ->
  (forall (playerFirst : bool) (boss : Unit),
      engine_ok boss ->
      match round playerFirst player boss w with
      | Done r _ => bothOk (unitsOfRound r)
      | Pending _ => True
      end
      /\ match combatLoop fuel playerFirst player boss w with
         | Done r _ => bothOk (unitsOfBattle r)
         | Pending _ => True
         end)
  /\ match gameLoop fuel player w with
     | Done p _ => engine_ok p /\ vitals_ok p
     | Pending _ => True
     end.
Proof.
  intros Hp. split.
  - intros pf boss Hb. split.
    + pose proof (bothOk_round pf player boss Hp Hb w) as H.
      destruct (round pf player boss w); [now apply (H _ _ eq_refl)|exact I].
    + pose proof (bothOk_combatLoop pf fuel player boss Hp Hb w) as H.
      destruct (combatLoop fuel pf player boss w);
        [now apply (H _ _ eq_refl)|exact I].
  - unfold gameLoop.
    pose proof (engine_ok_stageLoop fuel 5 1 player ltac:(lia) Hp w) as H.
    destruct (stageLoop fuel 5 1 player w) as [p w'|w']; [|exact I].
    specialize (H _ _ eq_refl). split; [exact H|apply H].
Qed.

Lemma campaign_keeps_invariant_witness :
  let w :=
    mkWorld [1; 1; 2; 1; 1; 3; 1; 4; 1; 1; 1; 1; 1; 1; 1; 1; 1; 1; 1; 1]
      [0; 0; 1; 2; 3; 0; 1; 2; 3; 4; 5; 6; 7; 3; 3; 3; 3; 3; 3; 3; 3; 3]%N
      [] in
  engine_ok (newWarrior "Hero")
  /\ exists p w',
       gameLoop 100 (newWarrior "Hero") w = Done p w' /\ vitals_ok p.
Proof.
  cbv zeta.
  assert (Hok : engine_ok (newWarrior "Hero"))
    by (apply newUnit_engine_ok; lia).
  split; [exact Hok|].
  destruct (campaign_keeps_invariant 100 (newWarrior "Hero")
              (mkWorld
                 [1; 1; 2; 1; 1; 3; 1; 4; 1; 1; 1; 1; 1; 1; 1; 1; 1; 1; 1; 1]
                 [0; 0; 1; 2; 3; 0; 1; 2; 3; 4; 5; 6; 7; 3; 3; 3; 3; 3; 3; 3;
                  3; 3]%N []) Hok) as (_ & H).
  destruct (gameLoop 100 (newWarrior "Hero") _) as [p w'|w'] eqn:E.
  - exists p, w'. split; [reflexivity|apply H].
  - exfalso. vm_compute in E. discriminate E.
Defined.

(** ** The creation of the player and the skills menu *)

(** X24. [createPlayer] makes the warrior, the archer or the mage for the
    first choice typed that lies in 1 to 3 (1, 2 and 3 in this order): the
    player bears the name given, is at full health and mana, alive, with no
    status effect, no inventory and an empty battle log, and satisfies the
    invariant of the engine.  It is pending when no such choice is typed. *)
Theorem createPlayer_fresh (playerName : string) (w : World) :
  match createPlayer playerName w with
  | Done p w' =>
      (exists c rejected,
          inputs w = rejected ++ c :: inputs w'
          /\ Forall (outOfRange 1 3) rejected
          /\ p = (if c =? 1 then newWarrior playerName
                  else if c =? 2 then newArcher playerName
                  else newMage playerName))
      /\ freshPlayer playerName p /\ isAlive p = true /\ engine_ok p
  | Pending w' => inputs w' = []
  end.
Proof.
  unfold createPlayer, bind.
  pose proof (getValidInput_spec 1 3 "Choose (1-3): " w) as H.
  destruct (getValidInput 1 3 "Choose (1-3): " w) as [c w1|w1]; [|apply H].
  destruct H as (Hc & (rej & Hin & Hrej) & _).
  assert (c = 1 \/ c = 2 \/ c = 3) as [->|[->| ->]] by lia;
    cbn [Z.eqb Pos.eqb ret];
    (split; [eexists; exists rej; split; [exact Hin|]; split;
             [exact Hrej|reflexivity]|]);
    (split; [repeat split|]); (split; [reflexivity|]);
    apply newUnit_engine_ok; lia.
Qed.

Lemma useSkill_ok (k : SkillSlot) (self target : Unit) :
  getSkillCost k self <= mana self ->
  fst (fst (useSkill k self target)) = true.
Proof.
  intros Hm. apply Z.ltb_ge in Hm.
  destruct k; cbn [getSkillCost] in Hm;
    unfold useSkill, useSkill1, useSkill2, useSkill3;
    destruct (class self);
    unfold WarriorSkills.useSkill1, WarriorSkills.useSkill2,
      WarriorSkills.useSkill3, ArcherSkills.useSkill1, ArcherSkills.useSkill2,
      ArcherSkills.useSkill3, MageSkills.useSkill1, MageSkills.useSkill2,
      MageSkills.useSkill3, BossSkills.useSkill1, BossSkills.useSkill2,
      BossSkills.useSkill3;
    rewrite Hm; reflexivity.
Qed.

(** X25. A skill chosen in the menu that the player can pay is used and is
    not followed by a basic attack: the menu hands back the caller and the
    target as the skill leaves them, having read the one choice. *)
Theorem showSkillsMenu_uses_skill
    (k : SkillSlot) (player target : Unit) (w : World) (rest : list Z) :
  inputs w = slotNumber k :: rest ->
  getSkillCost k player <= mana player ->
  showSkillsMenu player target w
  = Done (skillSelf (useSkill k player target),
          skillTarget (useSkill k player target))
      (mkWorld rest (rands w) (history w ++ [CallInput 1 3 skillsPrompt])).
Proof.
  intros Hin Hm. unfold showSkillsMenu, bind, getValidInput. rewrite Hin.
  rewrite readValid_head by (destruct k; cbn; lia).
  pose proof (useSkill_ok k player target Hm) as F.
  unfold skillSelf, skillTarget.
  destruct k; cbn [slotNumber useSkill] in *; cbn [Z.eqb Pos.eqb];
    [ destruct (useSkill1 player target) as [[used p1] t1]
    | destruct (useSkill2 player target) as [[used p1] t1]
    | destruct (useSkill3 player target) as [[used p1] t1] ];
    cbn [fst snd] in *; subst used; reflexivity.
Qed.

Lemma showSkillsMenu_uses_skill_witness :
  let player := newMage "Hero" in
  let w := mkWorld [1; 4] [3%N] [] in
  inputs w = slotNumber Skill1 :: [4]
  /\ getSkillCost Skill1 player <= mana player
  /\ exists player' boss' w',
       showSkillsMenu player (newBoss 1) w = Done (player', boss') w'
       /\ mana player' = 60 /\ health boss' = 45
       /\ battleLog player'
          = ["Hero casts Fireball on Goblin King for 45 damage!";
             "Goblin King's HP: 90 -> 45/90"].
Proof.
  cbv zeta. split; [reflexivity|]. split; [cbn; lia|].
  eexists. eexists. eexists. split.
  - apply (showSkillsMenu_uses_skill Skill1 (newMage "Hero") (newBoss 1)
             (mkWorld [1; 4] [3%N] []) [4] eq_refl). cbn. lia.
  - repeat split.
Defined.

(** ** Permanent statistics *)

Lemma statsNotLower_refl (u : Unit) : statsNotLower u u.
Proof. unfold statsNotLower. lia. Qed.

Lemma statsNotLower_trans (a b c : Unit) :
  statsNotLower a b -> statsNotLower b c -> statsNotLower a c.
Proof. unfold statsNotLower. lia. Qed.

Lemma statsNotLower_tick (u : Unit) : statsNotLower u (processStatusEffects u).
Proof.
  unfold processStatusEffects.
  pose proof (tickLoop_unit (statusEffects u) u) as U.
  destruct (tickLoop (statusEffects u) u) as [[m' rem] u1].
  cbn [snd] in U. cbv zeta in U. destruct U as (F & _).
  pose proof (removeLoop_unit rem (set_statusEffects m' u1)) as Q.
  cbv zeta in Q. destruct Q as (F2 & _).
  unfold tick_frame in F, F2. unit_fields. unfold statsNotLower.
  destruct F as (_ & _ & F3 & F4 & _ & F6 & F7 & _).
  destruct F2 as (_ & _ & -> & -> & _ & -> & -> & _). lia.
Qed.

Lemma statsNotLower_usePotion (index : Z) (u : Unit) :
  statsNotLower u (snd (usePotion index u)).
Proof.
  unfold usePotion. destruct (_ || _); [apply statsNotLower_refl|].
  destruct (nth_error (potions u) (Z.to_nat index)) as [p|];
    [|apply statsNotLower_refl].
  destruct (isHealthPotion p); unfold statsNotLower, heal, restoreMana;
    cbn [snd]; unit_fields; lia.
Qed.

(** X26. The permanent statistics only grow: no mutation the engine
    performs on a unit, no skill and no basic attack lowers the maximum
    health, the maximum mana, the base attack or the defense of the caller
    or of the target. *)
Theorem stats_never_decrease :
  (forall (m : Mutation) (u : Unit), statsNotLower u (mutate m u))
  /\ (forall (k : SkillSlot) (self target : Unit),
        statsNotLower self (skillSelf (useSkill k self target))
        /\ statsNotLower target (skillTarget (useSkill k self target)))
  /\ (forall self target : Unit,
        statsNotLower self (fst (attack self target))
        /\ statsNotLower target (snd (attack self target))).
Proof.
  split; [|split].
  - intros m u. destruct m; cbn [mutate];
      try apply statsNotLower_usePotion; try apply statsNotLower_tick;
      try (unfold statsNotLower, heal, restoreMana, addStatus, clearStatus;
           rewrite ?takeDamage_eq; unit_fields; lia).
    + unfold upgradeChoice.
      repeat (match goal with |- context [if ?c then _ else _] =>
                destruct c end);
        unfold statsNotLower, heal, restoreMana, increaseAttack,
          increaseDefense; unit_fields; lia.
    + destruct item; unfold statsNotLower, addItem, applyEffect,
        increaseAttack, increaseMaxHealth, increaseDefense;
        cbn [ItemData.getType ItemData.getAttackBonus ItemData.getHealthBonus
             ItemData.getDefenseBonus ItemData.getManaBonus];
        unit_fields; lia.
  - intros k self target. unfold skillSelf, skillTarget, statsNotLower.
    destruct k; unfold useSkill, useSkill1, useSkill2, useSkill3;
      destruct (class self);
      unfold WarriorSkills.useSkill1, WarriorSkills.useSkill2,
        WarriorSkills.useSkill3, ArcherSkills.useSkill1,
        ArcherSkills.useSkill2, ArcherSkills.useSkill3, MageSkills.useSkill1,
        MageSkills.useSkill2, MageSkills.useSkill3, BossSkills.useSkill1,
        BossSkills.useSkill2, BossSkills.useSkill3;
      match goal with |- context [mana self <? ?c] =>
        destruct (mana self <? c) end;
      cbn [fst snd]; unfold addStatus, heal;
      rewrite ?takeDamage_eq; unit_fields;
      rewrite ?takeDamage_eq; unit_fields; lia.
  - intros self target. unfold attack, statsNotLower. cbn [fst snd].
    rewrite takeDamage_eq. unit_fields. lia.
Qed.

(** ** The stages of a campaign *)

Lemma emits_ret {A : Type} (P : Event -> Prop) (a : A) : emits P (ret a).
Proof. intros w. exists []. cbn. now rewrite app_nil_r. Qed.

Lemma emits_pending {A : Type} (P : Event -> Prop) :
  emits P (fun w => @Pending A w).
Proof. intros w. exists []. cbn. now rewrite app_nil_r. Qed.

Lemma emits_bind {A B : Type} (P : Event -> Prop) (m : IO A) (k : A -> IO B) :
  emits P m -> (forall a, emits P (k a)) -> emits P (bind m k).
Proof.
  intros Hm Hk w. unfold bind. destruct (Hm w) as (t1 & Hh & Hp).
  destruct (m w) as [a w1|w1]; cbn [world_of] in *.
  - destruct (Hk a w1) as (t2 & Hh2 & Hp2). exists (t1 ++ t2).
    split; [rewrite Hh2, Hh; now rewrite app_assoc|now apply Forall_app].
  - exists t1. now split.
Qed.

Lemma emits_mark (P : Event -> Prop) (e : Event) : P e -> emits P (mark e).
Proof. intros H w. exists [e]. split; [reflexivity|now constructor]. Qed.

Lemma emits_rand (P : Event -> Prop) : P CallRand -> emits P rand.
Proof.
  intros H w. exists [CallRand]. unfold rand.
  destruct (rands w); (split; [reflexivity|now constructor]).
Qed.

Lemma emits_getValidInput (P : Event -> Prop) (lo hi : Z) (prompt : string) :
  P (CallInput lo hi prompt) -> emits P (getValidInput lo hi prompt).
Proof.
  intros H w. exists [CallInput lo hi prompt]. unfold getValidInput.
  destruct (readValid lo hi (inputs w)) as [[c rest]|];
    (split; [reflexivity|now constructor]).
Qed.

Lemma emits_drawIndex (used : list Z) : emits withinStage (drawIndex used).
Proof.
  intros w. unfold drawIndex.
  destruct (drawUnused_history used (rands w) (history w)) as (k & Hk).
  exists (repeat CallRand k).
  assert (Forall withinStage (repeat CallRand k))
    by (apply Forall_forall; intros e He; apply repeat_spec in He; now subst).
  destruct (drawUnused used (rands w) (history w)) as [[[i|] rest] h];
    cbn [snd world_of history] in *; now split.
Qed.

(** Discharge [emits withinStage] over a computation made of binds, tests
    and the primitives. *)
Ltac within_stage :=
  repeat first
    [ apply emits_ret
    | apply emits_pending
    | apply emits_rand; exact I
    | apply emits_getValidInput; exact I
    | apply emits_mark; exact I
    | apply emits_drawIndex
    | assumption
    | apply emits_bind; [|intros ?]
    | match goal with
      | |- emits _ (let '(_, _) := ?x in _) => destruct x
      | |- emits _ (match ?x with _ => _ end) => destruct x
      end ].

Lemma emits_showSkillsMenu (player target : Unit) :
  emits withinStage (showSkillsMenu player target).
Proof. unfold showSkillsMenu. within_stage. Qed.

Lemma emits_showInventory (u : Unit) : emits withinStage (showInventory u).
Proof. unfold showInventory. within_stage. Qed.

Lemma emits_playerTurn (player boss : Unit) :
  emits withinStage (playerTurn player boss).
Proof.
  unfold playerTurn.
  pose proof emits_showSkillsMenu. pose proof emits_showInventory.
  within_stage; auto.
Qed.

Lemma emits_bossTurn (boss player : Unit) :
  emits withinStage (bossTurn boss player).
Proof. unfold bossTurn. within_stage. Qed.

Lemma emits_round (pf : bool) (player boss : Unit) :
  emits withinStage (round pf player boss).
Proof.
  unfold round.
  apply emits_bind; [apply emits_mark; exact I|]. intros _.
  destruct pf.
  - apply emits_bind; [apply emits_playerTurn|]. intros [p b|p b];
      [|apply emits_ret].
    destruct (negb (isAlive b)); [apply emits_ret|].
    apply emits_bind; [apply emits_bossTurn|]. intros [b1 p2]. apply emits_ret.
  - apply emits_bind; [apply emits_bossTurn|]. intros [b p].
    destruct (negb (isAlive (clearBattleLog p))); [apply emits_ret|].
    apply emits_bind; [apply emits_playerTurn|].
    intros [p2 b3|p2 b3]; apply emits_ret.
Qed.

Lemma emits_combatLoop (pf : bool) (fuel : nat) :
  forall player boss, emits withinStage (combatLoop fuel pf player boss).
Proof.
  induction fuel as [|fuel IH]; intros player boss; cbn [combatLoop];
    destruct (isAlive player && isAlive boss); try apply emits_ret.
  - apply emits_pending.
  - apply emits_bind; [apply emits_round|].
    intros [p b|p b|p b]; [apply IH|apply emits_ret..].
Qed.

Lemma emits_stageBattle (fuel : nat) (player boss : Unit) :
  emits withinStage (stageBattle fuel player boss).
Proof.
  unfold stageBattle, coinFlip.
  apply emits_bind; [within_stage|]. intros pf.
  apply emits_bind; [apply emits_mark; exact I|]. intros _.
  apply emits_combatLoop.
Qed.

Lemma emits_selectItems (n : nat) :
  forall used sel, emits withinStage (selectItems n used sel).
Proof.
  induction n as [|n IH]; intros used sel; cbn [selectItems];
    [apply emits_ret|].
  apply emits_bind; [apply emits_drawIndex|]. intros i. apply IH.
Qed.

Lemma emits_dropPotions (n : nat) :
  forall dropped, emits withinStage (dropPotions n dropped).
Proof.
  induction n as [|n IH]; intros dropped; cbn [dropPotions];
    [apply emits_ret|].
  apply emits_bind; [apply emits_rand; exact I|]. intros r. apply IH.
Qed.

Lemma emits_stageRewards (stage : Z) (player : Unit) :
  emits withinStage (stageRewards stage player).
Proof.
  unfold stageRewards, generateRandomPotions, generateRandomItems.
  apply emits_bind.
  { apply emits_bind; [apply emits_rand; exact I|]. intros r.
    apply emits_dropPotions. }
  intros dropped. destruct (stage <? 5); [|apply emits_ret].
  apply emits_bind; [apply emits_getValidInput; exact I|]. intros upgrade.
  apply emits_bind; [apply emits_selectItems|]. intros items.
  apply emits_bind; [apply emits_getValidInput; exact I|]. intros c.
  apply emits_ret.
Qed.

Lemma stagesStarted_app (t1 t2 : list Event) :
  stagesStarted (t1 ++ t2) = stagesStarted t1 ++ stagesStarted t2.
Proof.
  induction t1 as [|e r IH]; [reflexivity|].
  destruct e; cbn; rewrite IH; reflexivity.
Qed.

Lemma stagesStarted_within (t : list Event) :
  Forall withinStage t -> stagesStarted t = [].
Proof.
  induction 1 as [|e r He _ IH]; [reflexivity|].
  destruct e; cbn in *; (contradiction || exact IH).
Qed.

Lemma stageLoop_stages (fuel todo : nat) :
  forall stage player w,
  exists t k,
    history (world_of (stageLoop fuel todo stage player w)) = history w ++ t
    /\ stagesStarted t = stagesFrom stage k /\ (k <= todo)%nat
    /\ match stageLoop fuel todo stage player w with
       | Done p _ => isAlive p = true -> k = todo
       | Pending _ => True
       end.
Proof.
  induction todo as [|todo IH]; intros stage player w.
  - exists [], 0%nat. cbn. rewrite app_nil_r. auto.
  - remember (stageLoop fuel (S todo) stage player w) as res eqn:Eres.
    cbn [stageLoop] in Eres. unfold bind at 1 in Eres. cbn [mark] in Eres.
    cbv beta iota in Eres.
    set (w1 := mkWorld (inputs w) (rands w)
                 (push_back (history w) (StageStart stage))) in Eres.
    assert (Hw1 : forall t, history w1 ++ t = history w ++ StageStart stage :: t)
      by (intros t; subst w1; cbn; unfold push_back; now rewrite <- app_assoc).
    unfold bind at 1 in Eres.
    destruct (emits_stageBattle fuel player (newBoss stage) w1)
      as (t1 & Hh1 & Hq1).
    pose proof (stagesStarted_within _ Hq1) as Hs1.
    assert (Hexit : ensures (stageBattle fuel player (newBoss stage)) battleExit).
    { unfold stageBattle.
      eapply ensures_bind; [apply ensures_true|]. intros pf _.
      eapply ensures_bind; [apply ensures_true|]. intros _ _.
      apply combatLoop_exit. }
    specialize (Hexit w1).
    destruct (stageBattle fuel player (newBoss stage) w1) as [b w2|w2];
      cbn [world_of] in Hh1.
    + specialize (Hexit _ _ eq_refl).
      destruct b as [p bo|p bo].
      * destruct (negb (isAlive p)) eqn:Ea.
        { subst res. exists (StageStart stage :: t1), 1%nat. cbn [ret world_of].
          split; [now rewrite Hh1, Hw1|].
          split; [cbn; now rewrite Hs1|]. split; [lia|].
          apply negb_true_iff in Ea. congruence. }
        unfold bind in Eres.
        destruct (emits_stageRewards stage p w2) as (t2 & Hh2 & Hq2).
        pose proof (stagesStarted_within _ Hq2) as Hs2.
        destruct (stageRewards stage p w2) as [p1 w3|w3];
          cbn [world_of] in Hh2.
        { destruct (IH (stage + 1) p1 w3) as (t3 & k & Hh3 & Hs3 & Hk & Ha).
          subst res.
          exists (StageStart stage :: t1 ++ t2 ++ t3), (S k).
          split.
          { rewrite Hh3, Hh2, Hh1, <- !app_assoc, Hw1. reflexivity. }
          split.
          { cbn. rewrite !stagesStarted_app, Hs1, Hs2, Hs3. reflexivity. }
          split; [lia|].
          destruct (stageLoop fuel todo (stage + 1) p1 w3); [|exact I].
          intros H. now rewrite (Ha H). }
        { subst res. exists (StageStart stage :: t1 ++ t2), 1%nat.
          cbn [world_of].
          split; [rewrite Hh2, Hh1, <- !app_assoc, Hw1; reflexivity|].
          split; [cbn; now rewrite stagesStarted_app, Hs1, Hs2|].
          split; [lia|exact I]. }
      * subst res. exists (StageStart stage :: t1), 1%nat. cbn [ret world_of].
        split; [now rewrite Hh1, Hw1|].
        split; [cbn; now rewrite Hs1|]. split; [lia|].
        cbn in Hexit. congruence.
    + subst res. exists (StageStart stage :: t1), 1%nat. cbn [world_of] in *.
      split; [now rewrite Hh1, Hw1|].
      split; [cbn; now rewrite Hs1|]. split; [lia|exact I].
Qed.

(** X27. A campaign starts its stages in order, 1, 2, ... and at most five
    of them; when it returns a living player it has started all five. *)
Theorem campaign_stages_in_order
    (fuel : nat) (player : Unit) (typed : list Z) (drawn : list N) :
  let r := gameLoop fuel player (mkWorld typed drawn []) in
  exists k,
    stagesStarted (history (world_of r)) = stagesFrom 1 k /\ (k <= 5)%nat
    /\ match r with
       | Done p _ =>
           isAlive p = true ->
           stagesStarted (history (world_of r)) = [1; 2; 3; 4; 5]
       | Pending _ => True
       end.
Proof.
  cbv zeta. unfold gameLoop.
  destruct (stageLoop_stages fuel 5 1 player (mkWorld typed drawn []))
    as (t & k & Hh & Hs & Hk & Ha).
  cbn [history app] in Hh. exists k. rewrite Hh.
  split; [exact Hs|]. split; [exact Hk|].
  destruct (stageLoop fuel 5 1 player (mkWorld typed drawn [])); [|exact I].
  intros H. rewrite Hs, (Ha H). reflexivity.
Qed.

Lemma campaign_stages_in_order_witness :
  let typed := List.concat (repeat [3; 1; 1] 20) in
  let drawn := List.concat (repeat [2; 6; 10]%N 22) in
  exists p w',
    gameLoop 300 (newWarrior "Hero") (mkWorld typed drawn []) = Done p w'
    /\ isAlive p = true
    /\ stagesStarted (history w') = [1; 2; 3; 4; 5].
Proof.
  cbv zeta.
  set (w := mkWorld (List.concat (repeat [3; 1; 1] 20))
              (List.concat (repeat [2; 6; 10]%N 22)) []).
  destruct (campaign_stages_in_order 300 (newWarrior "Hero")
              (List.concat (repeat [3; 1; 1] 20))
              (List.concat (repeat [2; 6; 10]%N 22))) as (k & _ & _ & H).
  fold w in H.
  assert (Ha : match gameLoop 300 (newWarrior "Hero") w with
               | Done p _ => isAlive p
               | Pending _ => false
               end = true) by (vm_compute; reflexivity).
  destruct (gameLoop 300 (newWarrior "Hero") w) as [p w'|w'];
    [|discriminate Ha].
  exists p, w'. split; [reflexivity|]. split; [exact Ha|exact (H Ha)].
Defined.
